(** * EventStream configuration layer: schema unification and validation

    A shallow embedding of [EventStream/data/config.py], [EventStream/data/types.py]
    and the [JSONableMixin] of [EventStream/utils.py], together with the
    properties of the schema unifier, the source schemas, the dataset schema,
    the measurement configuration and the vocabulary arithmetic; then of the
    metadata cache, the dataset configuration, two utilities of
    [EventStream/utils.py] and the passage of a source through JSON.

    Python values that the code inspects by shape ([match] statements,
    [isinstance], [type(..) is ..]) are embedded in one universe [pyval];
    dictionaries whose iteration order is observable are association lists in
    insertion order; dictionaries that are only summed over are [gmap]s;
    raised exceptions are values of [exn] returned through [result]. *)

From Stdlib Require Import ZArith String List Bool Lia Floats.
From stdpp Require Import base option list gmap strings fin_maps fin_sets pretty.

Set Warnings "-register-all".

Open Scope Z_scope.
Open Scope string_scope.

(** ** Exceptions and the error monad *)

Inductive exn_class :=
| ValueError | TypeError | AttributeError | NotImplementedError | OSError.

Inductive result (E A : Type) : Type :=
| Ok (a : A)
| Raise (e : E).
Arguments Ok {E A} a.
Arguments Raise {E A} e.

Definition bind {E A B} (m : result E A) (k : A -> result E B) : result E B :=
  match m with
  | Ok a => k a
  | Raise e => Raise e
  end.

Notation "'do' x <- m ; k" := (bind m (fun x => k))
  (at level 10, x name, m at level 100, k at level 200).
Notation "'check' c 'else' e ; k" := (if c then k else Raise e)
  (at level 10, c at level 100, e at level 100, k at level 200).

Definition is_ok {E A} (m : result E A) : bool :=
  match m with Ok _ => true | Raise _ => false end.

(** [for x in l: acc = f acc x], stopping at the first exception. *)
Fixpoint foldM {E A B} (f : B -> A -> result E B) (l : list A) (b : B) : result E B :=
  match l with
  | [] => Ok b
  | x :: l' => do b' <- f b x; foldM f l' b'
  end.

(** ** Enumerations of [data/types.py]

    All of them are [StrEnum]s: a member is a [str] whose value is the
    lower-cased member name. *)

Inductive InputDFType := STATIC | EVENT | RANGE.

Inductive InputDataType := CATEGORICAL | FLOAT | TIMESTAMP | BOOLEAN.

Inductive TemporalityType := T_STATIC | T_DYNAMIC | T_FUNCTIONAL_TIME_DEPENDENT.

Inductive DataModality :=
| DROPPED
| SINGLE_LABEL_CLASSIFICATION
| MULTI_LABEL_CLASSIFICATION
| MULTIVARIATE_REGRESSION
| UNIVARIATE_REGRESSION.

Definition InputDataType_value (t : InputDataType) : string :=
  match t with
  | CATEGORICAL => "categorical"
  | FLOAT => "float"
  | TIMESTAMP => "timestamp"
  | BOOLEAN => "boolean"
  end.

Definition InputDFType_value (t : InputDFType) : string :=
  match t with
  | STATIC => "static"
  | EVENT => "event"
  | RANGE => "range"
  end.

(** Modelled from the spec: [StrEnum.values()], the list of the members'
    string values, is called by [config.py] but is not defined by the
    [StrEnum] of [utils.py]; the spec says a type is given either as the enum
    value or as its string form. *)
Definition InputDataType_values : list string :=
  map InputDataType_value [CATEGORICAL; FLOAT; TIMESTAMP; BOOLEAN].

#[global] Instance InputDFType_eq_dec : EqDecision InputDFType.
Proof. solve_decision. Defined.
#[global] Instance InputDataType_eq_dec : EqDecision InputDataType.
Proof. solve_decision. Defined.
#[global] Instance TemporalityType_eq_dec : EqDecision TemporalityType.
Proof. solve_decision. Defined.
#[global] Instance DataModality_eq_dec : EqDecision DataModality.
Proof. solve_decision. Defined.

(** ** Python values *)

Inductive pyval :=
| VNone
| VBool (b : bool)
| VInt (z : Z)
| VStr (s : string)
| VDataType (t : InputDataType)
| VList (l : list pyval)
| VTuple (l : list pyval)
| VDict (items : list (pyval * pyval)).

Record exn := Exn {
  exn_cls : exn_class;
  exn_msg : string;       (* the message, with the interpolated values left as {..} *)
  exn_args : list pyval   (* the interpolated values, in order *)
}.

Abbreviation res := (result exn).

(** [isinstance(v, str)]: plain strings and [StrEnum] members. *)
Definition is_str (v : pyval) : bool :=
  match v with VStr _ | VDataType _ => true | _ => false end.

Definition is_InputDataType (v : pyval) : bool :=
  match v with VDataType _ => true | _ => false end.

Definition is_list (v : pyval) : bool :=
  match v with VList _ => true | _ => false end.

Definition is_None (v : pyval) : bool :=
  match v with VNone => true | _ => false end.

(** [str(v)] of a string or of a [StrEnum] member (whose [__str__] is its value). *)
Definition py_str (v : pyval) : string :=
  match v with
  | VStr s => s
  | VDataType t => InputDataType_value t
  | _ => ""
  end.

(** What a sequence pattern matches: lists and tuples, never strings or dicts. *)
Definition as_sequence (v : pyval) : option (list pyval) :=
  match v with
  | VList l | VTuple l => Some l
  | _ => None
  end.

Definition seq2 (v : pyval) : option (pyval * pyval) :=
  match as_sequence v with
  | Some [a; b] => Some (a, b)
  | _ => None
  end.

Definition seq3 (v : pyval) : option (pyval * pyval * pyval) :=
  match as_sequence v with
  | Some [a; b; c] => Some (a, b, c)
  | _ => None
  end.

(** Python's [==]. A [StrEnum] member equals the string of its value, [True]
    and [False] equal [1] and [0], a list never equals a tuple, and two
    dictionaries are equal when they have the same number of items and every
    item of the first is an item of the second. *)
Fixpoint py_eq (a b : pyval) {struct a} : bool :=
  match a, b with
  | VNone, VNone => true
  | VBool x, VBool y => Bool.eqb x y
  | VBool x, VInt y | VInt y, VBool x => Z.eqb (if x then 1 else 0) y
  | VInt x, VInt y => Z.eqb x y
  | VStr s, VStr t => String.eqb s t
  | VStr s, VDataType t | VDataType t, VStr s => String.eqb s (InputDataType_value t)
  | VDataType s, VDataType t => bool_decide (s = t)
  | VList l, VList m | VTuple l, VTuple m =>
      (fix go (l m : list pyval) {struct l} : bool :=
         match l, m with
         | [], [] => true
         | x :: l', y :: m' => py_eq x y && go l' m'
         | _, _ => false
         end) l m
  | VDict l, VDict m =>
      Nat.eqb (length l) (length m) &&
      (fix all (l : list (pyval * pyval)) {struct l} : bool :=
         match l with
         | [] => true
         | (k, v) :: l' =>
             (fix find (m : list (pyval * pyval)) : bool :=
                match m with
                | [] => false
                | (k', v') :: m' => if py_eq k k' then py_eq v v' else find m'
                end) m && all l'
         end) l
  | _, _ => false
  end.

(** [for x in v]: the elements of a list or tuple, the keys of a dictionary,
    the characters of a string; anything else is not iterable. *)
Fixpoint string_chars (s : string) : list pyval :=
  match s with
  | EmptyString => []
  | String c s' => VStr (String c EmptyString) :: string_chars s'
  end.

Definition py_iter (v : pyval) : res (list pyval) :=
  match v with
  | VList l | VTuple l => Ok l
  | VDict items => Ok (map fst items)
  | VStr _ | VDataType _ => Ok (string_chars (py_str v))
  | _ => Raise (Exn TypeError "object is not iterable" [v])
  end.

(** ** Insertion-ordered dictionaries with string keys *)

Section Dict.
Context {V : Type}.

Fixpoint dict_get (k : string) (d : list (string * V)) : option V :=
  match d with
  | [] => None
  | (k', v) :: d' => if String.eqb k k' then Some v else dict_get k d'
  end.

(** [d[k] = v]: an existing key keeps its position, a new key goes last. *)
Fixpoint dict_set (k : string) (v : V) (d : list (string * V)) : list (string * V) :=
  match d with
  | [] => [(k, v)]
  | (k', v') :: d' =>
      if String.eqb k k' then (k', v) :: d' else (k', v') :: dict_set k v d'
  end.

Definition dict_keys (d : list (string * V)) : list string := map fst d.
End Dict.

(** ** The schema unifier ([InputDFSchema.__add_to_schema], [InputDFSchema._unify_schema]) *)

(** The canonical mapping under construction: source column to
    (output column, type), in insertion order. *)
Abbreviation schema_container := (list (string * (string * pyval))).

(** [container[in_col] != (out_col, dt)], a comparison of two tuples. *)
Definition entry_eq (e1 e2 : string * pyval) : bool :=
  String.eqb (fst e1) (fst e2) && py_eq (snd e1) (snd e2).

Definition entry_val (e : string * pyval) : pyval :=
  VTuple [VStr (fst e); snd e].

Definition add_to_schema (container : schema_container)
    (in_col dt : pyval) (out_col : pyval) : res schema_container :=
  let out_col := if is_None out_col then in_col else out_col in
  match in_col, out_col with
  | VStr i, VStr o =>
      match dict_get i container with
      | Some existing =>
          if negb (entry_eq existing (o, dt)) then
            Raise (Exn ValueError
                     "Column {in_col} is repeated in schema with different value!"
                     [in_col; entry_val existing; entry_val (o, dt)])
          else Ok (dict_set i (o, dt) container)
      | None => Ok (dict_set i (o, dt) container)
      end
  | _, _ =>
      Raise (Exn ValueError "Column names must be strings! Got {in_col}, {out_col}"
               [in_col; out_col])
  end.

(** [dt in InputDataType.values()] for a [dt] that is a string. *)
Definition in_InputDataType_values (dt : pyval) : bool :=
  existsb (String.eqb (py_str dt)) InputDataType_values.

(** The pattern [[InputDataType.TIMESTAMP, str()]]. *)
Definition is_timestamp_with_format (v : pyval) : bool :=
  match seq2 v with
  | Some (t, fmt) => py_eq t (VDataType TIMESTAMP) && is_str fmt
  | None => false
  end.

(** The pattern [(InputDataType() | [InputDataType.TIMESTAMP, str()])]. *)
Definition is_input_col_t (v : pyval) : bool :=
  is_InputDataType v || is_timestamp_with_format v.

Definition schema_unprocessable (v : pyval) : exn :=
  Exn ValueError "Schema Unprocessable!" [v].

(** One item [in_col, schema_info] of a dictionary-shaped schema. *)
Definition unify_dict_item (container : schema_container)
    (item : pyval * pyval) : res schema_container :=
  let '(in_col, schema_info) := item in
  match seq2 schema_info with
  | Some (out_col, dt) =>
      if is_str out_col && is_str dt && in_InputDataType_values dt then
        add_to_schema container in_col dt out_col
      else if is_str out_col && is_InputDataType dt then
        add_to_schema container in_col dt out_col
      else if is_str out_col && is_timestamp_with_format dt then
        add_to_schema container in_col dt out_col
      else if is_timestamp_with_format schema_info then
        add_to_schema container in_col schema_info VNone
      else Raise (schema_unprocessable schema_info)
  | None =>
      if is_str schema_info && in_InputDataType_values schema_info then
        add_to_schema container in_col schema_info VNone
      else Raise (schema_unprocessable schema_info)
  end.

(** One element [schema] of the list handed to [_unify_schema]. *)
Definition unify_entry (container : schema_container) (schema : pyval)
    : res schema_container :=
  match seq2 schema with
  | Some (VList cols, dt) =>
      if is_input_col_t dt then
        foldM (fun c col => add_to_schema c col dt VNone) cols container
      else Raise (schema_unprocessable schema)
  | Some (VDict col_names_map, dt) =>
      if is_input_col_t dt then
        foldM (fun c '(in_col, out_col) => add_to_schema c in_col dt out_col)
          col_names_map container
      else Raise (schema_unprocessable schema)
  | Some (col, dt) =>
      if is_str col && is_input_col_t dt then add_to_schema container col dt VNone
      else Raise (schema_unprocessable schema)
  | None =>
      match schema with
      | VDict items => foldM unify_dict_item items container
      | _ => Raise (schema_unprocessable schema)
      end
  end.

Definition unify_schema (data_schema : pyval) : res schema_container :=
  if is_None data_schema then Ok []
  else
    do schemas <- py_iter data_schema;
    foldM unify_entry schemas [].

(** *** What a well-formed shorthand entry denotes

    The types the unifier lets through are an [InputDataType] member, the
    string of one, or a timestamp paired with a format string.
    [entry_maps e ms]: the entry [e], in one of the accepted shorthand shapes
    and with plain strings for column names, asks for the mappings [ms], each
    a source column with its (output column, type), in this order. *)
Definition is_schema_dt (d : pyval) : bool :=
  is_input_col_t d || (is_str d && in_InputDataType_values d).

Abbreviation mapping := (string * (string * pyval))%type.

Inductive dict_item_maps : pyval * pyval -> mapping -> Prop :=
| item_type c d :
    (* col: dt, for an enum member or its string *)
    is_str d = true -> in_InputDataType_values d = true ->
    dict_item_maps (VStr c, d) (c, (c, d))
| item_timestamp c d t fmt :
    (* col: (timestamp, format) *)
    seq2 d = Some (t, fmt) -> is_timestamp_with_format d = true ->
    in_InputDataType_values fmt = false ->
    dict_item_maps (VStr c, d) (c, (c, d))
| item_renamed c o d info :
    (* col: (out_col, dt) *)
    seq2 info = Some (VStr o, d) -> is_schema_dt d = true ->
    dict_item_maps (VStr c, info) (c, (o, d)).

Inductive entry_maps : pyval -> list mapping -> Prop :=
| shape_column_type e c d :
    (* (col, dt) *)
    seq2 e = Some (VStr c, d) -> is_input_col_t d = true ->
    entry_maps e [(c, (c, d))]
| shape_columns_type e cs d :
    (* ([col, ...], dt) *)
    seq2 e = Some (VList (map VStr cs), d) -> is_input_col_t d = true ->
    entry_maps e (map (fun c => (c, (c, d))) cs)
| shape_dict items ms :
    (* {col: dt or (timestamp, format) or (out_col, dt), ...} *)
    Forall2 dict_item_maps items ms ->
    entry_maps (VDict items) ms
| shape_renaming_type e renames d :
    (* ({col: out_col, ...}, dt) *)
    seq2 e = Some (VDict (map (fun r : string * string => (VStr (fst r), VStr (snd r))) renames), d) ->
    is_input_col_t d = true ->
    entry_maps e (map (fun r : string * string => (fst r, (snd r, d))) renames).

(** One insertion, and the mapping that a run of insertions builds when none
    of them raises. *)
Definition add_mapping (container : schema_container) (m : mapping)
    : res schema_container :=
  add_to_schema container (VStr (fst m)) (snd (snd m)) (VStr (fst (snd m))).

Definition merge_mappings (container : schema_container) (ms : list mapping)
    : schema_container :=
  foldl (fun u m => dict_set (fst m) (snd m) u) container ms.

(** [agrees c p ms]: every mapping of column [c] in [ms] equals [p];
    [consistent ms]: any two mappings of one column in [ms] are equal. *)
Definition agrees (c : string) (p : string * pyval) (ms : list mapping) : bool :=
  forallb (fun m : mapping => negb (String.eqb c (fst m)) || entry_eq p (snd m)) ms.

Fixpoint consistent (ms : list mapping) : bool :=
  match ms with
  | [] => true
  | m :: ms' => agrees (fst m) (snd m) ms' && consistent ms'
  end.

(** The error of [__add_to_schema] for a column repeated with a different value. *)
Definition column_repeated (c : string) (existing new : string * pyval) : exn :=
  Exn ValueError "Column {in_col} is repeated in schema with different value!"
    [VStr c; entry_val existing; entry_val new].

(** A normal form of the types the unifier lets through, on which Python's
    [==] is plain equality: the kind of container and the strings inside. *)
Definition dt_norm (d : pyval) : option (nat * list string) :=
  match d with
  | VStr _ | VDataType _ => Some (0%nat, [py_str d])
  | VList [a; b] => Some (1%nat, [py_str a; py_str b])
  | VTuple [a; b] => Some (2%nat, [py_str a; py_str b])
  | _ => None
  end.

(** ** Insertion-ordered dictionaries with arbitrary (hashable) keys *)

(** [hash(v)] succeeds: lists and dictionaries are unhashable, a tuple is
    hashable when its elements are. *)
Fixpoint py_hashable (v : pyval) : bool :=
  match v with
  | VList _ | VDict _ => false
  | VTuple l => forallb py_hashable l
  | _ => true
  end.

Fixpoint pydict_get {V} (k : pyval) (d : list (pyval * V)) : option V :=
  match d with
  | [] => None
  | (k', v) :: d' => if py_eq k k' then Some v else pydict_get k d'
  end.

Fixpoint pydict_set {V} (k : pyval) (v : V) (d : list (pyval * V)) : list (pyval * V) :=
  match d with
  | [] => [(k, v)]
  | (k', v') :: d' =>
      if py_eq k k' then (k', v) :: d' else (k', v') :: pydict_set k v d'
  end.

(** ** [InputDFSchema]: the schema of one input dataframe *)

(** The dataclass fields, which are also the keyword arguments of the
    constructor and the keys of [dataclasses.asdict]. *)
Record InputDFSchema_fields := mkInputDFSchema {
  input_df : pyval;
  type : option InputDFType;
  event_type : pyval;
  subject_id_col : option string;
  ts_col : pyval;
  start_ts_col : pyval;
  end_ts_col : pyval;
  ts_format : option string;
  start_ts_format : option string;
  end_ts_format : option string;
  data_schema : pyval;
  start_data_schema : pyval;
  end_data_schema : pyval;
  must_have : list pyval
}.

(** An instance: the fields and the attribute [filter_on] that
    [__post_init__] adds (it is not a dataclass field). *)
Record InputDFSchema := mkInputDFSchemaObject {
  fields :> InputDFSchema_fields;
  filter_on : list (pyval * pyval)
}.

Definition opt_str (o : option string) : pyval :=
  match o with
  | Some s => VStr s
  | None => VNone
  end.

Definition type_val (t : option InputDFType) : pyval :=
  match t with
  | Some t => VStr (InputDFType_value t)
  | None => VNone
  end.

Definition with_schemas (s : InputDFSchema_fields) (ds sds eds : pyval) : InputDFSchema_fields :=
  {| input_df := input_df s; type := type s; event_type := event_type s;
     subject_id_col := subject_id_col s; ts_col := ts_col s;
     start_ts_col := start_ts_col s; end_ts_col := end_ts_col s;
     ts_format := ts_format s; start_ts_format := start_ts_format s;
     end_ts_format := end_ts_format s;
     data_schema := ds; start_data_schema := sds; end_data_schema := eds;
     must_have := must_have s |}.

Definition with_event_type (s : InputDFSchema_fields) (et : pyval) : InputDFSchema_fields :=
  {| input_df := input_df s; type := type s; event_type := et;
     subject_id_col := subject_id_col s; ts_col := ts_col s;
     start_ts_col := start_ts_col s; end_ts_col := end_ts_col s;
     ts_format := ts_format s; start_ts_format := start_ts_format s;
     end_ts_format := end_ts_format s;
     data_schema := data_schema s; start_data_schema := start_data_schema s;
     end_data_schema := end_data_schema s;
     must_have := must_have s |}.

Definition with_formats (s : InputDFSchema_fields) (f sf ef : option string)
    : InputDFSchema_fields :=
  {| input_df := input_df s; type := type s; event_type := event_type s;
     subject_id_col := subject_id_col s; ts_col := ts_col s;
     start_ts_col := start_ts_col s; end_ts_col := end_ts_col s;
     ts_format := f; start_ts_format := sf; end_ts_format := ef;
     data_schema := data_schema s; start_data_schema := start_data_schema s;
     end_data_schema := end_data_schema s;
     must_have := must_have s |}.

Definition with_subject_id_col (s : InputDFSchema_fields) (c : option string)
    : InputDFSchema_fields :=
  {| input_df := input_df s; type := type s; event_type := event_type s;
     subject_id_col := c; ts_col := ts_col s;
     start_ts_col := start_ts_col s; end_ts_col := end_ts_col s;
     ts_format := ts_format s; start_ts_format := start_ts_format s;
     end_ts_format := end_ts_format s;
     data_schema := data_schema s; start_data_schema := start_data_schema s;
     end_data_schema := end_data_schema s;
     must_have := must_have s |}.

(** [is_static]: [self.type == InputDFType.STATIC]. *)
Definition is_static (s : InputDFSchema_fields) : bool :=
  bool_decide (type s = Some STATIC).

(** *** The unified schemas *)

Definition unified_event_schema (s : InputDFSchema_fields) : res schema_container :=
  unify_schema (data_schema s).

Definition unified_start_schema (s : InputDFSchema_fields) : res schema_container :=
  if negb (bool_decide (type s = Some RANGE)) then
    Raise (Exn ValueError "Start schema is invalid for {self.type}" [type_val (type s)])
  else if is_None (start_data_schema s) then unify_schema (data_schema s)
  else unify_schema (start_data_schema s).

Definition unified_end_schema (s : InputDFSchema_fields) : res schema_container :=
  if negb (bool_decide (type s = Some RANGE)) then
    Raise (Exn ValueError "End schema is invalid for {self.type}" [type_val (type s)])
  else if is_None (end_data_schema s) then unify_schema (data_schema s)
  else unify_schema (end_data_schema s).

(** [ds.extend(v)] when [v] is a list, [ds.append(v)] otherwise; nothing for [None]. *)
Definition extend_or_append (ds : list pyval) (v : pyval) : list pyval :=
  match v with
  | VNone => ds
  | VList l => (ds ++ l)%list
  | _ => (ds ++ [v])%list
  end.

Definition unified_eq_schema (s : InputDFSchema_fields) : res schema_container :=
  if negb (bool_decide (type s = Some RANGE)) then
    Raise (Exn ValueError "Start=End schema is invalid for {self.type}" [type_val (type s)])
  else if is_None (start_data_schema s) && is_None (end_data_schema s) then
    unify_schema (data_schema s)
  else
    let ds := extend_or_append [] (start_data_schema s) in
    let ds := extend_or_append ds (end_data_schema s) in
    unify_schema (VList ds).

(** The value of the [unified_schema] property: one mapping for static and
    event sources, the list [eq; start; end] for ranges. *)
Inductive unified :=
| UnifiedOne (m : schema_container)
| UnifiedRange (eq_schema start_schema end_schema : schema_container).

Definition unrecognized_type (s : InputDFSchema_fields) : exn :=
  Exn ValueError "Unrecognized type {self.type}!" [type_val (type s)].

Definition unified_schema (s : InputDFSchema_fields) : res unified :=
  match type s with
  | Some EVENT | Some STATIC =>
      do m <- unified_event_schema s; Ok (UnifiedOne m)
  | Some RANGE =>
      do e <- unified_eq_schema s;
      do st <- unified_start_schema s;
      do en <- unified_end_schema s;
      Ok (UnifiedRange e st en)
  | None => Raise (unrecognized_type s)
  end.

(** *** [columns_to_load] *)

(** The type attached to a timestamp column: bare, or paired with its format. *)
Definition timestamp_dt (fmt_param : option string) : pyval :=
  match fmt_param with
  | None => VDataType TIMESTAMP
  | Some f => VTuple [VDataType TIMESTAMP; VStr f]
  end.

Definition timestamp_columns (param : string) (val : pyval) (fmt_param : option string)
    : res (list (pyval * pyval)) :=
  let fmt := timestamp_dt fmt_param in
  match val with
  | VList cs => Ok (map (fun c => (c, fmt)) cs)
  | VStr _ | VDataType _ => Ok [(val, fmt)]
  | VNone => Ok []
  | _ => Raise (Exn ValueError "Can't parse timestamp {param}, {fmt_param}, {val}"
                  [VStr param; opt_str fmt_param; val])
  end.

Definition load_event_column (columns : list (string * pyval))
    (item : string * (string * pyval)) : res (list (string * pyval)) :=
  let '(in_col, (out_col, dt)) := item in
  match dict_get in_col columns with
  | Some _ => Raise (Exn ValueError "Duplicate column {in_col}!" [VStr in_col])
  | None => Ok (dict_set in_col dt columns)
  end.

Definition load_range_column (columns : list (string * pyval))
    (item : string * (string * pyval)) : res (list (string * pyval)) :=
  let '(in_col, (out_col, dt)) := item in
  match dict_get in_col columns with
  | Some dt0 =>
      if negb (py_eq dt dt0) then
        Raise (Exn ValueError "Duplicate column {in_col} with differing dts!" [VStr in_col])
      else Ok columns
  | None => Ok (dict_set in_col dt columns)
  end.

Definition columns_to_load (s : InputDFSchema_fields) : res (list (pyval * pyval)) :=
  do columns <-
    match type s with
    | Some EVENT | Some STATIC =>
        do u <- unified_event_schema s;
        foldM load_event_column u []
    | Some RANGE =>
        do e <- unified_eq_schema s;
        do st <- unified_start_schema s;
        do en <- unified_end_schema s;
        foldM (fun columns u => foldM load_range_column u columns) [e; st; en] []
    | None => Raise (unrecognized_type s)
    end;
  let columns := map (fun '(c, dt) => (VStr c, dt)) columns in
  do start_cols <- timestamp_columns "start_ts_col" (start_ts_col s) (start_ts_format s);
  do end_cols <- timestamp_columns "end_ts_col" (end_ts_col s) (end_ts_format s);
  do ts_cols <- timestamp_columns "ts_col" (ts_col s) (ts_format s);
  Ok (columns ++ start_cols ++ end_cols ++ ts_cols)%list.

(** *** [InputDFSchema.__post_init__] *)

(** [if type(x) is not list and x is not None: x = [x]]. *)
Definition wrap_schema (v : pyval) : pyval :=
  if negb (is_list v) && negb (is_None v) then VList [v] else v.

Definition malformed_filter (filter_col : pyval) : exn :=
  Exn ValueError "Malformed filter: {filter_col}" [filter_col].

Definition add_filter (filter_on : list (pyval * pyval)) (filter_col : pyval)
    : res (list (pyval * pyval)) :=
  if is_str filter_col then Ok (pydict_set filter_col (VBool true) filter_on)
  else
    match seq2 filter_col with
    | Some (col, vals) =>
        if is_str col && is_list vals then Ok (pydict_set col vals filter_on)
        else Raise (malformed_filter filter_col)
    | None => Raise (malformed_filter filter_col)
    end.

Definition invalid_static_param (param : string) : exn :=
  Exn ValueError "Set invalid param {param} for static source!" [VStr param].

Definition missing_event_type : exn :=
  Exn ValueError "Missing mandatory range parameter event_type!" [].

Definition subject_id_col_not_None : exn :=
  Exn ValueError "subject_id_col should be None for non-static types!" [].

Definition should_be_None (s : InputDFSchema_fields) (param : string) (val : pyval) : exn :=
  Exn ValueError "{param} should be None for {self.type} schema: Got {val}"
    [VStr param; type_val (type s); val].

Definition simultaneously_set (param : string) (val : pyval) : exn :=
  Exn ValueError "{param} can't be simultaneously set with `self.data_schema`! Got {val}"
    [VStr param; val].

Definition post_init_static (s : InputDFSchema_fields) : res InputDFSchema_fields :=
  check bool_decide (subject_id_col s <> None)
    else Exn ValueError "Must set subject_id_col for static source!" [];
  check is_None (event_type s)
    else Exn ValueError "Event_type can't be set if type == 'static'!" [];
  check is_None (ts_col s) else invalid_static_param "ts_col";
  check is_None (start_ts_col s) else invalid_static_param "start_ts_col";
  check is_None (end_ts_col s) else invalid_static_param "end_ts_col";
  Ok s.

Definition post_init_event (s : InputDFSchema_fields) : res InputDFSchema_fields :=
  check negb (is_None (ts_col s))
    else Exn ValueError "Missing mandatory event parameter ts_col!" [];
  check negb (is_None (event_type s)) else missing_event_type;
  check is_str (event_type s)
    else Exn TypeError "event_type must be a string for events. Got {self.event_type}"
           [event_type s];
  check bool_decide (subject_id_col s = None) else subject_id_col_not_None;
  check is_None (start_ts_col s) else should_be_None s "start_ts_col" (start_ts_col s);
  check is_None (end_ts_col s) else should_be_None s "end_ts_col" (end_ts_col s);
  check bool_decide (start_ts_format s = None)
    else should_be_None s "start_ts_format" (opt_str (start_ts_format s));
  check bool_decide (end_ts_format s = None)
    else should_be_None s "end_ts_format" (opt_str (end_ts_format s));
  check is_None (start_data_schema s)
    else should_be_None s "start_data_schema" (start_data_schema s);
  check is_None (end_data_schema s)
    else should_be_None s "end_data_schema" (end_data_schema s);
  Ok s.

(** The pattern [(str(), str(), str())]. *)
Definition is_three_strings (v : pyval) : bool :=
  match seq3 v with
  | Some (a, b, c) => is_str a && is_str b && is_str c
  | None => false
  end.

(** [(et, f"{et}_START", f"{et}_END")]. *)
Definition expand_event_type (et : pyval) : pyval :=
  VTuple [et; VStr (String.append (py_str et) "_START");
          VStr (String.append (py_str et) "_END")].

Definition range_event_type (et : pyval) : res pyval :=
  if is_None et then Raise missing_event_type
  else if is_three_strings et then Ok et
  else if is_str et then Ok (expand_event_type et)
  else Raise (Exn TypeError
                "event_type must be a string or a 3-element tuple (eq_type, st_type, end_type) for ranges. Got {self.event_type}."
                [et]).

Definition range_data_schemas (s : InputDFSchema_fields) : res InputDFSchema_fields :=
  if negb (is_None (data_schema s)) then
    check is_None (start_data_schema s)
      else simultaneously_set "start_data_schema" (start_data_schema s);
    check is_None (end_data_schema s)
      else simultaneously_set "end_data_schema" (end_data_schema s);
    Ok (with_schemas s (data_schema s) (data_schema s) (data_schema s))
  else Ok s.

Definition range_formats (s : InputDFSchema_fields) : res InputDFSchema_fields :=
  match start_ts_format s with
  | Some _ =>
      check bool_decide (end_ts_format s <> None)
        else Exn ValueError
               "If start_ts_format is specified, end_ts_format must also be specified!" [];
      check bool_decide (ts_format s = None)
        else Exn ValueError "If start_ts_format is specified, ts_format must be `None`!" [];
      Ok s
  | None =>
      check bool_decide (end_ts_format s = None)
        else Exn ValueError
               "If end_ts_format is specified, start_ts_format must also be specified!" [];
      Ok (with_formats s None (ts_format s) (ts_format s))
  end.

Definition post_init_range (s : InputDFSchema_fields) : res InputDFSchema_fields :=
  do et <- range_event_type (event_type s);
  let s := with_event_type s et in
  do s <- range_data_schemas s;
  check negb (is_None (start_ts_col s))
    else Exn ValueError "Missing mandatory range parameter start_ts_col!" [];
  check negb (is_None (end_ts_col s))
    else Exn ValueError "Missing mandatory range parameter end_ts_col!" [];
  check is_None (ts_col s)
    else Exn ValueError "ts_col should be `None` for {self.type} schemas! Got: {self.ts_col}."
           [type_val (type s); ts_col s];
  check bool_decide (subject_id_col s = None) else subject_id_col_not_None;
  range_formats s.

(** The constructor called with keyword arguments: the generated [__init__] stores the fields and
    calls [__post_init__], whose last statement reads [columns_to_load] to
    check validity. *)
Definition InputDFSchema_init (kwargs : InputDFSchema_fields) : res InputDFSchema :=
  check negb (is_None (input_df kwargs))
    else Exn ValueError "Missing mandatory parameter input_df!" [];
  match type kwargs with
  | None => Raise (Exn ValueError "Missing mandatory parameter type!" [])
  | Some ty =>
      let s := with_schemas kwargs (wrap_schema (data_schema kwargs))
                 (wrap_schema (start_data_schema kwargs))
                 (wrap_schema (end_data_schema kwargs)) in
      do filters <- foldM add_filter (must_have s) [];
      do s <- match ty with
              | STATIC => post_init_static s
              | EVENT => post_init_event s
              | RANGE => post_init_range s
              end;
      do _ <- columns_to_load s;
      Ok (mkInputDFSchemaObject s filters)
  end.

(** [JSONableMixin.to_dict] is [dataclasses.asdict] and
    [JSONableMixin.from_dict] calls the class on the dictionary's items as
    keyword arguments. *)
Definition InputDFSchema_to_dict (s : InputDFSchema) : InputDFSchema_fields := fields s.

Definition InputDFSchema_from_dict (as_dict : InputDFSchema_fields) : res InputDFSchema :=
  InputDFSchema_init as_dict.

(** ** [DatasetSchema]: one static source and the dynamic sources *)

(** A source is passed either in plain form (a dictionary of keyword
    arguments) or as an [InputDFSchema] object built earlier, whose attributes
    may have been assigned since. *)
Inductive schema_arg :=
| AsDict (kwargs : InputDFSchema_fields)
| AsObject (obj : InputDFSchema).

(** What [print] receives for a subject-id mismatch:
    "WARNING: {v.input_df} subject ID col name ({v.subject_id_col}) differs
    from static ({self.static.subject_id_col})." *)
Record warning := Warning {
  warned_input_df : pyval;
  warned_subject_id_col : option string;
  static_subject_id_col : option string
}.

Record DatasetSchema := mkDatasetSchema {
  static : InputDFSchema;
  dynamic : list InputDFSchema;
  dynamic_by_df : list (pyval * list InputDFSchema)
}.

Definition set_subject_id_col (v : InputDFSchema) (c : option string) : InputDFSchema :=
  mkInputDFSchemaObject (with_subject_id_col v c) (filter_on v).

(** One iteration of the loop over [self.dynamic]: the source after the loop
    body and the warnings printed, or the exception raised (the warning, if
    any, is printed before the static check raises). *)
Definition dynamic_source (static_col : option string) (v : schema_arg)
    : list warning * res InputDFSchema :=
  match (match v with
         | AsDict kwargs => InputDFSchema_init kwargs
         | AsObject obj => Ok obj
         end) with
  | Raise e => ([], Raise e)
  | Ok v =>
      let v := match subject_id_col v with
               | None => set_subject_id_col v static_col
               | Some _ => v
               end in
      let printed :=
        if bool_decide (subject_id_col v <> static_col)
        then [Warning (input_df v) (subject_id_col v) static_col]
        else [] in
      if is_static v then
        (printed, Raise (Exn TypeError "Must pass dynamic schemas in `self.dynamic`!" []))
      else (printed, Ok v)
  end.

Fixpoint dynamic_sources (static_col : option string) (l : list schema_arg)
    : list warning * res (list InputDFSchema) :=
  match l with
  | [] => ([], Ok [])
  | v :: l' =>
      match dynamic_source static_col v with
      | (w, Raise e) => (w, Raise e)
      | (w, Ok v') =>
          match dynamic_sources static_col l' with
          | (w', Raise e) => ((w ++ w')%list, Raise e)
          | (w', Ok vs) => ((w ++ w')%list, Ok (v' :: vs))
          end
      end
  end.

(** [self.dynamic_by_df[v.input_df].append(v)] on a [defaultdict(list)]. *)
Definition group_by_df (by_df : list (pyval * list InputDFSchema)) (v : InputDFSchema)
    : res (list (pyval * list InputDFSchema)) :=
  check py_hashable (input_df v) else Exn TypeError "unhashable type" [input_df v];
  Ok (pydict_set (input_df v)
        (match pydict_get (input_df v) by_df with
         | Some vs => (vs ++ [v])%list
         | None => [v]
         end) by_df).

(** The constructor: [static] and [dynamic] as passed ([None] when absent),
    the printed warnings and the instance or the exception. *)
Definition DatasetSchema_init (static_arg : option schema_arg)
    (dynamic_arg : option (list schema_arg)) : list warning * res DatasetSchema :=
  match static_arg with
  | None => ([], Raise (Exn ValueError "Must specify a static schema!" []))
  | Some st =>
      match (match st with
             | AsDict kwargs =>
                 do st <- InputDFSchema_init kwargs;
                 check is_static st
                   else Exn TypeError "Must pass a static schema config for static." [];
                 Ok st
             | AsObject obj => Ok obj
             end) with
      | Raise e => ([], Raise e)
      | Ok st =>
          match subject_id_col st with
          | None =>
              ([], Raise (Exn ValueError
                            "Must specify a subject_id_col source for the static dataframe!" []))
          | Some _ =>
              match dynamic_arg with
              | None => ([], Raise (Exn TypeError "'NoneType' object is not iterable" []))
              | Some dyn =>
                  match dynamic_sources (subject_id_col st) dyn with
                  | (w, Raise e) => (w, Raise e)
                  | (w, Ok new_dynamic) =>
                      (w, do by_df <- foldM group_by_df new_dynamic [];
                          Ok (mkDatasetSchema st new_dynamic by_df))
                  end
              end
          end
      end
  end.

(** [dataclasses.asdict] of a [DatasetSchema] recurses into the sources. *)
Record DatasetSchema_dict := mkDatasetSchemaDict {
  static_dict : InputDFSchema_fields;
  dynamic_dicts : list InputDFSchema_fields
}.

Definition DatasetSchema_to_dict (d : DatasetSchema) : DatasetSchema_dict :=
  mkDatasetSchemaDict (InputDFSchema_to_dict (static d))
    (map InputDFSchema_to_dict (dynamic d)).

Definition DatasetSchema_from_dict (as_dict : DatasetSchema_dict)
    : list warning * res DatasetSchema :=
  DatasetSchema_init (Some (AsDict (static_dict as_dict)))
    (Some (map AsDict (dynamic_dicts as_dict))).

(** ** [VocabularyConfig] *)

Record VocabularyConfig := mkVocabularyConfig {
  vocab_sizes_by_measurement : option (gmap string Z);
  vocab_offsets_by_measurement : option (gmap string Z);
  measurements_idxmap : option (gmap string (list (pyval * Z)));
  measurements_per_generative_mode : option (list (DataModality * list string));
  event_types_idxmap : option (gmap string Z)
}.

(** [d.values()] and [len(d)]. *)
Definition dict_values (d : gmap string Z) : list Z := (map_to_list d).*2.

Definition len (d : gmap string Z) : Z := Z.of_nat (size d).

(** [sum(xs)]: from 0, left to right. *)
Definition py_sum (xs : list Z) : Z := foldl Z.add 0 xs.

(** [min(xs)]: the first smallest element; an empty argument raises. *)
Definition py_min (xs : list Z) : res Z :=
  match xs with
  | [] => Raise (Exn ValueError "min() arg is an empty sequence" [])
  | x :: xs' => Ok (foldl (fun m v => if Z.ltb v m then v else m) x xs')
  end.

Definition None_has_no_values : exn :=
  Exn AttributeError "'NoneType' object has no attribute 'values'" [].

(** Reading [.values()] of an attribute that was left at [None] raises. The
    operands are evaluated left to right: the sum over the sizes, the minimum
    over the offsets, then the two lengths. *)
Definition total_vocab_size (cfg : VocabularyConfig) : res Z :=
  match vocab_sizes_by_measurement cfg with
  | None => Raise None_has_no_values
  | Some sizes =>
      match vocab_offsets_by_measurement cfg with
      | None => Raise None_has_no_values
      | Some offsets =>
          do min_offset <- py_min (dict_values offsets);
          Ok (py_sum (dict_values sizes) + min_offset + (len offsets - len sizes))
      end
  end.

(** ** [MeasurementConfig] *)

Definition newline : string := String (Ascii.ascii_of_nat 10) EmptyString.

(** [x is not None]. *)
Definition is_set {A} (x : option A) : bool :=
  match x with
  | Some _ => true
  | None => false
  end.

(** The interface of [TimeDependentFunctor] that the configuration reads:
    the class attribute [OUTPUT_MODALITY] (the module defining the functors is
    not part of the sources at hand). *)
Class TimeDependentFunctor (F : Type) := {
  OUTPUT_MODALITY : F -> DataModality
}.

(** What the configuration asks of pandas when metadata is cached on disk. *)
Class MetadataStore (DataFrame Series : Type) := {
  (* pd.read_csv(fp, index_col=0) *)
  read_csv : string -> res DataFrame;
  (* out.shape[1] *)
  n_columns : DataFrame -> nat;
  (* out.iloc[:, 0] *)
  first_column : DataFrame -> Series;
  (* out[col] = eval(out[col]) for col in ("outlier_model", "normalizer") *)
  eval_series_cells : Series -> res Series;
  (* out[col] = out[col].apply(eval) for the same columns *)
  eval_frame_cells : DataFrame -> res DataFrame
}.

Section MeasurementConfig.
Context {Float Vocabulary F DataFrame Series : Type}.
Context `{!TimeDependentFunctor F} `{!MetadataStore DataFrame Series}.

(** The private slot [_measurement_metadata]: absent, held in memory as a
    table or a series, or a path (as [str] or [Path]) to the cached file. *)
Inductive metadata :=
| MD_None
| MD_DataFrame (df : DataFrame)
| MD_Series (s : Series)
| MD_str (fp : string)
| MD_Path (fp : string).

Record MeasurementConfig := mkMeasurementConfig {
  name : option string;
  temporality : option TemporalityType;
  modality : option DataModality;
  observation_frequency : option Float;
  functor : option F;
  vocabulary : option Vocabulary;
  values_column : option string;
  _measurement_metadata : metadata
}.

Definition set_modality (m : MeasurementConfig) (md : option DataModality)
    : MeasurementConfig :=
  {| name := name m; temporality := temporality m; modality := md;
     observation_frequency := observation_frequency m; functor := functor m;
     vocabulary := vocabulary m; values_column := values_column m;
     _measurement_metadata := _measurement_metadata m |}.

Definition is_numeric (m : MeasurementConfig) : bool :=
  bool_decide (modality m = Some MULTIVARIATE_REGRESSION)
  || bool_decide (modality m = Some UNIVARIATE_REGRESSION).

(** The [measurement_metadata] property: an in-memory value as it is, a
    cached one read back from its file. *)
Definition load_metadata (m : MeasurementConfig) (fp : string) : res metadata :=
  do out <- read_csv fp;
  if bool_decide (modality m = Some UNIVARIATE_REGRESSION) then
    check Nat.eqb (n_columns out) 1
      else Exn ValueError
             "For {self.modality}, measurement metadata at {fp} should be a series, but it has shape {out.shape} (expecting out.shape[1] == 1)!"
             [VStr fp];
    do s <- eval_series_cells (first_column out);
    Ok (MD_Series s)
  else if negb (bool_decide (modality m = Some MULTIVARIATE_REGRESSION)) then
    Raise (Exn ValueError
             "Only DataModality.UNIVARIATE_REGRESSION and DataModality.MULTIVARIATE_REGRESSION measurements should have measurement metadata paths stored. Got {fp} on {self.modality} measurement!"
             [VStr fp])
  else
    do df <- eval_frame_cells out;
    Ok (MD_DataFrame df).

Definition measurement_metadata (m : MeasurementConfig) : res metadata :=
  match _measurement_metadata m with
  | MD_None | MD_DataFrame _ | MD_Series _ => Ok (_measurement_metadata m)
  | MD_str fp | MD_Path fp => load_metadata m fp
  end.

Definition functor_should_be_None : exn :=
  Exn ValueError "functor should be None for {self.temporality} measurements! Got {self.functor}" [].

Definition single_label_on_dynamic : exn :=
  Exn ValueError
    "{self.modality} on {self.temporality} measurements is not currently supported, as event aggregation can turn single-label tasks into multi-label tasks in a manner that is not currently automatically detected or compensated for."
    [].

(** The first [match] of [_validate], on the temporality. *)
Definition validate_temporality (m : MeasurementConfig) : res MeasurementConfig :=
  match temporality m with
  | Some T_STATIC =>
      check negb (is_set (functor m)) else functor_should_be_None;
      check negb (is_numeric m)
        else Exn NotImplementedError
               "Numeric data modalities like {self.modality} not yet supported on static measures." [];
      Ok m
  | Some T_DYNAMIC =>
      check negb (is_set (functor m)) else functor_should_be_None;
      check negb (bool_decide (modality m = Some SINGLE_LABEL_CLASSIFICATION))
        else single_label_on_dynamic;
      Ok m
  | Some T_FUNCTIONAL_TIME_DEPENDENT =>
      match functor m with
      | None =>
          Raise (Exn ValueError "functor must be set for {self.temporality} measurements!" [])
      | Some f =>
          match modality m with
          | None => Ok (set_modality m (Some (OUTPUT_MODALITY f)))
          | Some md =>
              check bool_decide (md = DROPPED) || bool_decide (md = OUTPUT_MODALITY f)
                else Exn ValueError
                       "self.modality must either be DataModality.DROPPED or {self.functor.OUTPUT_MODALITY} for {self.temporality} measures; got {self.modality}" [];
              Ok m
          end
      end
  | None =>
      Raise (Exn ValueError "`self.temporality = {self.temporality}` Invalid! Must be in {', '.join(TemporalityType.values())}" [])
  end.

(** The second [match], on the modality: the violated constraints are
    collected in [err_strings] and raised together. Formatting the message
    for a metadata slot that must be empty reads the [measurement_metadata]
    property, whose own exception then takes precedence. *)
Definition metadata_must_be_None (m : MeasurementConfig) : res (list string) :=
  match _measurement_metadata m with
  | MD_None => Ok []
  | _ =>
      do _ <- measurement_metadata m;
      Ok ["measurement_metadata must be None on a {self.modality} MeasurementConfig. Got {type(self.measurement_metadata)}"]
  end.

Definition values_column_must_be_None (m : MeasurementConfig) : list string :=
  if is_set (values_column m)
  then ["values_column must be None on a {self.modality} MeasurementConfig. Got {self.values_column}"]
  else [].

Definition validate_modality (m : MeasurementConfig) : res MeasurementConfig :=
  do err_strings <-
    match modality m with
    | Some MULTIVARIATE_REGRESSION =>
        let e1 := if is_set (values_column m) then []
                  else ["values_column must be set on a {self.modality} MeasurementConfig"] in
        do md <- measurement_metadata m;
        let e2 := match md with
                  | MD_None | MD_DataFrame _ => []
                  | _ => ["If set, measurement_metadata must be a DataFrame on a {self.modality} MeasurementConfig. Got {type(self.measurement_metadata)}"]
                  end in
        Ok (e1 ++ e2)%list
    | Some UNIVARIATE_REGRESSION =>
        let e1 := values_column_must_be_None m in
        do md <- measurement_metadata m;
        let e2 := match md with
                  | MD_None | MD_Series _ => []
                  | _ => ["If set, measurement_metadata must be a Series on a {self.modality} MeasurementConfig. Got {type(self.measurement_metadata)}"]
                  end in
        Ok (e1 ++ e2)%list
    | Some SINGLE_LABEL_CLASSIFICATION | Some MULTI_LABEL_CLASSIFICATION =>
        let e1 := values_column_must_be_None m in
        do e2 <- metadata_must_be_None m;
        Ok (e1 ++ e2)%list
    | Some DROPPED =>
        let e1 := if is_set (vocabulary m)
                  then ["vocabulary must be None on a {self.modality} MeasurementConfig. Got {self.vocabulary}"]
                  else [] in
        do e2 <- metadata_must_be_None m;
        Ok (e1 ++ e2)%list
    | None => Raise (Exn ValueError "`self.modality = {self.modality}` Invalid!" [])
    end;
  match err_strings with
  | [] => Ok m
  | _ => Raise (Exn ValueError (String.concat newline err_strings) [])
  end.

(** [_validate]: it may fill in the modality, so it returns the instance. *)
Definition _validate (m : MeasurementConfig) : res MeasurementConfig :=
  do m <- validate_temporality m;
  validate_modality m.

(** The constructor: [__post_init__] is [_validate]. *)
Definition MeasurementConfig_init (m : MeasurementConfig) : res MeasurementConfig :=
  _validate m.

(** [drop]. *)
Definition drop (m : MeasurementConfig) : MeasurementConfig :=
  {| name := name m; temporality := temporality m; modality := Some DROPPED;
     observation_frequency := observation_frequency m; functor := functor m;
     vocabulary := None; values_column := values_column m;
     _measurement_metadata := MD_None |}.
End MeasurementConfig.

Arguments metadata : clear implicits.
Arguments MeasurementConfig : clear implicits.

(** *** What the documentation of [total_vocab_size] promises

    The sum of the vocabulary sizes, plus the smallest offset, plus the number
    of measurements that have an offset but no size. *)
Definition documented_total_vocab_size (cfg : VocabularyConfig)
    (sizes offsets : gmap string Z) : Prop :=
  exists min_offset : Z,
    (exists k, offsets !! k = Some min_offset) /\
    (forall k v, offsets !! k = Some v -> min_offset <= v) /\
    total_vocab_size cfg =
      Ok (py_sum (dict_values sizes) + min_offset
          + Z.of_nat (size (dom offsets ∖ dom sizes))).

Definition vocabulary_of (sizes offsets : gmap string Z) : VocabularyConfig :=
  mkVocabularyConfig (Some sizes) (Some offsets) None None None.

(** The example of the docstring. *)
Definition docstring_sizes : gmap string Z :=
  <["measurement1" := 10]> (<["measurement2" := 3]> ∅).
Definition docstring_offsets : gmap string Z :=
  <["measurement1" := 5]> (<["measurement2" := 15]> (<["measurement3" := 18]> ∅)).

(** A size entry for a measurement that has no offset. *)
Definition stray_sizes : gmap string Z := <["a" := 10]> (<["b" := 3]> ∅).
Definition stray_offsets : gmap string Z := <["a" := 5]> (<["c" := 18]> ∅).

(** *** Sample sources *)

(** [InputDFSchema(input_df="admissions", type="range", event_type=et,
    start_ts_col="admit", end_ts_col="discharge", data_schema=ds)]. *)
Definition admissions (et ds : pyval) : InputDFSchema_fields :=
  {| input_df := VStr "admissions"; type := Some RANGE; event_type := et;
     subject_id_col := None; ts_col := VNone;
     start_ts_col := VStr "admit"; end_ts_col := VStr "discharge";
     ts_format := None; start_ts_format := None; end_ts_format := None;
     data_schema := ds; start_data_schema := VNone; end_data_schema := VNone;
     must_have := [] |}.

(** [InputDFSchema(input_df="labs", type="event", event_type="LAB",
    ts_col=ts, data_schema=ds, subject_id_col=sid)]. *)
Definition labs (ts : pyval) (ds : pyval) (sid : option string) : InputDFSchema_fields :=
  {| input_df := VStr "labs"; type := Some EVENT; event_type := VStr "LAB";
     subject_id_col := sid; ts_col := ts;
     start_ts_col := VNone; end_ts_col := VNone;
     ts_format := None; start_ts_format := None; end_ts_format := None;
     data_schema := ds; start_data_schema := VNone; end_data_schema := VNone;
     must_have := [] |}.

(** [InputDFSchema(input_df="subjects", type="static", subject_id_col=sid)]. *)
Definition subjects (sid : string) : InputDFSchema_fields :=
  {| input_df := VStr "subjects"; type := Some STATIC; event_type := VNone;
     subject_id_col := Some sid; ts_col := VNone;
     start_ts_col := VNone; end_ts_col := VNone;
     ts_format := None; start_ts_format := None; end_ts_format := None;
     data_schema := VNone; start_data_schema := VNone; end_data_schema := VNone;
     must_have := [] |}.

(** *** The event type of a range source, as the specification words it

    With a literal string [X], construction succeeds and holds the expanded
    3-tuple; an explicit 3-tuple of strings (to the pattern
    [(str(), str(), str())], any sequence of three strings) is kept; every
    other shape is rejected. *)
Definition range_event_type_as_specified (kwargs : InputDFSchema_fields) : Prop :=
  type kwargs = Some RANGE ->
  (forall X, event_type kwargs = VStr X ->
     exists s, InputDFSchema_init kwargs = Ok s
       /\ event_type s = VTuple [VStr X; VStr (String.append X "_START");
                                 VStr (String.append X "_END")])
  /\ (is_three_strings (event_type kwargs) = true ->
        forall s, InputDFSchema_init kwargs = Ok s -> event_type s = event_type kwargs)
  /\ (is_str (event_type kwargs) = false ->
      is_three_strings (event_type kwargs) = false ->
      is_ok (InputDFSchema_init kwargs) = false).

(** A range source that names no start column:
    [InputDFSchema(input_df="admissions", type="range", event_type=et,
    end_ts_col="discharge", data_schema=ds)]. *)
Definition admissions_without_start (et ds : pyval) : InputDFSchema_fields :=
  {| input_df := VStr "admissions"; type := Some RANGE; event_type := et;
     subject_id_col := None; ts_col := VNone;
     start_ts_col := VNone; end_ts_col := VStr "discharge";
     ts_format := None; start_ts_format := None; end_ts_format := None;
     data_schema := ds; start_data_schema := VNone; end_data_schema := VNone;
     must_have := [] |}.

Definition res_map {E A B} (f : A -> B) (m : result E A) : result E B :=
  match m with
  | Ok a => Ok (f a)
  | Raise e => Raise e
  end.

(** The instance [s] with its [data_schema] attribute replaced. *)
Definition set_data_schema (ds : pyval) (s : InputDFSchema) : InputDFSchema :=
  mkInputDFSchemaObject
    (with_schemas s ds (start_data_schema s) (end_data_schema s)) (filter_on s).

(** *** The shared schema of a range source, as the specification words it

    A shared [data_schema] together with a start or an end schema always
    fails with the forbidden-field error; a shared schema alone makes
    construction succeed, with the schema copied into both. *)
Definition is_simultaneously_set (e : exn) : Prop :=
  exists param val, e = simultaneously_set param val.

Definition range_shared_data_schema_as_specified (kwargs : InputDFSchema_fields) : Prop :=
  type kwargs = Some RANGE ->
  data_schema kwargs <> VNone ->
  (start_data_schema kwargs <> VNone \/ end_data_schema kwargs <> VNone ->
     exists e, InputDFSchema_init kwargs = Raise e /\ is_simultaneously_set e)
  /\ (start_data_schema kwargs = VNone -> end_data_schema kwargs = VNone ->
      exists s, InputDFSchema_init kwargs = Ok s
        /\ start_data_schema s = wrap_schema (data_schema kwargs)
        /\ end_data_schema s = wrap_schema (data_schema kwargs)).

(** *** The subject-id policy of [DatasetSchema], as the specification words it

    A dynamic source with no subject-id column inherits the static one; a
    dynamic source with an explicit, different column keeps it, and the
    mismatch is only warned about: it never makes construction fail. *)

Definition given_subject_id_col (v : schema_arg) : option string :=
  match v with
  | AsDict kwargs => subject_id_col kwargs
  | AsObject obj => subject_id_col obj
  end.

Definition given_input_df (v : schema_arg) : pyval :=
  match v with
  | AsDict kwargs => input_df kwargs
  | AsObject obj => input_df obj
  end.

(** The same source with the subject-id column left out. *)
Definition without_subject_id_col (v : schema_arg) : schema_arg :=
  match v with
  | AsDict kwargs => AsDict (with_subject_id_col kwargs None)
  | AsObject obj => AsObject (set_subject_id_col obj None)
  end.

(** The warning for a dynamic source whose own column differs from the
    static one, and the warnings for all of them. *)
Definition mismatch_warning (static_col : option string) (v : schema_arg) : list warning :=
  match given_subject_id_col v with
  | Some c =>
      if bool_decide (Some c <> static_col)
      then [Warning (given_input_df v) (Some c) static_col]
      else []
  | None => []
  end.

Definition mismatch_warnings (static_col : option string) (dyn : list schema_arg)
    : list warning :=
  flat_map (mismatch_warning static_col) dyn.

Definition subject_id_policy_as_specified (st : schema_arg) (dyn : list schema_arg) : Prop :=
  is_ok (DatasetSchema_init (Some st) (Some (map without_subject_id_col dyn))).2 = true ->
  exists ds,
    DatasetSchema_init (Some st) (Some dyn)
    = (mismatch_warnings (subject_id_col (static ds)) dyn, Ok ds)
    /\ Forall2 (fun (v : schema_arg) (out : InputDFSchema) =>
                  subject_id_col out = match given_subject_id_col v with
                                       | Some c => Some c
                                       | None => subject_id_col (static ds)
                                       end)
         dyn (dynamic ds).

(** *** A functor class and a store to run [MeasurementConfig] on

    One functor whose output is a univariate regression, and a store that
    holds no file. *)
#[global] Instance sample_functor : TimeDependentFunctor unit :=
  {| OUTPUT_MODALITY := fun _ => UNIVARIATE_REGRESSION |}.

#[global] Instance empty_store : MetadataStore unit unit :=
  {| read_csv := fun fp => Raise (Exn OSError "No such file or directory: {fp}" [VStr fp]);
     n_columns := fun _ => 1%nat;
     first_column := fun df => df;
     eval_series_cells := fun s => Ok s;
     eval_frame_cells := fun df => Ok df |}.

Definition sample_measurement (t : TemporalityType) (md : DataModality) (f : option unit)
    : MeasurementConfig unit unit unit unit unit :=
  {| name := Some "diagnosis"; temporality := Some t; modality := Some md;
     observation_frequency := None; functor := f; vocabulary := None;
     values_column := None; _measurement_metadata := MD_None |}.

(** *** A dynamic single-label measurement, as the specification words it

    Construction and re-validation fail with the incompatible-combination
    error, whatever the other fields. *)
Definition dynamic_single_label_as_specified
    {Float Vocabulary F DataFrame Series : Type}
    `{!TimeDependentFunctor F} `{!MetadataStore DataFrame Series}
    (m : MeasurementConfig Float Vocabulary F DataFrame Series) : Prop :=
  temporality m = Some T_DYNAMIC ->
  modality m = Some SINGLE_LABEL_CLASSIFICATION ->
  _validate m = Raise single_label_on_dynamic
  /\ MeasurementConfig_init m = Raise single_label_on_dynamic.

(** ** Caching the measurement metadata
    ([MeasurementConfig.cache_measurement_metadata],
    [MeasurementConfig.uncache_measurement_metadata])

    The methods' calls into the file system are returned as a trace, in the
    order they are made; a path is held as the string that [str] gives. *)

Section MetadataCache.
Context {Float Vocabulary F DataFrame Series : Type}.
Context `{!TimeDependentFunctor F} `{!MetadataStore DataFrame Series}.

Inductive io_action :=
| Mkdir_parent (fp : string)                              (* fp.parent.mkdir(exist_ok=True, parents=True) *)
| To_csv (md : metadata DataFrame Series) (fp : string).  (* md.to_csv(fp) *)

Definition set_metadata_slot (m : MeasurementConfig Float Vocabulary F DataFrame Series)
    (md : metadata DataFrame Series) : MeasurementConfig Float Vocabulary F DataFrame Series :=
  {| name := name m; temporality := temporality m; modality := modality m;
     observation_frequency := observation_frequency m; functor := functor m;
     vocabulary := vocabulary m; values_column := values_column m;
     _measurement_metadata := md |}.

Definition already_cached (cached_at fp : string) : exn :=
  Exn ValueError "Caching is already enabled at {self._measurement_metadata} != {fp}"
    [VStr cached_at; VStr fp].

Definition caching_not_enabled : exn :=
  Exn ValueError "Caching is not enabled, can't uncache!" [].

(** [cache_measurement_metadata(fp)]: the instance afterwards and what was
    asked of the file system. *)
Definition cache_measurement_metadata
    (m : MeasurementConfig Float Vocabulary F DataFrame Series) (fp : string)
    : res (MeasurementConfig Float Vocabulary F DataFrame Series * list io_action) :=
  match _measurement_metadata m with
  | MD_str cached_at | MD_Path cached_at =>
      check String.eqb fp cached_at else already_cached cached_at fp;
      Ok (m, [])
  | MD_None => Ok (m, [])
  | md => Ok (set_metadata_slot m (MD_str fp), [Mkdir_parent fp; To_csv md fp])
  end.

(** [uncache_measurement_metadata()]: the cached file is read back through
    the [measurement_metadata] property. *)
Definition uncache_measurement_metadata
    (m : MeasurementConfig Float Vocabulary F DataFrame Series)
    : res (MeasurementConfig Float Vocabulary F DataFrame Series) :=
  match _measurement_metadata m with
  | MD_None => Ok m
  | MD_str _ | MD_Path _ =>
      do md <- measurement_metadata m;
      Ok (set_metadata_slot m md)
  | _ => Raise caching_not_enabled
  end.
End MetadataCache.

Arguments io_action : clear implicits.

(** A store that holds one file, a table of three columns, at
    "cache/lab.csv". *)
#[global] Instance one_file_store : MetadataStore nat nat :=
  {| read_csv := fun fp =>
       if String.eqb fp "cache/lab.csv" then Ok 3%nat
       else Raise (Exn OSError "No such file or directory: {fp}" [VStr fp]);
     n_columns := fun df => df;
     first_column := fun df => df;
     eval_series_cells := fun s => Ok s;
     eval_frame_cells := fun df => Ok df |}.

(** ** [DatasetConfig] *)

(** [for x in l: ys.append(f(x))], stopping at the first exception. *)
Fixpoint mapM {E A B} (f : A -> result E B) (l : list A) : result E (list B) :=
  match l with
  | [] => Ok []
  | x :: l' => do y <- f x; do ys <- mapM f l'; Ok (y :: ys)
  end.

(** An argument that may be a Python [float] (an IEEE double), or any of the
    other Python values. *)
Inductive number_arg :=
| Py_float (f : float)
| Py_val (v : pyval).

(** [save_dir]: absent, a [str], or [Path(s)]. *)
Inductive save_dir_arg :=
| Dir_None
| Dir_str (s : string)
| Dir_Path (s : string).

(** [(0 < val) and (val < 1)] on a float (false for a NaN). *)
Definition in_unit_interval (f : float) : bool :=
  PrimFloat.ltb 0 f && PrimFloat.ltb f 1.

Definition must_be_fraction (var : string) : exn :=
  Exn ValueError "{var} must be in (0, 1) if float; got {val}!" [VStr var].

Definition must_be_count (var : string) (val : pyval) : exn :=
  Exn ValueError "{var} must be > 1 if integral; got {val}!" [VStr var; val].

(** The [match] on a count-or-proportion parameter; [bool] is an [int], with
    [True] and [False] standing for 1 and 0. *)
Definition check_count_or_proportion (var : string) (val : number_arg) : res unit :=
  match val with
  | Py_val VNone => Ok tt
  | Py_float f => check in_unit_interval f else must_be_fraction var; Ok tt
  | Py_val (VInt z) => check Z.ltb 1 z else must_be_count var (VInt z); Ok tt
  | Py_val (VBool b) => check Z.ltb 1 (Z.b2z b) else must_be_count var (VBool b); Ok tt
  | Py_val v =>
      Raise (Exn TypeError
               "{var} must either be a fraction (float between 0 and 1) or count (int > 1). Got {type(val)} of {val}"
               [VStr var; v])
  end.

(** The [match] on a proportion parameter. *)
Definition check_proportion (var : string) (val : number_arg) : res unit :=
  match val with
  | Py_val VNone => Ok tt
  | Py_float f => check in_unit_interval f else must_be_fraction var; Ok tt
  | Py_val v =>
      Raise (Exn TypeError
               "{var} must be a fraction (float between 0 and 1). Got {type(val)} of {val}"
               [VStr var; v])
  end.

Definition must_have_cls (var : string) (val : pyval) : exn :=
  Exn ValueError "{var} must be either None or a dictionary with 'cls' as a key! Got {val}"
    [VStr var; val].

(** [val is not None and (type(val) is not dict or "cls" not in val)]. *)
Definition check_cls_config (var : string) (val : pyval) : res unit :=
  match val with
  | VNone => Ok tt
  | VDict items =>
      check is_set (pydict_get (VStr "cls") items) else must_have_cls var val; Ok tt
  | _ => Raise (must_have_cls var val)
  end.

(** The fields other than [measurement_configs], which are also the keyword
    arguments that [from_simple_args] passes on. *)
Record DatasetConfig_options := mkDatasetConfigOptions {
  min_events_per_subject : pyval;
  agg_by_time_scale : pyval;
  min_valid_column_observations : number_arg;
  min_valid_vocab_element_observations : number_arg;
  min_true_float_frequency : number_arg;
  min_unique_numerical_observations : number_arg;
  outlier_detector_config : pyval;
  normalizer_config : pyval;
  save_dir : save_dir_arg
}.

Definition measurement_name_differs (key cfg_name : string) : exn :=
  Exn ValueError "Measurement config {name} has name {cfg.name} which differs from dict key!"
    [VStr key; VStr cfg_name].

Definition measurement_invalid (k : string) : exn :=
  Exn ValueError "Measurement config {k} invalid!" [VStr k].

Definition incorrect_type (measurement : pyval) : exn :=
  Exn TypeError "{measurement} is of incorrect type!" [measurement].

(** The values checked by [__post_init__], in the order it checks them. *)
Definition check_options (o : DatasetConfig_options) : res unit :=
  do _ <- check_count_or_proportion "min_valid_column_observations"
            (min_valid_column_observations o);
  do _ <- check_count_or_proportion "min_valid_vocab_element_observations"
            (min_valid_vocab_element_observations o);
  do _ <- check_count_or_proportion "min_unique_numerical_observations"
            (min_unique_numerical_observations o);
  do _ <- check_proportion "min_true_float_frequency" (min_true_float_frequency o);
  do _ <- check_cls_config "outlier_detector_config" (outlier_detector_config o);
  check_cls_config "normalizer_config" (normalizer_config o).

(** [if type(self.save_dir) is str: self.save_dir = Path(self.save_dir)]. *)
Definition with_save_dir_as_Path (o : DatasetConfig_options) : DatasetConfig_options :=
  {| min_events_per_subject := min_events_per_subject o;
     agg_by_time_scale := agg_by_time_scale o;
     min_valid_column_observations := min_valid_column_observations o;
     min_valid_vocab_element_observations := min_valid_vocab_element_observations o;
     min_true_float_frequency := min_true_float_frequency o;
     min_unique_numerical_observations := min_unique_numerical_observations o;
     outlier_detector_config := outlier_detector_config o;
     normalizer_config := normalizer_config o;
     save_dir := match save_dir o with
                 | Dir_str s => Dir_Path s
                 | d => d
                 end |}.

Section DatasetConfig.
Context {Float Vocabulary F DataFrame Series : Type}.
Context `{!TimeDependentFunctor F} `{!MetadataStore DataFrame Series}.

(** Each key of [measurement_configs] holds a [MeasurementConfig] object of
    its own. *)
Record DatasetConfig := mkDatasetConfig {
  measurement_configs : list (string * MeasurementConfig Float Vocabulary F DataFrame Series);
  options :> DatasetConfig_options
}.

Definition set_name (m : MeasurementConfig Float Vocabulary F DataFrame Series)
    (n : option string) : MeasurementConfig Float Vocabulary F DataFrame Series :=
  {| name := n; temporality := temporality m; modality := modality m;
     observation_frequency := observation_frequency m; functor := functor m;
     vocabulary := vocabulary m; values_column := values_column m;
     _measurement_metadata := _measurement_metadata m |}.

(** The first loop of [__post_init__]: a configuration with no name takes
    its key, one with another name is an error. *)
Definition name_measurement
    (item : string * MeasurementConfig Float Vocabulary F DataFrame Series)
    : res (string * MeasurementConfig Float Vocabulary F DataFrame Series) :=
  let '(key, cfg) := item in
  match name cfg with
  | None => Ok (key, set_name cfg (Some key))
  | Some n =>
      check String.eqb n key else measurement_name_differs key n;
      Ok (key, cfg)
  end.

(** The last loop: [v._validate()], any exception replaced by a [ValueError]
    that names the key. *)
Definition revalidate_measurement
    (item : string * MeasurementConfig Float Vocabulary F DataFrame Series)
    : res (string * MeasurementConfig Float Vocabulary F DataFrame Series) :=
  let '(k, v) := item in
  match _validate v with
  | Ok v' => Ok (k, v')
  | Raise _ => Raise (measurement_invalid k)
  end.

(** [__post_init__] of a configuration whose keys hold an object each;
    [DatasetConfig_post_init] below is the same on objects that the keys
    may share. *)
Definition DatasetConfig_init (c : DatasetConfig) : res DatasetConfig :=
  do named <- mapM name_measurement (measurement_configs c);
  do _ <- check_options c;
  do validated <- mapM revalidate_measurement named;
  Ok (mkDatasetConfig validated (with_save_dir_as_Path c)).

(** [MeasurementConfig(temporality=.., modality=.., functor=.., values_column=..)],
    the other fields at their default [None]. *)
Definition new_MeasurementConfig (t : TemporalityType) (md : option DataModality)
    (f : option F) (vc : option string)
    : res (MeasurementConfig Float Vocabulary F DataFrame Series) :=
  MeasurementConfig_init
    {| name := None; temporality := Some t; modality := md;
       observation_frequency := None; functor := f; vocabulary := None;
       values_column := vc; _measurement_metadata := MD_None |}.

(** One element of [dynamic_measurement_columns]. *)
Definition add_dynamic_measurement
    (mcs : list (string * MeasurementConfig Float Vocabulary F DataFrame Series))
    (measurement : pyval)
    : res (list (string * MeasurementConfig Float Vocabulary F DataFrame Series)) :=
  match seq2 measurement with
  | Some (a, b) =>
      if is_None a && is_str b then
        do cfg <- new_MeasurementConfig T_DYNAMIC (Some UNIVARIATE_REGRESSION) None None;
        Ok (dict_set (py_str b) cfg mcs)
      else if is_str a && is_str b then
        do cfg <- new_MeasurementConfig T_DYNAMIC (Some MULTIVARIATE_REGRESSION) None
                    (Some (py_str b));
        Ok (dict_set (py_str a) cfg mcs)
      else Raise (incorrect_type measurement)
  | None =>
      if is_str measurement then
        do cfg <- new_MeasurementConfig T_DYNAMIC (Some MULTI_LABEL_CLASSIFICATION) None None;
        Ok (dict_set (py_str measurement) cfg mcs)
      else Raise (incorrect_type measurement)
  end.

Definition add_static_measurement
    (mcs : list (string * MeasurementConfig Float Vocabulary F DataFrame Series))
    (measurement : string)
    : res (list (string * MeasurementConfig Float Vocabulary F DataFrame Series)) :=
  do cfg <- new_MeasurementConfig T_STATIC (Some SINGLE_LABEL_CLASSIFICATION) None None;
  Ok (dict_set measurement cfg mcs).

Definition add_time_dependent_measurement
    (mcs : list (string * MeasurementConfig Float Vocabulary F DataFrame Series))
    (item : string * F)
    : res (list (string * MeasurementConfig Float Vocabulary F DataFrame Series)) :=
  let '(measurement, f) := item in
  do cfg <- new_MeasurementConfig T_FUNCTIONAL_TIME_DEPENDENT None (Some f) None;
  Ok (dict_set measurement cfg mcs).

(** [DatasetConfig.from_simple_args]: each group of columns is optional. *)
Definition from_simple_args
    (dynamic_measurement_columns : option (list pyval))
    (static_measurement_columns : option (list string))
    (time_dependent_measurement_columns : option (list (string * F)))
    (kwargs : DatasetConfig_options) : res DatasetConfig :=
  do mcs <- match dynamic_measurement_columns with
            | Some l => foldM add_dynamic_measurement l []
            | None => Ok []
            end;
  do mcs <- match static_measurement_columns with
            | Some l => foldM add_static_measurement l mcs
            | None => Ok mcs
            end;
  do mcs <- match time_dependent_measurement_columns with
            | Some l => foldM add_time_dependent_measurement l mcs
            | None => Ok mcs
            end;
  DatasetConfig_init (mkDatasetConfig mcs kwargs).

(** A configuration that holds nothing but its name, its kind, a functor and
    a values column. *)
Definition plain_measurement (n : option string) (t : TemporalityType) (md : DataModality)
    (f : option F) (vc : option string)
    : MeasurementConfig Float Vocabulary F DataFrame Series :=
  {| name := n; temporality := Some t; modality := Some md;
     observation_frequency := None; functor := f; vocabulary := None;
     values_column := vc; _measurement_metadata := MD_None |}.

(** The five kinds of configuration that [from_simple_args] builds. *)
Definition is_simple_measurement (n : option string)
    (m : MeasurementConfig Float Vocabulary F DataFrame Series) : Prop :=
  m = plain_measurement n T_DYNAMIC UNIVARIATE_REGRESSION None None
  \/ (exists v, m = plain_measurement n T_DYNAMIC MULTIVARIATE_REGRESSION None (Some v))
  \/ m = plain_measurement n T_DYNAMIC MULTI_LABEL_CLASSIFICATION None None
  \/ m = plain_measurement n T_STATIC SINGLE_LABEL_CLASSIFICATION None None
  \/ (exists f, m = plain_measurement n T_FUNCTIONAL_TIME_DEPENDENT (OUTPUT_MODALITY f)
                      (Some f) None
                 /\ OUTPUT_MODALITY f <> MULTIVARIATE_REGRESSION).
End DatasetConfig.

Arguments DatasetConfig : clear implicits.

(** The default options of a [DatasetConfig]. *)
Definition default_options : DatasetConfig_options :=
  {| min_events_per_subject := VNone; agg_by_time_scale := VStr "1h";
     min_valid_column_observations := Py_val VNone;
     min_valid_vocab_element_observations := Py_val VNone;
     min_true_float_frequency := Py_val VNone;
     min_unique_numerical_observations := Py_val VNone;
     outlier_detector_config := VNone; normalizer_config := VNone;
     save_dir := Dir_None |}.

(** ** [DatasetConfig.__post_init__] on shared objects

    [measurement_configs] holds references. The heap gives the
    [MeasurementConfig] object at each address; one object may be held under
    several keys, and [__post_init__] names and validates the objects in
    place, so that what it does at one key is seen at the next. *)
Section DatasetConfigObjects.
Context {Float Vocabulary F DataFrame Series : Type}.
Context `{!TimeDependentFunctor F} `{!MetadataStore DataFrame Series}.

Definition heap : Type := nat -> MeasurementConfig Float Vocabulary F DataFrame Series.

(** The heap with the object at [r] replaced. *)
Definition store (h : heap) (r : nat)
    (m : MeasurementConfig Float Vocabulary F DataFrame Series) : heap :=
  fun r' => if Nat.eqb r' r then m else h r'.

(** One round of the first loop, [cfg] being the object at [r]:
    [if cfg.name is None: cfg.name = name] and
    [elif cfg.name != name: raise ValueError(..)]. *)
Definition name_object (h : heap) (item : string * nat) : res heap :=
  let '(key, r) := item in
  match name (h r) with
  | None => Ok (store h r (set_name (h r) (Some key)))
  | Some n =>
      check String.eqb n key else measurement_name_differs key n;
      Ok h
  end.

(** One round of the last loop: [v._validate()] on the object at [r], any
    exception replaced by a [ValueError] that names the key. *)
Definition revalidate_object (h : heap) (item : string * nat) : res heap :=
  let '(k, r) := item in
  match _validate (h r) with
  | Ok v' => Ok (store h r v')
  | Raise _ => Raise (measurement_invalid k)
  end.

(** [__post_init__] of the configuration whose [measurement_configs] is
    [refs] and whose other fields are [o], on the heap [h]: the heap and the
    fields that it leaves. *)
Definition DatasetConfig_post_init (h : heap) (refs : list (string * nat))
    (o : DatasetConfig_options) : res (heap * DatasetConfig_options) :=
  do h1 <- foldM name_object refs h;
  do _ <- check_options o;
  do h2 <- foldM revalidate_object refs h1;
  Ok (h2, with_save_dir_as_Path o).

(** The configuration read off the heap: under each key, the object that
    the key refers to. *)
Definition held (h : heap) (refs : list (string * nat)) (o : DatasetConfig_options)
    : DatasetConfig Float Vocabulary F DataFrame Series :=
  mkDatasetConfig (map (fun item => (fst item, h (snd item))) refs) o.

End DatasetConfigObjects.


(** ** [utils.py] *)

(** [num_initial_spaces]: the loop, with the counter [out]. *)
Fixpoint num_initial_spaces_from (out : Z) (s : string) : Z :=
  match s with
  | String c s' => if Ascii.eqb c Ascii.Space then num_initial_spaces_from (out + 1) s' else out
  | EmptyString => out
  end.

Definition num_initial_spaces (s : string) : Z := num_initial_spaces_from 0 s.

(** [flatten_dict]: the items of [exp_dict] in order, each key iterated over;
    [out[k] = v] hashes [k]. *)
Definition flatten_item {V} (out : list (pyval * V)) (item : pyval * V)
    : res (list (pyval * V)) :=
  let '(ks, v) := item in
  do keys <- py_iter ks;
  foldM (fun out k =>
           check py_hashable k else Exn TypeError "unhashable type" [k];
           Ok (pydict_set k v out))
    keys out.

Definition flatten_dict {V} (exp_dict : list (pyval * V)) : res (list (pyval * V)) :=
  foldM flatten_item exp_dict [].

(** ** Through JSON ([JSONableMixin.to_json_file], [JSONableMixin.from_json_file])

    What [json.load] reads from what [json.dump] wrote: a tuple comes back as
    a list and a [StrEnum] member as the plain string of its value; the keys
    of a dictionary are written as strings ([int], [bool] and [None] keys in
    their JSON spelling, any other key is a [TypeError]), and of two items
    whose keys are written alike the last one is read. *)

Definition json_key (k : pyval) : res string :=
  match k with
  | VStr s => Ok s
  | VDataType t => Ok (InputDataType_value t)
  | VInt z => Ok (pretty z)
  | VBool b => Ok (if b then "true" else "false")
  | VNone => Ok "null"
  | _ => Raise (Exn TypeError "keys must be str, int, float, bool or None, not {type(k)}" [k])
  end.

Fixpoint json_value (v : pyval) : res pyval :=
  match v with
  | VNone | VBool _ | VInt _ | VStr _ => Ok v
  | VDataType t => Ok (VStr (InputDataType_value t))
  | VList l | VTuple l =>
      do l' <- (fix elements (l : list pyval) : res (list pyval) :=
                  match l with
                  | [] => Ok []
                  | x :: l' => do y <- json_value x; do ys <- elements l'; Ok (y :: ys)
                  end) l;
      Ok (VList l')
  | VDict items =>
      do items' <- (fix members (items : list (pyval * pyval)) : res (list (pyval * pyval)) :=
                      match items with
                      | [] => Ok []
                      | (k, x) :: items' =>
                          do k' <- json_key k;
                          do y <- json_value x;
                          do rest <- members items';
                          Ok ((VStr k', y) :: rest)
                      end) items;
      Ok (VDict (foldl (fun d '(k, y) => pydict_set k y d) [] items'))
  end.

(** The fields of a source, written and read back. *)
Definition InputDFSchema_json (d : InputDFSchema_fields) : res InputDFSchema_fields :=
  do input_df' <- json_value (input_df d);
  do event_type' <- json_value (event_type d);
  do ts_col' <- json_value (ts_col d);
  do start_ts_col' <- json_value (start_ts_col d);
  do end_ts_col' <- json_value (end_ts_col d);
  do data_schema' <- json_value (data_schema d);
  do start_data_schema' <- json_value (start_data_schema d);
  do end_data_schema' <- json_value (end_data_schema d);
  do must_have' <- mapM json_value (must_have d);
  Ok {| input_df := input_df'; type := type d; event_type := event_type';
        subject_id_col := subject_id_col d; ts_col := ts_col';
        start_ts_col := start_ts_col'; end_ts_col := end_ts_col';
        ts_format := ts_format d; start_ts_format := start_ts_format d;
        end_ts_format := end_ts_format d;
        data_schema := data_schema'; start_data_schema := start_data_schema';
        end_data_schema := end_data_schema';
        must_have := must_have' |}.

(** [cls.from_json_file(fp)] after [s.to_json_file(fp)] wrote the file. *)
Definition InputDFSchema_json_round_trip (s : InputDFSchema) : res InputDFSchema :=
  do d <- InputDFSchema_json (InputDFSchema_to_dict s);
  InputDFSchema_from_dict d.

(* ================================================================== *)
(** * Properties *)

(** Case analysis on the guards of a run of checks, in the goal or in a
    hypothesis; the branches that raise (or that are contradictory) go. *)
Ltac case_guards :=
  repeat (match goal with
          | |- context [if ?c then _ else _] => destruct c eqn:?
          end; try done).

Tactic Notation "case_guards" "in" hyp(H) :=
  repeat (match type of H with
          | context [if ?c then _ else _] => destruct c eqn:?
          end; try done).

(** ** The error monad *)

Section MonadFacts.
Context {E A B : Type}.
Implicit Types (x : result E A) (k : A -> result E B).

Lemma bind_Ok_r x : bind x Ok = x.
Proof. by destruct x. Qed.

Lemma bind_Ok_inv x k b :
  bind x k = Ok b -> exists a, x = Ok a /\ k a = Ok b.
Proof. destruct x; simpl; [eauto|done]. Qed.

End MonadFacts.

Lemma foldM_app {E A B} (f : B -> A -> result E B) l1 l2 b :
  foldM f (l1 ++ l2) b = bind (foldM f l1 b) (foldM f l2).
Proof.
  revert b; induction l1 as [|x l1 IH]; intros b; simpl; [done|].
  destruct (f b x); simpl; auto.
Qed.

Lemma foldM_map {E A A' B} (f : B -> A -> result E B) (g : A' -> A) l b :
  foldM f (map g l) b = foldM (fun b x => f b (g x)) l b.
Proof.
  revert b; induction l as [|x l IH]; intros b; simpl; [done|].
  destruct (f b (g x)); simpl; auto.
Qed.

Lemma foldM_ext {E A B} (f g : B -> A -> result E B) l b :
  (forall b x, f b x = g b x) -> foldM f l b = foldM g l b.
Proof.
  intros Hfg. revert b; induction l as [|x l IH]; intros b; simpl; [done|].
  rewrite Hfg. destruct (g b x); simpl; auto.
Qed.

Lemma foldM_invariant {E A B} (P : B -> Prop) (f : B -> A -> result E B) l :
  (forall b x b', P b -> f b x = Ok b' -> P b') ->
  forall b b', P b -> foldM f l b = Ok b' -> P b'.
Proof.
  intros Hf. induction l as [|x l IH]; simpl; intros b b' Hb.
  - by intros [= <-].
  - intros (b1 & H1 & H2)%bind_Ok_inv. eauto.
Qed.

(** ** The unifier *)

Section UnifierFacts.
Implicit Types (container u : schema_container) (m : mapping) (ms : list mapping)
  (p q r : string * pyval) (c : string) (d : pyval).

(** *** Dictionaries *)

Lemma dict_get_set_eq {V} k (v : V) dd : dict_get k (dict_set k v dd) = Some v.
Proof.
  induction dd as [|[k' v'] dd IH]; simpl.
  - by rewrite String.eqb_refl.
  - destruct (String.eqb k k') eqn:E; simpl; rewrite E; auto.
Qed.

Lemma dict_get_set_ne {V} k k' (v : V) dd :
  k <> k' -> dict_get k' (dict_set k v dd) = dict_get k' dd.
Proof.
  intros Hne. induction dd as [|[k0 v0] dd IH]; simpl.
  - destruct (String.eqb_spec k' k); congruence.
  - destruct (String.eqb_spec k k0) as [->|]; simpl.
    + destruct (String.eqb_spec k' k0); congruence.
    + by rewrite IH.
Qed.

Lemma dict_set_same {V} k (v : V) dd : dict_get k dd = Some v -> dict_set k v dd = dd.
Proof.
  induction dd as [|[k' v'] dd IH]; simpl; [done|].
  destruct (String.eqb k k'); intros H.
  - by inversion H.
  - by rewrite IH.
Qed.

Lemma dict_keys_set_present {V} k (v : V) dd :
  is_Some (dict_get k dd) -> dict_keys (dict_set k v dd) = dict_keys dd.
Proof.
  induction dd as [|[k' v'] dd IH]; simpl.
  - by intros [? ?].
  - destruct (String.eqb k k'); simpl; [done|].
    intros H. by rewrite IH.
Qed.

Lemma dict_get_elem_of {V} k (v : V) dd : dict_get k dd = Some v -> (k, v) ∈ dd.
Proof.
  induction dd as [|[k' v'] dd IH]; simpl; [done|].
  destruct (String.eqb_spec k k') as [->|].
  - intros [= ->]. left.
  - intros H. right. auto.
Qed.

Lemma elem_of_dict_set {V} (x : string * V) k (v : V) dd :
  x ∈ dict_set k v dd -> x ∈ dd \/ x = (k, v).
Proof.
  induction dd as [|[k' v'] dd IH]; simpl.
  - intros ->%list_elem_of_singleton. by right.
  - destruct (String.eqb_spec k k') as [->|].
    + intros [->|Hin]%elem_of_cons; [by right|]. left. by right.
    + intros [->|[Hin|Hin]%IH]%elem_of_cons; [left; left|left; by right|by right].
Qed.

Lemma dict_set_Forall {V} (P : string * V -> Prop) k (v : V) dd :
  P (k, v) -> Forall P dd -> Forall P (dict_set k v dd).
Proof.
  intros Hkv. induction 1 as [|[k' v'] dd Hx Hd IH]; simpl.
  - by repeat constructor.
  - destruct (String.eqb_spec k k') as [->|]; constructor; auto.
Qed.

(** *** Python equality on the types of a schema *)

Lemma InputDataType_in_values t : in_InputDataType_values (VDataType t) = true.
Proof. by destruct t. Qed.

Lemma py_eq_strs a b :
  is_str a = true -> is_str b = true -> py_eq a b = String.eqb (py_str a) (py_str b).
Proof.
  destruct a as [| | |s|s| | |], b as [| | |t|t| | |]; try done; simpl; intros _ _.
  - apply String.eqb_sym.
  - by destruct s, t.
Qed.


Lemma py_eq_TIMESTAMP_str t : py_eq t (VDataType TIMESTAMP) = true -> is_str t = true.
Proof. by destruct t. Qed.

(** A type the unifier lets through is a string, or a list or tuple of two. *)
Lemma is_schema_dt_shape d :
  is_schema_dt d = true ->
  is_str d = true
  \/ exists a b, (d = VList [a; b] \/ d = VTuple [a; b])
                 /\ is_str a = true /\ is_str b = true.
Proof.
  unfold is_schema_dt, is_input_col_t, is_timestamp_with_format, seq2.
  destruct d as [| | | | |l|l|]; simpl; try done; auto;
    destruct l as [|a [|b [|? ?]]]; simpl; try done;
    rewrite !orb_false_r; intros [Ht Hf]%andb_true_iff;
    right; exists a, b; eauto using py_eq_TIMESTAMP_str.
Qed.

Lemma py_eq_norm d1 d2 :
  is_schema_dt d1 = true -> is_schema_dt d2 = true ->
  py_eq d1 d2 = true <-> dt_norm d1 = dt_norm d2.
Proof.
  intros [H1|(a1 & b1 & [->| ->] & Ha1 & Hb1)]%is_schema_dt_shape
         [H2|(a2 & b2 & [->| ->] & Ha2 & Hb2)]%is_schema_dt_shape.
  - rewrite py_eq_strs, String.eqb_eq by done.
    destruct d1, d2; try done; simpl; split; congruence.
  - by destruct d1.
  - by destruct d1.
  - by destruct d2.
  - simpl. rewrite !py_eq_strs, andb_true_r, andb_true_iff, !String.eqb_eq by done.
    split; [by intros [-> ->]|]. by intros [= -> ->].
  - done.
  - by destruct d2.
  - done.
  - simpl. rewrite !py_eq_strs, andb_true_r, andb_true_iff, !String.eqb_eq by done.
    split; [by intros [-> ->]|]. by intros [= -> ->].
Qed.

Lemma py_eq_schema_dt_refl d : is_schema_dt d = true -> py_eq d d = true.
Proof. intros H. by apply py_eq_norm. Qed.

Lemma entry_eq_refl p : is_schema_dt (snd p) = true -> entry_eq p p = true.
Proof.
  intros H. unfold entry_eq. by rewrite String.eqb_refl, py_eq_schema_dt_refl.
Qed.

Lemma entry_eq_trans p q r :
  is_schema_dt (snd p) = true -> is_schema_dt (snd q) = true ->
  is_schema_dt (snd r) = true ->
  entry_eq p q = true -> entry_eq q r = true -> entry_eq p r = true.
Proof.
  intros Hp Hq Hr. unfold entry_eq.
  rewrite !andb_true_iff, !String.eqb_eq, !py_eq_norm by done.
  intros [-> ->] [-> ->]. done.
Qed.

(** *** Every accepted shape is a run of insertions *)

Lemma add_mapping_step u c q :
  add_mapping u (c, q) =
  match dict_get c u with
  | Some p => if entry_eq p q then Ok (dict_set c q u) else Raise (column_repeated c p q)
  | None => Ok (dict_set c q u)
  end.
Proof.
  unfold add_mapping, add_to_schema; simpl. destruct q as [o d]; simpl.
  destruct (dict_get c u) as [p|]; [|done]. by destruct (entry_eq p (o, d)).
Qed.

Lemma unify_dict_item_maps container item m :
  dict_item_maps item m -> unify_dict_item container item = add_mapping container m.
Proof.
  intros H; destruct H as [c d Hs Hv|c d t fmt Hd Hts Hv|c o d info Hi Hd];
    unfold unify_dict_item, add_mapping; simpl.
  - assert (seq2 d = None) as -> by (by destruct d).
    by rewrite Hs, Hv.
  - rewrite Hd, Hts, Hv.
    assert (is_InputDataType fmt = false) as ->.
    { destruct fmt; try done. by rewrite InputDataType_in_values in Hv. }
    assert (is_timestamp_with_format fmt = false) as ->.
    { unfold is_timestamp_with_format in Hts. rewrite Hd in Hts.
      apply andb_true_iff in Hts as [_ Hf]. by destruct fmt. }
    by rewrite !andb_false_r.
  - rewrite Hi. unfold is_schema_dt, is_input_col_t in Hd. simpl.
    destruct (is_str d && in_InputDataType_values d) eqn:E1; [done|].
    destruct (is_InputDataType d) eqn:E2; [done|].
    destruct (is_timestamp_with_format d) eqn:E3; [done|].
    discriminate Hd.
Qed.

Lemma unify_dict_items_maps container items ms :
  Forall2 dict_item_maps items ms ->
  foldM unify_dict_item items container = foldM add_mapping ms container.
Proof.
  intros H. revert container.
  induction H as [|item m items ms Hm _ IH]; intros container; simpl; [done|].
  rewrite (unify_dict_item_maps _ _ _ Hm).
  destruct (add_mapping container m); simpl; auto.
Qed.

Lemma unify_entry_maps container e ms :
  entry_maps e ms -> unify_entry container e = foldM add_mapping ms container.
Proof.
  intros H; destruct H as [e c d He Hd|e cs d He Hd|items ms Hi|e renames d He Hd];
    unfold unify_entry.
  - rewrite He; simpl. rewrite Hd. unfold add_mapping; simpl. by rewrite bind_Ok_r.
  - rewrite He, Hd. by rewrite !foldM_map.
  - simpl. by apply unify_dict_items_maps.
  - rewrite He, Hd. rewrite !foldM_map. apply foldM_ext. by intros b [c o].
Qed.

Lemma unify_schema_maps es mss :
  Forall2 entry_maps es mss ->
  unify_schema (VList es) = foldM add_mapping (concat mss) [].
Proof.
  unfold unify_schema; simpl. generalize ([] : schema_container).
  intros u H. revert u.
  induction H as [|e ms es mss He _ IH]; intros u; simpl; [done|].
  rewrite foldM_app, (unify_entry_maps _ _ _ He).
  destruct (foldM add_mapping ms u); simpl; auto.
Qed.

Lemma dict_item_maps_schema_dt item m :
  dict_item_maps item m -> is_schema_dt (snd (snd m)) = true.
Proof.
  unfold is_schema_dt.
  destruct 1 as [c d Hs Hv|c d t fmt _ Hts _|c o d info _ Hd]; simpl.
  - by rewrite Hs, Hv, orb_true_r.
  - unfold is_input_col_t. by rewrite Hts, orb_true_r.
  - done.
Qed.

Lemma entry_maps_schema_dt e ms :
  entry_maps e ms -> Forall (fun m => is_schema_dt (snd (snd m)) = true) ms.
Proof.
  destruct 1 as [e c d _ Hd|e cs d _ Hd|items ms Hi|e renames d _ Hd].
  - repeat constructor. simpl. unfold is_schema_dt. by rewrite Hd.
  - apply Forall_forall. intros m (c & -> & _)%list_elem_of_fmap; simpl.
    unfold is_schema_dt. by rewrite Hd.
  - induction Hi; constructor; eauto using dict_item_maps_schema_dt.
  - apply Forall_forall. intros m ([c o] & -> & _)%list_elem_of_fmap; simpl.
    unfold is_schema_dt. by rewrite Hd.
Qed.

Lemma entries_maps_schema_dt es mss :
  Forall2 entry_maps es mss ->
  Forall (fun m => is_schema_dt (snd (snd m)) = true) (concat mss).
Proof.
  induction 1; simpl; [constructor|].
  apply Forall_app. eauto using entry_maps_schema_dt.
Qed.

(** *** A run of insertions succeeds exactly when the mappings agree *)

Lemma agrees_cons c p m ms :
  agrees c p (m :: ms) = (negb (String.eqb c (fst m)) || entry_eq p (snd m)) && agrees c p ms.
Proof. reflexivity. Qed.

Lemma agrees_false c p ms :
  agrees c p ms = false -> exists q, (c, q) ∈ ms /\ entry_eq p q = false.
Proof.
  induction ms as [|[c' q] ms IH]; [done|]. rewrite agrees_cons; simpl.
  destruct (String.eqb_spec c c') as [->|]; simpl.
  - destruct (entry_eq p q) eqn:E; simpl.
    + intros (q' & Hin & Hq')%IH. exists q'. split; [by right|done].
    + intros _. exists q. split; [left|done].
  - intros (q' & Hin & Hq')%IH. exists q'. split; [by right|done].
Qed.

Lemma agrees_elem_of c p q ms :
  agrees c p ms = true -> (c, q) ∈ ms -> entry_eq p q = true.
Proof.
  induction ms as [|[c' q'] ms IH]; [by intros _ ?%elem_of_nil|].
  rewrite agrees_cons; simpl. intros [H1 H2]%andb_true_iff [[= <- <-]|Hin]%elem_of_cons.
  - by rewrite String.eqb_refl in H1.
  - auto.
Qed.

(** If the stored mappings agree with the ones to come, and these agree with
    each other, no insertion raises. *)
Lemma add_mappings_consistent ms u :
  (forall c p, dict_get c u = Some p -> agrees c p ms = true) ->
  consistent ms = true ->
  foldM add_mapping ms u = Ok (merge_mappings u ms).
Proof.
  revert u; induction ms as [|[c q] ms IH]; intros u Hu Hc; simpl; [done|].
  apply andb_true_iff in Hc as [Hq Hc]. simpl in Hq.
  rewrite add_mapping_step.
  assert (foldM add_mapping ms (dict_set c q u) = Ok (merge_mappings (dict_set c q u) ms))
    as Hrest.
  { apply IH; [|done]. intros c' p'.
    destruct (decide (c = c')) as [<-|Hne].
    - rewrite dict_get_set_eq. by intros [= <-].
    - rewrite dict_get_set_ne by done. intros Hget.
      specialize (Hu _ _ Hget). rewrite agrees_cons in Hu.
      by apply andb_true_iff in Hu as [_ ?]. }
  destruct (dict_get c u) as [p|] eqn:Hget; simpl; [|done].
  specialize (Hu _ _ Hget). rewrite agrees_cons in Hu; simpl in Hu.
  rewrite String.eqb_refl in Hu. simpl in Hu.
  apply andb_true_iff in Hu as [-> _]. done.
Qed.

(** Otherwise the first insertion that meets a different stored value raises. *)
Lemma add_mappings_conflict ms u :
  Forall (fun m => is_schema_dt (snd (snd m)) = true) u ->
  Forall (fun m => is_schema_dt (snd (snd m)) = true) ms ->
  (exists c p, dict_get c u = Some p /\ agrees c p ms = false) \/ consistent ms = false ->
  exists c p q,
    ((c, p) ∈ u \/ (c, p) ∈ ms) /\ (c, q) ∈ ms /\ entry_eq p q = false
    /\ foldM add_mapping ms u = Raise (column_repeated c p q).
Proof.
  revert u; induction ms as [|[c0 q0] ms IH]; intros u Hvu Hvms Hbad.
  { destruct Hbad as [(c & p & _ & H)|H]; done. }
  apply Forall_cons in Hvms as [Hq0 Hvms]. simpl in Hq0.
  simpl. rewrite add_mapping_step.
  assert (Forall (fun m => is_schema_dt (snd (snd m)) = true) (dict_set c0 q0 u)) as Hvu'
    by (by apply dict_set_Forall).
  (* what the rest of the run does, once this insertion went through *)
  assert ((exists c p, dict_get c (dict_set c0 q0 u) = Some p /\ agrees c p ms = false)
          \/ consistent ms = false ->
          exists c p q,
            ((c, p) ∈ u \/ (c, p) ∈ (c0, q0) :: ms) /\ (c, q) ∈ (c0, q0) :: ms
            /\ entry_eq p q = false
            /\ foldM add_mapping ms (dict_set c0 q0 u) = Raise (column_repeated c p q))
    as Hrest.
  { intros Hbad'. destruct (IH _ Hvu' Hvms Hbad') as (c & p & q & Hp & Hq & Hpq & Hr).
    exists c, p, q. split; [|split; [by right|done]].
    destruct Hp as [[Hp| ->]%elem_of_dict_set|Hp]; [by left|right; left|right; by right]. }
  destruct (dict_get c0 u) as [p0|] eqn:Hget; simpl.
  - destruct (entry_eq p0 q0) eqn:E0.
    + apply Hrest. destruct Hbad as [(c & p & Hcp & Hag)|Hcons].
      * rewrite agrees_cons in Hag; simpl in Hag.
        destruct (decide (c0 = c)) as [<-|Hne].
        -- rewrite Hget in Hcp. injection Hcp as <-.
           rewrite String.eqb_refl, E0 in Hag. simpl in Hag.
           left. exists c0, q0. rewrite dict_get_set_eq. split; [done|].
           apply agrees_false in Hag as (r & Hin & Hr).
           destruct (agrees c0 q0 ms) eqn:Hag'; [|done].
           pose proof (agrees_elem_of _ _ _ _ Hag' Hin) as Hqr.
           assert (is_schema_dt (snd p0) = true) as Hp0.
           { apply dict_get_elem_of in Hget.
             by apply (proj1 (Forall_forall _ _) Hvu _ Hget). }
           assert (is_schema_dt (snd r) = true) as Hr0
             by (by apply (proj1 (Forall_forall _ _) Hvms _ Hin)).
           by rewrite (entry_eq_trans p0 q0 r) in Hr.
        -- left. exists c, p. rewrite dict_get_set_ne by done. split; [done|].
           apply andb_false_iff in Hag as [Hag|Hag]; [|done].
           destruct (String.eqb_spec c c0); [congruence|done].
      * simpl in Hcons. apply andb_false_iff in Hcons as [Hag|Hcons]; [|by right].
        left. exists c0, q0. by rewrite dict_get_set_eq.
    + exists c0, p0, q0. repeat split; [|left|done].
      left. by apply dict_get_elem_of.
  - apply Hrest. destruct Hbad as [(c & p & Hcp & Hag)|Hcons].
    + rewrite agrees_cons in Hag; simpl in Hag.
      destruct (decide (c0 = c)) as [<-|Hne]; [congruence|].
      left. exists c, p. rewrite dict_get_set_ne by done. split; [done|].
      apply andb_false_iff in Hag as [Hag|Hag]; [|done].
      destruct (String.eqb_spec c c0); [congruence|done].
    + simpl in Hcons. apply andb_false_iff in Hcons as [Hag|Hcons]; [|by right].
      left. exists c0, q0. by rewrite dict_get_set_eq.
Qed.

End UnifierFacts.

Example unify_same_column_twice :
  unify_schema (VList [VTuple [VStr "a"; VDataType FLOAT]; VDict [(VStr "a", VStr "float")]])
  = Ok [("a", ("a", VStr "float"))].
Proof. reflexivity. Qed.

Example unify_conflicting_rename :
  unify_schema (VList [VTuple [VStr "a"; VDataType FLOAT];
                       VDict [(VStr "a", VTuple [VStr "b"; VDataType FLOAT])]])
  = Raise (column_repeated "a" ("a", VDataType FLOAT) ("b", VDataType FLOAT)).
Proof. reflexivity. Qed.

Example unify_list_is_not_tuple :
  unify_schema (VList [VTuple [VStr "t"; VTuple [VDataType TIMESTAMP; VStr "%Y"]];
                       VTuple [VStr "t"; VList [VDataType TIMESTAMP; VStr "%Y"]]])
  = Raise (column_repeated "t" ("t", VTuple [VDataType TIMESTAMP; VStr "%Y"])
             ("t", VList [VDataType TIMESTAMP; VStr "%Y"])).
Proof. reflexivity. Qed.

(** C1. Conflict policy of the unifier. When the source column [c] is already
    mapped to [(o, d)], adding [(c, o', d')] raises the "repeated with
    different value" error exactly when [(o', d')] differs from [(o, d)], and
    otherwise stores the (equal) pair in place; re-adding [(o, d)] itself
    returns the mapping unchanged. Hence, for every list of shorthand entries
    in the accepted shapes: if any two mappings they ask for one source column
    are equal, unification returns the merged mapping, and otherwise it raises
    that error for two different mappings of one column. In particular two
    entries that map the same column [c], to [(o1, d1)] and to [(o2, d2)],
    unify when the pairs are equal and raise when they differ. Pairs are
    compared as Python compares them. *)
Theorem unify_schema_conflict_policy
    (container : schema_container) (c o o' : string) (d d' : pyval)
    (es : list pyval) (mss : list (list mapping))
    (e1 e2 : pyval) (o1 o2 : string) (d1 d2 : pyval) :
  dict_get c container = Some (o, d) ->
  is_schema_dt d = true ->
  Forall2 entry_maps es mss ->
  entry_maps e1 [(c, (o1, d1))] ->
  entry_maps e2 [(c, (o2, d2))] ->
  add_to_schema container (VStr c) d' (VStr o') =
    (if entry_eq (o, d) (o', d') then Ok (dict_set c (o', d') container)
     else Raise (column_repeated c (o, d) (o', d')))
  /\ add_to_schema container (VStr c) d (VStr o) = Ok container
  /\ (if consistent (concat mss)
      then unify_schema (VList es) = Ok (merge_mappings [] (concat mss))
      else exists k p q,
             (k, p) ∈ concat mss /\ (k, q) ∈ concat mss /\ entry_eq p q = false
             /\ unify_schema (VList es) = Raise (column_repeated k p q))
  /\ unify_schema (VList [e1; e2]) =
       (if entry_eq (o1, d1) (o2, d2) then Ok [(c, (o2, d2))]
        else Raise (column_repeated c (o1, d1) (o2, d2))).
Proof.
  intros Hget Hd Hes H1 H2. split; [|split; [|split]].
  - unfold add_to_schema; simpl. rewrite Hget. by destruct (entry_eq _ _).
  - change (add_to_schema container (VStr c) d (VStr o))
      with (add_mapping container (c, (o, d))).
    rewrite add_mapping_step, Hget, (entry_eq_refl (o, d)) by done.
    by rewrite (dict_set_same _ _ _ Hget).
  - rewrite (unify_schema_maps _ _ Hes).
    destruct (consistent (concat mss)) eqn:Hc.
    + by apply add_mappings_consistent.
    + destruct (add_mappings_conflict (concat mss) [])
        as (k & p & q & [Hp|Hp] & Hq & Hpq & Hr);
        [constructor|by eapply entries_maps_schema_dt|by right|by apply elem_of_nil in Hp|].
      exists k, p, q. done.
  - rewrite (unify_schema_maps [e1; e2] [[(c, (o1, d1))]; [(c, (o2, d2))]])
      by (by repeat constructor).
    change (concat [[(c, (o1, d1))]; [(c, (o2, d2))]])
      with [(c, (o1, d1)); (c, (o2, d2))].
    cbn [foldM]. rewrite add_mapping_step. cbn [dict_get dict_set bind].
    rewrite add_mapping_step. cbn [dict_get dict_set]. rewrite String.eqb_refl.
    by destruct (entry_eq _ _).
Qed.

Lemma unify_schema_conflict_policy_witness :
  add_to_schema [("a", ("x", VDataType FLOAT))] (VStr "a") (VStr "float") (VStr "y") =
    (if entry_eq ("x", VDataType FLOAT) ("y", VStr "float")
     then Ok (dict_set "a" ("y", VStr "float") [("a", ("x", VDataType FLOAT))])
     else Raise (column_repeated "a" ("x", VDataType FLOAT) ("y", VStr "float")))
  /\ add_to_schema [("a", ("x", VDataType FLOAT))] (VStr "a") (VDataType FLOAT) (VStr "x")
     = Ok [("a", ("x", VDataType FLOAT))]
  /\ unify_schema (VList [VTuple [VList [VStr "a"; VStr "b"]; VDataType FLOAT];
                          VDict [(VStr "b", VStr "float"); (VStr "c", VStr "boolean")]])
     = Ok [("a", ("a", VDataType FLOAT)); ("b", ("b", VStr "float"));
           ("c", ("c", VStr "boolean"))]
  /\ unify_schema (VList [VTuple [VStr "a"; VDataType FLOAT];
                          VDict [(VStr "a", VTuple [VStr "b"; VStr "float"])]])
     = Raise (column_repeated "a" ("a", VDataType FLOAT) ("b", VStr "float")).
Proof.
  apply (unify_schema_conflict_policy
           [("a", ("x", VDataType FLOAT))] "a" "x" "y" (VDataType FLOAT) (VStr "float")
           [VTuple [VList [VStr "a"; VStr "b"]; VDataType FLOAT];
            VDict [(VStr "b", VStr "float"); (VStr "c", VStr "boolean")]]
           [[("a", ("a", VDataType FLOAT)); ("b", ("b", VDataType FLOAT))];
            [("b", ("b", VStr "float")); ("c", ("c", VStr "boolean"))]]
           (VTuple [VStr "a"; VDataType FLOAT])
           (VDict [(VStr "a", VTuple [VStr "b"; VStr "float"])])
           "a" "b" (VDataType FLOAT) (VStr "float")).
  - reflexivity.
  - reflexivity.
  - constructor; [|constructor; [|constructor]].
    + apply (shape_columns_type _ ["a"; "b"] (VDataType FLOAT)); reflexivity.
    + apply shape_dict.
      constructor; [|constructor; [|constructor]].
      * apply item_type; reflexivity.
      * apply item_type; reflexivity.
  - apply shape_column_type; reflexivity.
  - apply shape_dict. constructor; [|constructor].
    apply (item_renamed "a" "b" (VStr "float") (VTuple [VStr "b"; VStr "float"]));
      reflexivity.
Defined.

(** ** The vocabulary arithmetic *)

Section VocabularyFacts.
Implicit Types (m sizes offsets : gmap string Z) (xs : list Z).

Lemma foldl_Zadd_shift xs a : foldl Z.add a xs = a + foldl Z.add 0 xs.
Proof.
  revert a; induction xs as [|x xs IH]; intros a; simpl; [lia|].
  rewrite (IH (a + x)), (IH (0 + x)). lia.
Qed.

Lemma py_sum_cons x xs : py_sum (x :: xs) = x + py_sum xs.
Proof. unfold py_sum; simpl. by rewrite foldl_Zadd_shift. Qed.

Lemma py_sum_Permutation xs ys : xs ≡ₚ ys -> py_sum xs = py_sum ys.
Proof.
  induction 1 as [|x xs ys _ IH|x y xs|xs ys zs _ IH1 _ IH2];
    rewrite ?py_sum_cons; try lia; congruence.
Qed.

(** The sum over the values does not depend on the iteration order. *)
Lemma sum_values_insert m k v :
  m !! k = None -> py_sum (dict_values (<[k:=v]> m)) = v + py_sum (dict_values m).
Proof.
  intros Hk. unfold dict_values.
  rewrite (py_sum_Permutation _ (v :: (map_to_list m).*2)).
  - apply py_sum_cons.
  - by rewrite (map_to_list_insert m k v Hk).
Qed.

Lemma foldl_min_spec xs a :
  let r := foldl (fun acc v => if Z.ltb v acc then v else acc) a xs in
  r ∈ a :: xs /\ forall y, y ∈ a :: xs -> r <= y.
Proof.
  revert a; induction xs as [|x xs IH]; intros a; simpl.
  - split; [by left|]. intros y ->%list_elem_of_singleton. lia.
  - destruct (IH (if Z.ltb x a then x else a)) as [Hin Hle]. split.
    + apply elem_of_cons in Hin as [->|Hin].
      * destruct (Z.ltb x a); [right; left|left].
      * by do 2 right.
    + intros y Hy.
      assert ((if Z.ltb x a then x else a) <= a /\ (if Z.ltb x a then x else a) <= x)
        as [Ha Hx] by (destruct (Z.ltb_spec x a); lia).
      pose proof (Hle _ (list_elem_of_here _ _)) as H0.
      apply elem_of_cons in Hy as [->|[->|Hy]%elem_of_cons]; [lia|lia|].
      apply Hle. by right.
Qed.

Lemma py_min_spec xs :
  xs <> [] -> exists r, py_min xs = Ok r /\ r ∈ xs /\ forall y, y ∈ xs -> r <= y.
Proof.
  destruct xs as [|x xs]; [done|]. intros _. eexists; split; [reflexivity|].
  apply foldl_min_spec.
Qed.

Lemma elem_of_dict_values m v : v ∈ dict_values m <-> exists k, m !! k = Some v.
Proof.
  unfold dict_values. rewrite list_elem_of_fmap. split.
  - intros [[k v'] [-> Hin]]. exists k. by apply elem_of_map_to_list.
  - intros [k Hk]. exists (k, v). split; [done|]. by apply elem_of_map_to_list.
Qed.

Lemma dict_values_nil m : dict_values m = [] <-> m = ∅.
Proof.
  unfold dict_values. split.
  - intros H. apply map_to_list_empty_iff. by apply fmap_nil_inv in H.
  - intros ->. by rewrite map_to_list_empty.
Qed.

(** When every sized measurement has an offset, the difference of the
    lengths counts the measurements with an offset and no size. *)
Lemma len_difference sizes offsets :
  dom sizes ⊆ dom offsets ->
  len offsets - len sizes = Z.of_nat (size (dom offsets ∖ dom sizes)).
Proof.
  intros Hsub. unfold len.
  rewrite (size_difference _ _ Hsub), !size_dom.
  pose proof (subseteq_size _ _ Hsub) as Hle. rewrite !size_dom in Hle. lia.
Qed.

End VocabularyFacts.

Example total_vocab_size_docstring :
  total_vocab_size (vocabulary_of docstring_sizes docstring_offsets) = Ok 19.
Proof. vm_compute. reflexivity. Qed.

(** C3, at a configuration whose size table names a measurement that the
    offset table does not: the code subtracts the lengths (2 - 2 = 0) where
    the documented count of offset-only measurements is 1, and returns 18,
    not 19. *)
Lemma total_vocab_size_stray_size_entry :
  total_vocab_size (vocabulary_of stray_sizes stray_offsets) = Ok 18
  /\ ~ documented_total_vocab_size (vocabulary_of stray_sizes stray_offsets)
         stray_sizes stray_offsets.
Proof.
  split; [by vm_compute|].
  intros (mo & [k Hk] & Hle & Htot).
  assert (total_vocab_size (vocabulary_of stray_sizes stray_offsets) = Ok 18) as E
    by (by vm_compute).
  rewrite E in Htot.
  assert (py_sum (dict_values stray_sizes) = 13) as Hs by (by vm_compute).
  assert (size (dom stray_offsets ∖ dom stray_sizes) = 1%nat) as Hc by (by vm_compute).
  rewrite Hs, Hc in Htot.
  assert (mo = 4) as -> by (injection Htot; lia).
  unfold stray_offsets in Hk.
  destruct (decide (k = "a")) as [->|Ha]; [by rewrite lookup_insert_eq in Hk|].
  rewrite lookup_insert_ne in Hk by done.
  destruct (decide (k = "c")) as [->|Hc']; [by rewrite lookup_insert_eq in Hk|].
  by rewrite lookup_insert_ne in Hk.
Qed.

(** C3, amended. For a configuration with both tables set, the offset table
    non-empty, and every measurement of the size table present in the offset
    table, [total_vocab_size] is the sum of the sizes, plus the least offset,
    plus the number of measurements with an offset and no size; for the
    docstring's tables it is 19. *)
Theorem total_vocab_size_formula (cfg : VocabularyConfig) (sizes offsets : gmap string Z) :
  vocab_sizes_by_measurement cfg = Some sizes ->
  vocab_offsets_by_measurement cfg = Some offsets ->
  offsets <> ∅ ->
  dom sizes ⊆ dom offsets ->
  documented_total_vocab_size cfg sizes offsets
  /\ total_vocab_size (vocabulary_of docstring_sizes docstring_offsets) = Ok 19.
Proof.
  intros Hs Ho Hne Hsub. split; [|by vm_compute].
  destruct (py_min_spec (dict_values offsets)) as (r & Hr & Hin & Hle).
  { by rewrite dict_values_nil. }
  exists r. split; [by apply elem_of_dict_values|]. split.
  - intros k v Hk. apply Hle, elem_of_dict_values. eauto.
  - unfold total_vocab_size. rewrite Hs, Ho, Hr; simpl.
    by rewrite (len_difference _ _ Hsub).
Qed.

Lemma total_vocab_size_formula_witness :
  documented_total_vocab_size (vocabulary_of docstring_sizes docstring_offsets)
    docstring_sizes docstring_offsets
  /\ total_vocab_size (vocabulary_of docstring_sizes docstring_offsets) = Ok 19.
Proof.
  apply (total_vocab_size_formula (vocabulary_of docstring_sizes docstring_offsets)
           docstring_sizes docstring_offsets).
  - reflexivity.
  - reflexivity.
  - vm_compute. discriminate.
  - unfold docstring_sizes, docstring_offsets. rewrite !dom_insert_L.
    intros x. rewrite !elem_of_union. tauto.
Defined.

(** C10. [total_vocab_size] is partial: with either table left at [None] it
    raises the attribute error of [None.values()], with both set and the
    offset table empty it raises the error of [min] on an empty sequence, and
    only with both set and a non-empty offset table does it return a number. *)
Theorem total_vocab_size_partial (cfg : VocabularyConfig) :
  match vocab_sizes_by_measurement cfg, vocab_offsets_by_measurement cfg with
  | Some sizes, Some offsets =>
      if decide (offsets = ∅) then
        total_vocab_size cfg = Raise (Exn ValueError "min() arg is an empty sequence" [])
      else exists n, total_vocab_size cfg = Ok n
  | _, _ =>
      total_vocab_size cfg =
        Raise (Exn AttributeError "'NoneType' object has no attribute 'values'" [])
  end.
Proof.
  unfold total_vocab_size.
  destruct (vocab_sizes_by_measurement cfg) as [sizes|]; [|done].
  destruct (vocab_offsets_by_measurement cfg) as [offsets|]; [|done].
  destruct (decide (offsets = ∅)) as [->|Hne].
  - by rewrite (proj2 (dict_values_nil ∅)).
  - destruct (py_min_spec (dict_values offsets)) as (r & -> & _).
    + by rewrite dict_values_nil.
    + simpl. eauto.
Qed.

Lemma total_vocab_size_partial_witness :
  total_vocab_size (mkVocabularyConfig None None None None None)
  = Raise (Exn AttributeError "'NoneType' object has no attribute 'values'" [])
  /\ total_vocab_size (vocabulary_of ∅ ∅)
     = Raise (Exn ValueError "min() arg is an empty sequence" []).
Proof.
  split.
  - exact (total_vocab_size_partial (mkVocabularyConfig None None None None None)).
  - exact (total_vocab_size_partial (vocabulary_of ∅ ∅)).
Defined.

(** ** Source schemas *)

Example admissions_literal_event_type :
  fields <$> (match InputDFSchema_init (admissions (VStr "ADMISSION") VNone) with
              | Ok s => Some s | Raise _ => None end)
  = Some (admissions (VTuple [VStr "ADMISSION"; VStr "ADMISSION_START"; VStr "ADMISSION_END"])
            VNone).
Proof. reflexivity. Qed.

Section SourceSchemaFacts.
Implicit Types (kwargs s : InputDFSchema_fields) (et : pyval).

(** A successful construction went through every stage. *)
Lemma InputDFSchema_init_Ok kwargs obj :
  InputDFSchema_init kwargs = Ok obj ->
  exists ty filters s,
    let s0 := with_schemas kwargs (wrap_schema (data_schema kwargs))
                (wrap_schema (start_data_schema kwargs))
                (wrap_schema (end_data_schema kwargs)) in
    is_None (input_df kwargs) = false
    /\ type kwargs = Some ty
    /\ foldM add_filter (must_have kwargs) [] = Ok filters
    /\ match ty with
       | STATIC => post_init_static s0
       | EVENT => post_init_event s0
       | RANGE => post_init_range s0
       end = Ok s
    /\ is_ok (columns_to_load s) = true
    /\ obj = mkInputDFSchemaObject s filters.
Proof.
  unfold InputDFSchema_init.
  destruct (is_None (input_df kwargs)) eqn:Hin; simpl; [done|].
  destruct (type kwargs) as [ty|] eqn:Hty; [|done].
  intros (filters & Hf & H)%bind_Ok_inv.
  apply bind_Ok_inv in H as (s & Hs & H).
  apply bind_Ok_inv in H as (cols & Hc & H).
  exists ty, filters, s. simpl in *. repeat split; try done.
  - by rewrite Hc.
  - by inversion H.
Qed.

Lemma post_init_static_fields s s' : post_init_static s = Ok s' -> s' = s.
Proof.
  unfold post_init_static.
  case_guards.
  by inversion 1.
Qed.

Lemma post_init_event_fields s s' : post_init_event s = Ok s' -> s' = s.
Proof.
  unfold post_init_event.
  case_guards.
  by inversion 1.
Qed.

Lemma range_data_schemas_event_type s s' :
  range_data_schemas s = Ok s' -> event_type s' = event_type s.
Proof.
  unfold range_data_schemas.
  case_guards; by inversion 1.
Qed.

Lemma range_formats_fields s s' :
  range_formats s = Ok s' ->
  event_type s' = event_type s /\ data_schema s' = data_schema s
  /\ start_data_schema s' = start_data_schema s /\ end_data_schema s' = end_data_schema s.
Proof.
  unfold range_formats. destruct (start_ts_format s);
    case_guards; by inversion 1.
Qed.

(** What [post_init_range] leaves in [event_type]. *)
Lemma post_init_range_event_type s s' :
  post_init_range s = Ok s' -> range_event_type (event_type s) = Ok (event_type s').
Proof.
  unfold post_init_range.
  intros (et & Het & H)%bind_Ok_inv.
  apply bind_Ok_inv in H as (s1 & Hs1 & H).
  apply range_data_schemas_event_type in Hs1. simpl in Hs1.
  case_guards in H.
  apply range_formats_fields in H as (-> & _). by rewrite Hs1.
Qed.

Lemma is_three_strings_not_str et : is_three_strings et = true -> is_str et = false.
Proof. by destruct et. Qed.

Lemma is_three_strings_expand et : is_str et = true -> is_three_strings (expand_event_type et) = true.
Proof. unfold is_three_strings; simpl. by intros ->. Qed.

Lemma range_event_type_reject et :
  is_str et = false -> is_three_strings et = false -> exists e, range_event_type et = Raise e.
Proof.
  intros Hs H3. unfold range_event_type. rewrite Hs, H3.
  destruct (is_None et); eauto.
Qed.

End SourceSchemaFacts.

(** A list of three strings matches the pattern [(str(), str(), str())] as a
    tuple does, and is kept. *)
Example range_event_type_list_kept :
  match InputDFSchema_init
          (admissions (VList [VStr "ADM"; VStr "ADMIT"; VStr "DISCHARGE"]) VNone)
  with Ok s => Some (event_type s) | Raise _ => None end
  = Some (VList [VStr "ADM"; VStr "ADMIT"; VStr "DISCHARGE"]).
Proof. reflexivity. Qed.

(** C4, as stated, fails at a range source with a literal string as event
    type and no start column: the event type passes its check, but
    construction raises at the check of [start_ts_col] that follows, so it
    does not succeed. *)
Lemma range_literal_event_type_not_built :
  type (admissions_without_start (VStr "ADM") VNone) = Some RANGE
  /\ event_type (admissions_without_start (VStr "ADM") VNone) = VStr "ADM"
  /\ InputDFSchema_init (admissions_without_start (VStr "ADM") VNone)
     = Raise (Exn ValueError "Missing mandatory range parameter start_ts_col!" [])
  /\ ~ range_event_type_as_specified (admissions_without_start (VStr "ADM") VNone).
Proof.
  repeat split.
  intros H. destruct (H eq_refl) as (H1 & _).
  destruct (H1 "ADM" eq_refl) as (s & Hs & _).
  vm_compute in Hs. discriminate.
Qed.

(** C4, amended. For a range source: with a literal string [X] as event
    type, construction succeeds exactly when it does with the explicit
    3-tuple [(X, X_START, X_END)] (it gives the same result, so the other
    fields decide), and a successful one holds that 3-tuple; an explicit
    3-tuple of strings, that is anything the pattern [(str(), str(), str())]
    matches, is kept unchanged; any other event type, [None] included, makes
    construction raise. *)
Theorem range_event_type_shapes (kwargs : InputDFSchema_fields) :
  type kwargs = Some RANGE ->
  (forall X, event_type kwargs = VStr X ->
     let expanded := VTuple [VStr X; VStr (String.append X "_START");
                             VStr (String.append X "_END")] in
     InputDFSchema_init kwargs = InputDFSchema_init (with_event_type kwargs expanded)
     /\ forall s, InputDFSchema_init kwargs = Ok s -> event_type s = expanded)
  /\ (is_three_strings (event_type kwargs) = true ->
        forall s, InputDFSchema_init kwargs = Ok s -> event_type s = event_type kwargs)
  /\ (is_str (event_type kwargs) = false ->
      is_three_strings (event_type kwargs) = false ->
      exists e, InputDFSchema_init kwargs = Raise e).
Proof.
  intros Hty. split; [|split].
  - intros X HX expanded. split.
    + unfold InputDFSchema_init; simpl. rewrite Hty.
      destruct (is_None (input_df kwargs)); simpl; [done|].
      destruct (foldM add_filter (must_have kwargs) []); simpl; [|done].
      unfold post_init_range; simpl. by rewrite HX.
    + intros s (ty & filters & s' & Hin & Hty' & Hf & Hs & Hc & ->)%InputDFSchema_init_Ok.
      rewrite Hty in Hty'. injection Hty' as <-.
      apply post_init_range_event_type in Hs. simpl in Hs. rewrite HX in Hs.
      simpl. by injection Hs as <-.
  - intros H3 s (ty & filters & s' & Hin & Hty' & Hf & Hs & Hc & ->)%InputDFSchema_init_Ok.
    rewrite Hty in Hty'. injection Hty' as <-.
    apply post_init_range_event_type in Hs. simpl in Hs.
    unfold range_event_type in Hs. rewrite H3 in Hs.
    destruct (is_None (event_type kwargs)); [done|]. simpl. by injection Hs as <-.
  - intros Hs H3. unfold InputDFSchema_init. rewrite Hty.
    destruct (is_None (input_df kwargs)); simpl; [eauto|].
    destruct (foldM add_filter (must_have kwargs) []); simpl; [|eauto].
    unfold post_init_range; simpl.
    destruct (range_event_type_reject _ Hs H3) as [e ->]. simpl. eauto.
Qed.

Lemma range_event_type_shapes_witness :
  (forall X, VStr "ADMISSION" = VStr X ->
     let expanded := VTuple [VStr X; VStr (String.append X "_START");
                             VStr (String.append X "_END")] in
     InputDFSchema_init (admissions (VStr "ADMISSION") VNone)
     = InputDFSchema_init (with_event_type (admissions (VStr "ADMISSION") VNone) expanded)
     /\ forall s, InputDFSchema_init (admissions (VStr "ADMISSION") VNone) = Ok s ->
                  event_type s = expanded)
  /\ is_ok (InputDFSchema_init (admissions (VStr "ADMISSION") VNone)) = true.
Proof.
  split; [|reflexivity].
  apply (range_event_type_shapes (admissions (VStr "ADMISSION") VNone)).
  reflexivity.
Defined.

Example admissions_shared_data_schema :
  fields <$> (match InputDFSchema_init (admissions (VStr "ADM") (VTuple [VStr "ward"; VDataType CATEGORICAL])) with
              | Ok s => Some s | Raise _ => None end)
  = Some (with_schemas (admissions (VTuple [VStr "ADM"; VStr "ADM_START"; VStr "ADM_END"]) VNone)
            (VList [VTuple [VStr "ward"; VDataType CATEGORICAL]])
            (VList [VTuple [VStr "ward"; VDataType CATEGORICAL]])
            (VList [VTuple [VStr "ward"; VDataType CATEGORICAL]])).
Proof. reflexivity. Qed.

Section SharedDataSchemaFacts.
Implicit Types (kwargs s : InputDFSchema_fields) (ds : pyval).

Lemma wrap_schema_None ds : is_None (wrap_schema ds) = is_None ds.
Proof. by destruct ds. Qed.

Lemma wrap_schema_set ds : ds <> VNone -> is_None (wrap_schema ds) = false.
Proof. rewrite wrap_schema_None. by destruct ds. Qed.

Lemma is_None_false ds : ds <> VNone <-> is_None ds = false.
Proof. by destruct ds. Qed.

(** With start and end schemas both present, the shared schema is not read. *)
Lemma columns_to_load_range_shared s W ds :
  type s = Some RANGE -> is_None W = false ->
  columns_to_load (with_schemas s ds W W) = columns_to_load (with_schemas s VNone W W).
Proof.
  intros Hty HW.
  unfold columns_to_load, unified_eq_schema, unified_start_schema, unified_end_schema; simpl.
  by rewrite Hty, HW.
Qed.

Lemma range_data_schemas_Ok s s' :
  range_data_schemas s = Ok s' ->
  if is_None (data_schema s) then s' = s
  else is_None (start_data_schema s) = true /\ is_None (end_data_schema s) = true
       /\ s' = with_schemas s (data_schema s) (data_schema s) (data_schema s).
Proof.
  unfold range_data_schemas. destruct (is_None (data_schema s)); simpl.
  - by inversion 1.
  - destruct (is_None (start_data_schema s)); [|done].
    destruct (is_None (end_data_schema s)); [|done]. by inversion 1.
Qed.

Lemma post_init_range_Ok s s' :
  post_init_range s = Ok s' ->
  exists et s1,
    range_event_type (event_type s) = Ok et
    /\ range_data_schemas (with_event_type s et) = Ok s1
    /\ range_formats s1 = Ok s'.
Proof.
  unfold post_init_range.
  intros (et & Het & H)%bind_Ok_inv.
  apply bind_Ok_inv in H as (s1 & Hs1 & H).
  case_guards in H.
  eauto.
Qed.

End SharedDataSchemaFacts.

(** C5, as stated, fails twice. With the shared and the start schema both
    set and [event_type=5], construction raises the [TypeError] of the
    event-type check, which runs before the schemas are compared, and not
    the forbidden-field error. With the shared schema alone and no start
    column, construction raises at the check of [start_ts_col], so it does
    not succeed. *)
Lemma range_shared_data_schema_other_errors :
  let both := with_schemas (admissions (VInt 5) VNone)
                (VTuple [VStr "ward"; VDataType CATEGORICAL])
                (VTuple [VStr "bed"; VDataType CATEGORICAL]) VNone in
  let shared_only :=
    admissions_without_start (VStr "ADM") (VTuple [VStr "ward"; VDataType CATEGORICAL]) in
  (InputDFSchema_init both
   = Raise (Exn TypeError
              "event_type must be a string or a 3-element tuple (eq_type, st_type, end_type) for ranges. Got {self.event_type}."
              [VInt 5])
   /\ ~ range_shared_data_schema_as_specified both)
  /\ (InputDFSchema_init shared_only
      = Raise (Exn ValueError "Missing mandatory range parameter start_ts_col!" [])
      /\ ~ range_shared_data_schema_as_specified shared_only).
Proof.
  intros both shared_only. repeat split.
  - intros H. destruct (H eq_refl) as (H1 & _); [discriminate|].
    destruct H1 as (e & He & param & val & ->); [left; discriminate|].
    vm_compute in He. discriminate.
  - intros H. destruct (H eq_refl) as (_ & H2); [discriminate|].
    destruct (H2 eq_refl eq_refl) as (s & Hs & _).
    vm_compute in Hs. discriminate.
Qed.

(** C5, amended. On a range source with a shared [data_schema]: if a start or an end
    schema is supplied as well, construction raises, and once the earlier
    checks (input_df, must_have, event_type) pass the exception is the
    "can't be simultaneously set" error naming the offending field; if
    neither is supplied, construction behaves exactly as if the shared schema
    had been given as both the start and the end schema (the same exception,
    or the same instance with [data_schema] retained), and a successful one
    holds the (list-wrapped) shared schema in all three attributes. *)
Theorem range_shared_data_schema (kwargs : InputDFSchema_fields) :
  type kwargs = Some RANGE ->
  data_schema kwargs <> VNone ->
  (start_data_schema kwargs <> VNone \/ end_data_schema kwargs <> VNone ->
     exists e, InputDFSchema_init kwargs = Raise e
       /\ (is_None (input_df kwargs) = false ->
           is_ok (foldM add_filter (must_have kwargs) []) = true ->
           is_ok (range_event_type (event_type kwargs)) = true ->
           e = if is_None (start_data_schema kwargs)
               then simultaneously_set "end_data_schema" (wrap_schema (end_data_schema kwargs))
               else simultaneously_set "start_data_schema"
                      (wrap_schema (start_data_schema kwargs))))
  /\ (start_data_schema kwargs = VNone -> end_data_schema kwargs = VNone ->
      let shared := wrap_schema (data_schema kwargs) in
      InputDFSchema_init kwargs =
        res_map (set_data_schema shared)
          (InputDFSchema_init
             (with_schemas kwargs VNone (data_schema kwargs) (data_schema kwargs)))
      /\ forall s, InputDFSchema_init kwargs = Ok s ->
           data_schema s = shared /\ start_data_schema s = shared
           /\ end_data_schema s = shared).
Proof.
  intros Hty Hds. pose proof (wrap_schema_set _ Hds) as HW. split.
  - intros Hse.
    assert (is_None (start_data_schema kwargs) && is_None (end_data_schema kwargs) = false)
      as Hb.
    { destruct Hse as [H|H]; apply is_None_false in H; rewrite H; by rewrite ?andb_false_r. }
    unfold InputDFSchema_init. rewrite Hty.
    destruct (is_None (input_df kwargs)); simpl; [eexists; split; [done|done]|].
    destruct (foldM add_filter (must_have kwargs) []); simpl;
      [|eexists; split; [done|done]].
    unfold post_init_range; simpl.
    destruct (range_event_type (event_type kwargs)); simpl;
      [|eexists; split; [done|done]].
    unfold range_data_schemas; simpl. rewrite HW, !wrap_schema_None; simpl.
    destruct (is_None (start_data_schema kwargs)); simpl.
    + simpl in Hb. rewrite Hb; simpl. eexists; split; [done|done].
    + eexists; split; [done|done].
  - intros Hst Hen shared. subst shared.
    assert (InputDFSchema_init kwargs =
            res_map (set_data_schema (wrap_schema (data_schema kwargs)))
              (InputDFSchema_init
                 (with_schemas kwargs VNone (data_schema kwargs) (data_schema kwargs)))) as Heq.
    { unfold InputDFSchema_init; simpl. rewrite Hty, Hst, Hen; simpl.
      destruct (is_None (input_df kwargs)); simpl; [done|].
      destruct (foldM add_filter (must_have kwargs) []) as [filters|]; simpl; [|done].
      unfold post_init_range; simpl.
      destruct (range_event_type (event_type kwargs)) as [et|]; simpl; [|done].
      unfold range_data_schemas; simpl. rewrite HW; simpl.
      destruct (is_None (start_ts_col kwargs)); simpl; [done|].
      destruct (is_None (end_ts_col kwargs)); simpl; [done|].
      destruct (is_None (ts_col kwargs)); simpl; [|done].
      destruct (bool_decide (subject_id_col kwargs = None)); simpl; [|done].
      unfold range_formats; simpl.
      destruct (start_ts_format kwargs); simpl.
      - destruct (bool_decide (end_ts_format kwargs <> None)); simpl; [|done].
        destruct (bool_decide (ts_format kwargs = None)); simpl; [|done].
        match goal with |- bind (columns_to_load ?a) _ = _ =>
          change a with (with_schemas a (wrap_schema (data_schema kwargs))
                           (wrap_schema (data_schema kwargs)) (wrap_schema (data_schema kwargs)))
        end.
        rewrite columns_to_load_range_shared by done.
        match goal with |- bind (columns_to_load ?a) _ = res_map _ (bind (columns_to_load ?b) _) =>
          change a with b; by destruct (columns_to_load b)
        end.
      - destruct (bool_decide (end_ts_format kwargs = None)); simpl; [|done].
        match goal with |- bind (columns_to_load ?a) _ = _ =>
          change a with (with_schemas a (wrap_schema (data_schema kwargs))
                           (wrap_schema (data_schema kwargs)) (wrap_schema (data_schema kwargs)))
        end.
        rewrite columns_to_load_range_shared by done.
        match goal with |- bind (columns_to_load ?a) _ = res_map _ (bind (columns_to_load ?b) _) =>
          change a with b; by destruct (columns_to_load b)
        end. }
    split; [exact Heq|].
    intros s Hs. rewrite Hs in Heq.
    destruct (InputDFSchema_init (with_schemas kwargs VNone _ _)) as [s'|] eqn:E; [|done].
    simpl in Heq. injection Heq as ->. simpl.
    apply InputDFSchema_init_Ok in E as (ty & filters & s2 & _ & Hty' & _ & Hs2 & _ & ->).
    simpl in Hty'. rewrite Hty in Hty'. injection Hty' as <-.
    apply post_init_range_Ok in Hs2 as (et & s1 & _ & H1 & H2).
    apply range_data_schemas_Ok in H1. simpl in H1. subst s1.
    apply range_formats_fields in H2 as (_ & _ & Hst2 & Hen2). simpl in *.
    by rewrite Hst2, Hen2.
Qed.

Lemma range_shared_data_schema_witness :
  let kwargs := admissions (VStr "ADM") (VTuple [VStr "ward"; VDataType CATEGORICAL]) in
  let shared := wrap_schema (data_schema kwargs) in
  (InputDFSchema_init kwargs =
     res_map (set_data_schema shared)
       (InputDFSchema_init
          (with_schemas kwargs VNone (data_schema kwargs) (data_schema kwargs)))
   /\ forall s, InputDFSchema_init kwargs = Ok s ->
        data_schema s = shared /\ start_data_schema s = shared /\ end_data_schema s = shared)
  /\ is_ok (InputDFSchema_init kwargs) = true.
Proof.
  intros kwargs shared. split; [|reflexivity].
  apply (range_shared_data_schema kwargs); [reflexivity|discriminate|reflexivity|reflexivity].
Defined.

(** *** The load plan of static and event sources *)

Section LoadPlanFacts.
Implicit Types (container u : schema_container) (columns : list (string * pyval)).

Lemma dict_get_None {V} k (d : list (string * V)) : dict_get k d = None <-> k ∉ dict_keys d.
Proof.
  induction d as [|[k' v] d IH]; simpl.
  - split; [intros _; apply not_elem_of_nil|done].
  - rewrite not_elem_of_cons. destruct (String.eqb_spec k k'); [|tauto].
    split; [done|]. by intros [? _].
Qed.

Lemma dict_set_fresh {V} k (v : V) d :
  dict_get k d = None -> dict_set k v d = (d ++ [(k, v)])%list.
Proof.
  induction d as [|[k' v'] d IH]; simpl; [done|].
  destruct (String.eqb k k'); [done|]. intros H. by rewrite IH.
Qed.

Lemma dict_set_keys_NoDup {V} k (v : V) d : NoDup (dict_keys d) -> NoDup (dict_keys (dict_set k v d)).
Proof.
  intros Hd. destruct (dict_get k d) eqn:E.
  - by rewrite dict_keys_set_present.
  - rewrite (dict_set_fresh _ _ _ E). unfold dict_keys. rewrite map_app; simpl.
    apply NoDup_app. split; [done|]. split; [|apply NoDup_singleton].
    intros x Hx ->%list_elem_of_singleton. by apply dict_get_None in E.
Qed.

(** The unifier never yields the same source column twice. *)
Lemma add_to_schema_NoDup container in_col dt out_col container' :
  NoDup (dict_keys container) ->
  add_to_schema container in_col dt out_col = Ok container' ->
  NoDup (dict_keys container').
Proof.
  intros Hc. unfold add_to_schema.
  destruct in_col; try done; destruct (if is_None out_col then _ else _); try done.
  destruct (dict_get s container) as [ex|].
  - destruct (negb _); [done|]. inversion 1. by apply dict_set_keys_NoDup.
  - inversion 1. by apply dict_set_keys_NoDup.
Qed.

Lemma unify_dict_item_NoDup container item container' :
  NoDup (dict_keys container) ->
  unify_dict_item container item = Ok container' ->
  NoDup (dict_keys container').
Proof.
  intros Hc. unfold unify_dict_item. destruct item as [in_col info].
  destruct (seq2 info) as [[o d]|];
    case_guards; by apply add_to_schema_NoDup.
Qed.

Lemma unify_entry_NoDup container schema container' :
  NoDup (dict_keys container) ->
  unify_entry container schema = Ok container' ->
  NoDup (dict_keys container').
Proof.
  intros Hc. unfold unify_entry.
  destruct (seq2 schema) as [[a d]|].
  - destruct a;
      case_guards; try (by apply add_to_schema_NoDup).
    + apply (foldM_invariant (fun c => NoDup (dict_keys c))); [|done].
      intros b x b' Hb. by apply add_to_schema_NoDup.
    + apply (foldM_invariant (fun c => NoDup (dict_keys c))); [|done].
      intros b [i o] b' Hb. by apply add_to_schema_NoDup.
  - destruct schema; try done.
    apply (foldM_invariant (fun c => NoDup (dict_keys c))); [|done].
    intros b x b' Hb. by apply unify_dict_item_NoDup.
Qed.

Lemma unify_schema_NoDup data_schema u :
  unify_schema data_schema = Ok u -> NoDup (dict_keys u).
Proof.
  unfold unify_schema. destruct (is_None data_schema).
  - inversion 1. apply NoDup_nil_2.
  - intros (schemas & _ & H)%bind_Ok_inv. revert H.
    apply (foldM_invariant (fun c => NoDup (dict_keys c))); [|apply NoDup_nil_2].
    intros b x b' Hb. by apply unify_entry_NoDup.
Qed.

(** Hence the duplicate check of the static/event branch never fires. *)
Lemma load_event_columns columns u :
  NoDup (dict_keys columns ++ dict_keys u) ->
  foldM load_event_column u columns
  = Ok (columns ++ map (fun '(c, (_, dt)) => (c, dt)) u)%list.
Proof.
  revert columns. induction u as [|[c [o dt]] u IH]; intros columns Hnd; simpl.
  - by rewrite app_nil_r.
  - assert (dict_get c columns = None) as Hc.
    { apply dict_get_None. apply NoDup_app in Hnd as (_ & Hd & _).
      intros Hin. apply (Hd _ Hin). left. }
    rewrite Hc; simpl. rewrite (dict_set_fresh _ _ _ Hc), IH.
    + by rewrite <- app_assoc.
    + unfold dict_keys in *. rewrite map_app; simpl. by rewrite <- app_assoc.
Qed.

End LoadPlanFacts.

(** C9. [columns_to_load] makes no duplicate check between the data-schema
    columns and the timestamp columns. For every event source that was built
    successfully, it is the data-schema columns with their types followed by
    the timestamp column(s) with the timestamp type, whatever the overlap (the
    "Duplicate column" check looks at the data-schema columns only); and for
    the event source with [ts_col="charttime"] and
    [data_schema=("charttime", FLOAT)], which is built successfully, it holds
    "charttime" twice, once as a float and once as a timestamp. *)
Theorem columns_to_load_repeats_timestamp_column :
  (forall (kwargs : InputDFSchema_fields) (s : InputDFSchema),
     type kwargs = Some EVENT ->
     InputDFSchema_init kwargs = Ok s ->
     exists u ts_cols,
       unified_event_schema s = Ok u
       /\ timestamp_columns "ts_col" (ts_col s) (ts_format s) = Ok ts_cols
       /\ columns_to_load s
          = Ok (map (fun '(c, (_, dt)) => (VStr c, dt)) u ++ ts_cols)%list)
  /\ (let kwargs := labs (VStr "charttime") (VTuple [VStr "charttime"; VDataType FLOAT]) None in
      exists s, InputDFSchema_init kwargs = Ok s
        /\ type s = Some EVENT
        /\ ts_col s = VStr "charttime"
        /\ unified_event_schema s = Ok [("charttime", ("charttime", VDataType FLOAT))]
        /\ columns_to_load s
           = Ok [(VStr "charttime", VDataType FLOAT);
                 (VStr "charttime", VDataType TIMESTAMP)]).
Proof.
  split.
  - intros kwargs s Hty (ty & filters & s' & _ & Hty' & _ & Hs & Hc & ->)%InputDFSchema_init_Ok.
    rewrite Hty in Hty'. injection Hty' as <-. simpl.
    pose proof (post_init_event_fields _ _ Hs) as ->.
    unfold post_init_event in Hs.
    destruct (negb (is_None (ts_col _))); [|done].
    destruct (negb (is_None (event_type _))); [|done].
    destruct (is_str (event_type _)); [|done].
    destruct (bool_decide (subject_id_col _ = None)); [|done].
    destruct (is_None (start_ts_col _)) eqn:Hst; [|done].
    destruct (is_None (end_ts_col _)) eqn:Hen; [|done]. clear Hs.
    unfold columns_to_load in *. simpl in *. rewrite Hty in *.
    destruct (start_ts_col kwargs); try done.
    destruct (end_ts_col kwargs); try done. simpl in *.
    destruct (unified_event_schema _) as [u|] eqn:Hu; [|done]. simpl in *.
    rewrite (load_event_columns [] u) in *
      by (simpl; by apply (unify_schema_NoDup _ _ Hu)).
    simpl in *.
    destruct (timestamp_columns "ts_col" _ _) as [ts_cols|]; [|done].
    exists u, ts_cols. repeat split. simpl. f_equal. f_equal.
    rewrite map_map. apply map_ext. by intros [c [o dt]].
  - eexists. repeat split.
Qed.

(** ** The dataset schema *)

Example dataset_schema_inherits_subject_id :
  match DatasetSchema_init (Some (AsDict (subjects "subject_id")))
          (Some [AsDict (labs (VStr "charttime") VNone None)]) with
  | (w, Ok ds) => Some (w, fields <$> dynamic ds)
  | _ => None
  end
  = Some ([], [labs (VStr "charttime") VNone (Some "subject_id")]).
Proof. reflexivity. Qed.

Section DatasetSchemaFacts.
Implicit Types (kwargs : InputDFSchema_fields) (v : schema_arg) (obj out : InputDFSchema).

(** Only a static source can be built with a subject-id column. *)
Lemma InputDFSchema_init_subject_id_col kwargs obj :
  InputDFSchema_init kwargs = Ok obj ->
  subject_id_col kwargs <> None ->
  type kwargs = Some STATIC.
Proof.
  intros (ty & filters & s & _ & Hty & _ & Hs & _ & _)%InputDFSchema_init_Ok Hsid.
  destruct ty; [done| |].
  - unfold post_init_event in Hs; simpl in Hs.
    case_guards in Hs.
    match goal with H : bool_decide (subject_id_col _ = None) = true |- _ =>
      apply bool_decide_eq_true in H; simpl in H; congruence end.
  - unfold post_init_range in Hs.
    apply bind_Ok_inv in Hs as (et & _ & Hs).
    apply bind_Ok_inv in Hs as (s1 & Hs1 & Hs).
    assert (subject_id_col s1 = subject_id_col kwargs) as Hsame.
    { apply range_data_schemas_Ok in Hs1.
      destruct (is_None _); [by subst|]. by destruct Hs1 as (_ & _ & ->). }
    case_guards in Hs.
    match goal with H : bool_decide (subject_id_col _ = None) = true |- _ =>
      apply bool_decide_eq_true in H; simpl in *; congruence end.
Qed.

(** Construction leaves the source's identity alone. *)
Lemma InputDFSchema_init_preserves kwargs obj :
  InputDFSchema_init kwargs = Ok obj ->
  type obj = type kwargs /\ subject_id_col obj = subject_id_col kwargs
  /\ input_df obj = input_df kwargs.
Proof.
  intros (ty & filters & s & _ & Hty & _ & Hs & _ & ->)%InputDFSchema_init_Ok. simpl.
  destruct ty.
  - by apply post_init_static_fields in Hs as ->.
  - by apply post_init_event_fields in Hs as ->.
  - apply post_init_range_Ok in Hs as (et & s1 & _ & H1 & H2).
    assert (type s1 = type kwargs /\ subject_id_col s1 = subject_id_col kwargs
            /\ input_df s1 = input_df kwargs) as (<- & <- & <-).
    { apply range_data_schemas_Ok in H1.
      destruct (is_None _); [by subst|]. by destruct H1 as (_ & _ & ->). }
    unfold range_formats in H2. destruct (start_ts_format s1);
      case_guards in H2; by injection H2 as <-.
Qed.

(** What the loop over the dynamic sources leaves: a subject-id column on
    every source, and no static source. *)
Lemma dynamic_source_Ok static_col v w out :
  static_col <> None ->
  dynamic_source static_col v = (w, Ok out) ->
  subject_id_col out <> None /\ type out <> Some STATIC.
Proof.
  intros HS. unfold dynamic_source.
  destruct (match v with AsDict _ => _ | AsObject _ => _ end) as [v'|]; [|done].
  destruct (subject_id_col v') eqn:Hsid;
    (destruct (is_static _) eqn:Hst; [done|]); intros [= _ <-];
    apply bool_decide_eq_false in Hst; (split; [|done]).
  - by rewrite Hsid.
  - done.
Qed.

Lemma dynamic_sources_Ok static_col dyn w outs :
  static_col <> None ->
  dynamic_sources static_col dyn = (w, Ok outs) ->
  Forall (fun out => subject_id_col out <> None /\ type out <> Some STATIC) outs.
Proof.
  intros HS. revert w outs. induction dyn as [|v dyn IH]; simpl; intros w outs.
  - intros [= _ <-]. constructor.
  - destruct (dynamic_source static_col v) as [w1 [out|]] eqn:E1; [|done].
    destruct (dynamic_sources static_col dyn) as [w2 [outs'|]] eqn:E2; [|done].
    intros [= _ <-]. constructor; eauto using dynamic_source_Ok.
Qed.

Lemma DatasetSchema_init_Ok static_arg dynamic_arg w ds :
  DatasetSchema_init static_arg dynamic_arg = (w, Ok ds) ->
  exists dyn by_df,
    dynamic_arg = Some dyn
    /\ subject_id_col (static ds) <> None
    /\ dynamic_sources (subject_id_col (static ds)) dyn = (w, Ok (dynamic ds))
    /\ foldM group_by_df (dynamic ds) [] = Ok by_df.
Proof.
  unfold DatasetSchema_init.
  destruct static_arg as [st|]; [|done].
  destruct (match st with AsDict _ => _ | AsObject _ => _ end) as [st'|]; [|done].
  destruct (subject_id_col st') eqn:Hsid; [|done].
  destruct dynamic_arg as [dyn|]; [|done].
  destruct (dynamic_sources _ dyn) as [w' [outs|]] eqn:Hd; [|done].
  destruct (foldM group_by_df outs []) as [by_df|] eqn:Hg; [|done].
  simpl. intros [= -> <-]. simpl. exists dyn, by_df. by rewrite Hsid.
Qed.

(** Rebuilding a dynamic source from its own fields fails. *)
Lemma dynamic_source_rebuild static_col out :
  subject_id_col out <> None -> type out <> Some STATIC ->
  exists e, dynamic_source static_col (AsDict (fields out)) = ([], Raise e).
Proof.
  intros Hsid Hty. unfold dynamic_source.
  destruct (InputDFSchema_init out) as [obj|e] eqn:E; [|eauto].
  destruct Hty. eapply InputDFSchema_init_subject_id_col; eauto.
Qed.

End DatasetSchemaFacts.

(** C2 fails on the code. No dataset schema with a dynamic source survives the
    round trip: [to_dict] writes the subject-id column that construction gave
    each dynamic source, and [from_dict] hands it back to the constructor of
    the source, which forbids it on a non-static source. So does no range
    source built from a shared [data_schema]: [to_dict] writes the start and
    end copies along with it, which the constructor forbids together. Both
    are shown at a concrete configuration as well. *)
Theorem dataset_schema_round_trip_raises
    (static_arg : option schema_arg) (dynamic_arg : option (list schema_arg))
    (w : list warning) (ds : DatasetSchema) :
  DatasetSchema_init static_arg dynamic_arg = (w, Ok ds) ->
  dynamic ds <> [] ->
  is_ok (DatasetSchema_from_dict (DatasetSchema_to_dict ds)).2 = false
  /\ (exists ds0,
        DatasetSchema_init (Some (AsDict (subjects "subject_id")))
          (Some [AsDict (labs (VStr "charttime") VNone None)]) = ([], Ok ds0)
        /\ DatasetSchema_from_dict (DatasetSchema_to_dict ds0)
           = ([], Raise subject_id_col_not_None))
  /\ (exists s0,
        InputDFSchema_init
          (admissions (VStr "ADM") (VTuple [VStr "ward"; VDataType CATEGORICAL])) = Ok s0
        /\ InputDFSchema_from_dict (InputDFSchema_to_dict s0)
           = Raise (simultaneously_set "start_data_schema"
                      (VList [VTuple [VStr "ward"; VDataType CATEGORICAL]]))).
Proof.
  intros Hinit Hne. split; [|split; eexists; split; reflexivity].
  apply DatasetSchema_init_Ok in Hinit as (dyn & by_df & _ & HS & Hd & _).
  apply dynamic_sources_Ok in Hd; [|done].
  unfold DatasetSchema_from_dict, DatasetSchema_to_dict, DatasetSchema_init; simpl.
  destruct (bind (InputDFSchema_init _) _) as [st'|]; [|done].
  destruct (subject_id_col st'); [|done].
  destruct (dynamic ds) as [|out outs]; [done|]. simpl.
  apply Forall_cons in Hd as [[Hsid Hty] _].
  destruct (dynamic_source_rebuild (Some s) out Hsid Hty) as [e He].
  unfold InputDFSchema_to_dict. by rewrite He.
Qed.

Lemma dataset_schema_round_trip_raises_witness :
  exists ds,
    DatasetSchema_init (Some (AsDict (subjects "subject_id")))
      (Some [AsDict (labs (VStr "charttime") VNone None)]) = ([], Ok ds)
    /\ is_ok (DatasetSchema_from_dict (DatasetSchema_to_dict ds)).2 = false.
Proof.
  let r := eval vm_compute in
             (DatasetSchema_init (Some (AsDict (subjects "subject_id")))
                (Some [AsDict (labs (VStr "charttime") VNone None)])) in
  match r with
  | (_, Ok ?ds) =>
      exists ds; split; [reflexivity|];
      apply (dataset_schema_round_trip_raises
               (Some (AsDict (subjects "subject_id")))
               (Some [AsDict (labs (VStr "charttime") VNone None)]) [] ds);
      [reflexivity|discriminate]
  end.
Defined.

Section SubjectIdFacts.
Implicit Types (kwargs : InputDFSchema_fields) (v : schema_arg) (obj out : InputDFSchema)
  (S : string).

Lemma with_subject_id_col_unset kwargs :
  subject_id_col kwargs = None -> with_subject_id_col kwargs None = kwargs.
Proof. destruct kwargs; simpl. by intros ->. Qed.

Lemma is_static_with_subject_id_col kwargs c :
  is_static (with_subject_id_col kwargs c) = is_static kwargs.
Proof. reflexivity. Qed.

Lemma dynamic_source_mismatch S v w0 out0 :
  (forall kwargs, v = AsDict kwargs -> subject_id_col kwargs = None) ->
  dynamic_source (Some S) (without_subject_id_col v) = (w0, Ok out0) ->
  exists out,
    dynamic_source (Some S) v = (mismatch_warning (Some S) v, Ok out)
    /\ subject_id_col out = match given_subject_id_col v with
                            | Some c => Some c
                            | None => Some S
                            end
    /\ input_df out = input_df out0.
Proof.
  intros Hdict. destruct v as [kwargs|obj]; simpl.
  - rewrite (with_subject_id_col_unset kwargs) by eauto.
    unfold dynamic_source, mismatch_warning; simpl. rewrite (Hdict kwargs eq_refl).
    destruct (InputDFSchema_init kwargs) as [obj|] eqn:E; [|done].
    apply InputDFSchema_init_preserves in E as (_ & Hsid & _).
    rewrite (Hdict kwargs eq_refl) in Hsid. rewrite Hsid; simpl.
    rewrite bool_decide_eq_false_2 by (intros Hne; by apply Hne).
    rewrite !is_static_with_subject_id_col.
    destruct (is_static obj); [done|]. intros [= _ <-]. eauto.
  - unfold dynamic_source, mismatch_warning; simpl.
    rewrite bool_decide_eq_false_2 by (intros Hne; by apply Hne).
    rewrite !is_static_with_subject_id_col.
    destruct (subject_id_col obj) as [c|] eqn:Hsid; simpl.
    + rewrite Hsid. destruct (is_static obj); [done|]. intros [= _ <-]. eauto.
    + rewrite bool_decide_eq_false_2 by (intros Hne; by apply Hne).
      rewrite !is_static_with_subject_id_col.
      destruct (is_static obj); [done|]. intros [= _ <-]. eauto.
Qed.

Lemma dynamic_sources_mismatch S dyn w0 outs0 :
  (forall kwargs, AsDict kwargs ∈ dyn -> subject_id_col kwargs = None) ->
  dynamic_sources (Some S) (map without_subject_id_col dyn) = (w0, Ok outs0) ->
  exists outs,
    dynamic_sources (Some S) dyn = (mismatch_warnings (Some S) dyn, Ok outs)
    /\ Forall2 (fun v out =>
                  subject_id_col out = match given_subject_id_col v with
                                       | Some c => Some c
                                       | None => Some S
                                       end) dyn outs
    /\ map (fun out => input_df out) outs = map (fun out => input_df out) outs0.
Proof.
  revert w0 outs0. induction dyn as [|v dyn IH]; simpl; intros w0 outs0 Hdict.
  - intros [= _ <-]. exists []. by repeat split.
  - destruct (dynamic_source (Some S) (without_subject_id_col v)) as [w1 [out1|]] eqn:E1;
      [|done].
    destruct (dynamic_sources (Some S) (map without_subject_id_col dyn))
      as [w2 [outs2|]] eqn:E2; [|done].
    intros [= _ <-].
    destruct (dynamic_source_mismatch S v w1 out1) as (out & -> & Hout & Hdf); [|done|].
    { intros kwargs ->. apply Hdict. left. }
    destruct (IH w2 outs2) as (outs & -> & Houts & Hdfs); [|done|].
    { intros kwargs Hin. apply Hdict. by right. }
    exists (out :: outs). repeat split; [by constructor|]. simpl. by rewrite Hdf, Hdfs.
Qed.

(** Grouping by dataframe only asks that each [input_df] be hashable. *)
Lemma group_by_df_ok (outs : list InputDFSchema) by_df :
  is_ok (foldM group_by_df outs by_df)
  = forallb (fun out => py_hashable (input_df out)) outs.
Proof.
  revert by_df. induction outs as [|out outs IH]; intros by_df; simpl; [done|].
  unfold group_by_df at 1. destruct (py_hashable (input_df out)); simpl; [|done].
  apply IH.
Qed.

Lemma forallb_map_eq {A B} (f g : A -> B) (p : B -> bool) (l1 l2 : list A) :
  map f l1 = map g l2 -> forallb (fun x => p (f x)) l1 = forallb (fun x => p (g x)) l2.
Proof.
  revert l2; induction l1 as [|x l1 IH]; intros [|y l2]; simpl; try done.
  intros [= -> H]. by rewrite (IH _ H).
Qed.

(** A plain-form dynamic source that names a subject-id column stops the loop. *)
Lemma dynamic_sources_explicit_dict static_col dyn kwargs :
  AsDict kwargs ∈ dyn -> subject_id_col kwargs <> None ->
  exists w e, dynamic_sources static_col dyn = (w, Raise e).
Proof.
  intros Hin Hsid. induction dyn as [|v dyn IH]; [by apply elem_of_nil in Hin|].
  simpl. apply elem_of_cons in Hin as [<-|Hin].
  - unfold dynamic_source at 1.
    destruct (InputDFSchema_init kwargs) as [obj|] eqn:E; [|eauto].
    pose proof (InputDFSchema_init_subject_id_col _ _ E Hsid) as Hty.
    apply InputDFSchema_init_preserves in E as (Hty' & Hsid' & _).
    rewrite <- Hsid' in Hsid. destruct (subject_id_col obj) eqn:Ho; [|done].
    unfold is_static. rewrite Hty', Hty, bool_decide_eq_true_2 by done. eauto.
  - destruct (dynamic_source static_col v) as [w1 [out|]]; [|eauto].
    destruct (IH Hin) as (w & e & ->). eauto.
Qed.

End SubjectIdFacts.

(** C7, as stated, fails for a dynamic source given in plain form with its own
    subject-id column: the constructor of the source forbids the column on a
    non-static source, so the dataset schema is not built, although it is
    built when the column is left out. *)
Lemma explicit_subject_id_col_rejected :
  (DatasetSchema_init (Some (AsDict (subjects "subject_id")))
     (Some [AsDict (labs (VStr "charttime") VNone (Some "patient_id"))])).2
  = Raise subject_id_col_not_None
  /\ ~ subject_id_policy_as_specified (AsDict (subjects "subject_id"))
         [AsDict (labs (VStr "charttime") VNone (Some "patient_id"))].
Proof.
  split; [reflexivity|].
  intros H. destruct H as (ds & Hds & _); [reflexivity|].
  apply (f_equal snd) in Hds. vm_compute in Hds. discriminate.
Qed.

(** C7, amended. A dynamic source given in plain form with a subject-id column
    of its own makes construction raise. When no plain-form dynamic source
    names one, the columns never block construction: if the schema is built
    with the dynamic sources' own columns left out, it is built with them, the
    sources that had none hold the static source's column, the sources that
    had one (already-built objects whose attribute was assigned) keep it, and
    exactly the sources whose column differs from the static one are warned
    about. *)
Theorem subject_id_policy (st : schema_arg) (dyn : list schema_arg) :
  (forall kwargs, AsDict kwargs ∈ dyn -> subject_id_col kwargs <> None ->
     is_ok (DatasetSchema_init (Some st) (Some dyn)).2 = false)
  /\ ((forall kwargs, AsDict kwargs ∈ dyn -> subject_id_col kwargs = None) ->
      subject_id_policy_as_specified st dyn).
Proof.
  split.
  - intros kwargs Hin Hsid. unfold DatasetSchema_init.
    destruct (match st with AsDict _ => _ | AsObject _ => _ end) as [st'|]; [|done].
    destruct (subject_id_col st'); [|done].
    by destruct (dynamic_sources_explicit_dict (Some s) dyn kwargs Hin Hsid) as (w & e & ->).
  - intros Hdict. unfold subject_id_policy_as_specified, DatasetSchema_init.
    destruct (match st with AsDict _ => _ | AsObject _ => _ end) as [st'|]; [|done].
    destruct (subject_id_col st') as [S|] eqn:HS; [|done].
    destruct (dynamic_sources (Some S) (map without_subject_id_col dyn))
      as [w0 [outs0|]] eqn:E0; [|done].
    destruct (dynamic_sources_mismatch S dyn w0 outs0 Hdict E0) as (outs & -> & Houts & Hdf).
    simpl. intros Hok.
    assert (is_ok (foldM group_by_df outs []) = true) as Hok'.
    { destruct (foldM group_by_df outs0 []) eqn:Hg; [|done].
      rewrite group_by_df_ok.
      rewrite (forallb_map_eq (fun out : InputDFSchema => input_df out)
                 (fun out : InputDFSchema => input_df out) py_hashable outs outs0 Hdf).
      by rewrite <- (group_by_df_ok outs0 []), Hg. }
    destruct (foldM group_by_df outs []) as [by_df|]; [|done]. simpl.
    exists (mkDatasetSchema st' outs by_df). simpl. rewrite HS. by split.
Qed.

Lemma subject_id_policy_witness :
  let st := AsDict (subjects "subject_id") in
  let built := mkInputDFSchemaObject (labs (VStr "charttime") VNone (Some "patient_id")) [] in
  let dyn := [AsObject built; AsDict (labs (VStr "time") VNone None)] in
  exists ds,
    DatasetSchema_init (Some st) (Some dyn)
    = ([Warning (VStr "labs") (Some "patient_id") (Some "subject_id")], Ok ds)
    /\ Forall2 (fun (v : schema_arg) (out : InputDFSchema) =>
                  subject_id_col out = match given_subject_id_col v with
                                       | Some c => Some c
                                       | None => subject_id_col (static ds)
                                       end)
         dyn (dynamic ds).
Proof.
  intros st built dyn.
  destruct (proj2 (subject_id_policy st dyn)) as (ds & Hds & Hall).
  - intros kwargs [[=]|[[= ->]|[]%elem_of_nil]%elem_of_cons]%elem_of_cons. reflexivity.
  - reflexivity.
  - exists ds. split; [|exact Hall].
    rewrite Hds. f_equal.
    apply (f_equal snd) in Hds. vm_compute in Hds. injection Hds as <-. reflexivity.
Defined.

(** ** Measurement configurations *)

Example dynamic_multi_label_accepted :
  is_ok (MeasurementConfig_init (sample_measurement T_DYNAMIC MULTI_LABEL_CLASSIFICATION None))
  = true.
Proof. reflexivity. Qed.

Example static_single_label_accepted :
  is_ok (MeasurementConfig_init (sample_measurement T_STATIC SINGLE_LABEL_CLASSIFICATION None))
  = true.
Proof. reflexivity. Qed.

(** C6, as stated, fails at a dynamic single-label measurement that has a
    functor as well: the check that a dynamic measurement has no functor
    comes first, and its error is raised instead of the
    incompatible-combination one. *)
Lemma dynamic_single_label_functor_error :
  _validate (sample_measurement T_DYNAMIC SINGLE_LABEL_CLASSIFICATION (Some tt))
  = Raise functor_should_be_None
  /\ MeasurementConfig_init (sample_measurement T_DYNAMIC SINGLE_LABEL_CLASSIFICATION (Some tt))
     = Raise functor_should_be_None
  /\ functor_should_be_None <> single_label_on_dynamic
  /\ ~ dynamic_single_label_as_specified
         (sample_measurement T_DYNAMIC SINGLE_LABEL_CLASSIFICATION (Some tt)).
Proof.
  repeat split; [discriminate|].
  intros H. destruct (H eq_refl eq_refl) as (Hv & _).
  vm_compute in Hv. discriminate.
Qed.

(** C6, amended. A measurement that is dynamic and single-label categorical is never
    valid, whatever its other fields, the functor class and the metadata
    store: the constructor and [_validate] raise a [ValueError], which is the
    "single-label on dynamic" error, unless a functor is set as well, in which
    case the check that a dynamic measurement has no functor, which comes
    first, raises its own. *)
Theorem dynamic_single_label_rejected
    {Float Vocabulary F DataFrame Series : Type}
    `{!TimeDependentFunctor F} `{!MetadataStore DataFrame Series}
    (m : MeasurementConfig Float Vocabulary F DataFrame Series) :
  temporality m = Some T_DYNAMIC ->
  modality m = Some SINGLE_LABEL_CLASSIFICATION ->
  exists e,
    _validate m = Raise e
    /\ MeasurementConfig_init m = Raise e
    /\ exn_cls e = ValueError
    /\ e = if is_set (functor m) then functor_should_be_None else single_label_on_dynamic.
Proof.
  intros Ht Hm. unfold MeasurementConfig_init, _validate, validate_temporality.
  rewrite Ht, Hm. destruct (functor m); simpl; eexists; repeat split.
Qed.

Lemma dynamic_single_label_rejected_witness :
  exists e,
    _validate (sample_measurement T_DYNAMIC SINGLE_LABEL_CLASSIFICATION None) = Raise e
    /\ MeasurementConfig_init (sample_measurement T_DYNAMIC SINGLE_LABEL_CLASSIFICATION None)
       = Raise e
    /\ exn_cls e = ValueError
    /\ e = single_label_on_dynamic.
Proof.
  exact (dynamic_single_label_rejected
           (sample_measurement T_DYNAMIC SINGLE_LABEL_CLASSIFICATION None)
           eq_refl eq_refl).
Defined.

(** ** More on the schema unifier *)

Section UnifierInvariants.
Implicit Types (c container u : schema_container) (x : pyval).

(** Whatever [__add_to_schema] keeps when the type it is given is one the
    unifier lets through, every shape of [_unify_schema] keeps. *)
Lemma unify_dict_item_preserves (P : schema_container -> Prop) :
  (forall c i dt o c', is_schema_dt dt = true -> P c ->
     add_to_schema c i dt o = Ok c' -> P c') ->
  forall c item c', P c -> unify_dict_item c item = Ok c' -> P c'.
Proof.
  intros Hadd c [in_col info] c' Hc. unfold unify_dict_item, is_schema_dt, is_input_col_t in *.
  destruct (seq2 info) as [[o d]|]; case_guards; apply Hadd; try done;
    unfold is_schema_dt, is_input_col_t;
    repeat match goal with
           | H : _ && _ = true |- _ => apply andb_prop in H as [? ?]
           end;
    repeat match goal with
           | H : _ = true |- _ => rewrite H
           end; by rewrite ?orb_true_r.
Qed.

Lemma unify_entry_preserves (P : schema_container -> Prop) :
  (forall c i dt o c', is_schema_dt dt = true -> P c ->
     add_to_schema c i dt o = Ok c' -> P c') ->
  forall c x c', P c -> unify_entry c x = Ok c' -> P c'.
Proof.
  intros Hadd c x c' Hc. unfold unify_entry.
  assert (forall d, is_input_col_t d = true -> is_schema_dt d = true) as Hdt.
  { intros d Hd. unfold is_schema_dt. by rewrite Hd. }
  destruct (seq2 x) as [[a d]|].
  - destruct a; case_guards;
      try (apply Hadd; [apply Hdt|done];
           repeat match goal with
                  | H : _ && _ = true |- _ => apply andb_prop in H as [? ?]
                  end; done).
    + apply (foldM_invariant P); [|done].
      intros b y b' Hb. apply Hadd; [by apply Hdt|done].
    + apply (foldM_invariant P); [|done].
      intros b [i o] b' Hb. apply Hadd; [by apply Hdt|done].
  - destruct x; try done.
    apply (foldM_invariant P); [|done].
    intros b y b' Hb. by apply unify_dict_item_preserves.
Qed.

Lemma add_to_schema_types c i dt o c' :
  is_schema_dt dt = true ->
  Forall (fun m : mapping => is_schema_dt (snd (snd m)) = true) c ->
  add_to_schema c i dt o = Ok c' ->
  Forall (fun m : mapping => is_schema_dt (snd (snd m)) = true) c'.
Proof.
  intros Hdt Hc. unfold add_to_schema.
  destruct i; try done; destruct (if is_None o then _ else _); try done.
  destruct (dict_get s c) as [ex|].
  - destruct (negb _); [done|]. inversion 1. by apply dict_set_Forall.
  - inversion 1. by apply dict_set_Forall.
Qed.

Lemma unify_schema_types data_schema u :
  unify_schema data_schema = Ok u ->
  Forall (fun m : mapping => is_schema_dt (snd (snd m)) = true) u.
Proof.
  unfold unify_schema. destruct (is_None data_schema).
  - inversion 1. constructor.
  - intros (schemas & _ & H)%bind_Ok_inv. revert H.
    apply (foldM_invariant (Forall (fun m : mapping => is_schema_dt (snd (snd m)) = true)));
      [|constructor].
    intros b x b'. apply unify_entry_preserves. intros c i dt o c' ? ?.
    by apply add_to_schema_types.
Qed.

End UnifierInvariants.

(** X1. Whatever [_unify_schema] returns is well formed: no source column
    appears twice in it, and every type it holds is one the unifier lets
    through (an [InputDataType] member, the string of one, or a timestamp
    paired with a format string). *)
Theorem unify_schema_well_formed (data_schema : pyval) (u : schema_container) :
  unify_schema data_schema = Ok u ->
  NoDup (dict_keys u)
  /\ Forall (fun m : mapping => is_schema_dt (snd (snd m)) = true) u.
Proof.
  intros H. split; [by apply (unify_schema_NoDup data_schema)|by apply (unify_schema_types data_schema)].
Qed.

Lemma unify_schema_well_formed_witness :
  exists u,
    unify_schema (VList [VTuple [VList [VStr "hr"; VStr "rr"]; VDataType FLOAT];
                         VDict [(VStr "hr", VStr "float");
                                (VStr "time", VTuple [VStr "charttime";
                                                      VTuple [VDataType TIMESTAMP; VStr "%Y"]])]])
    = Ok u
    /\ NoDup (dict_keys u)
    /\ Forall (fun m : mapping => is_schema_dt (snd (snd m)) = true) u.
Proof.
  eexists. split; [reflexivity|].
  apply (unify_schema_well_formed
           (VList [VTuple [VList [VStr "hr"; VStr "rr"]; VDataType FLOAT];
                   VDict [(VStr "hr", VStr "float");
                          (VStr "time", VTuple [VStr "charttime";
                                                VTuple [VDataType TIMESTAMP; VStr "%Y"]])]])).
  reflexivity.
Defined.

(** ** The load plan of a range source *)

Section RangeLoadPlan.
Implicit Types (c container u e st en : schema_container) (x : pyval)
  (columns : list (string * pyval)).

Lemma foldM_simulation {E A B} (R : B -> B -> Prop) (f : B -> A -> result E B) l :
  (forall b1 b2 a b1', R b1 b2 -> f b1 a = Ok b1' ->
     exists b2', f b2 a = Ok b2' /\ R b1' b2') ->
  forall b1 b2 b1', R b1 b2 -> foldM f l b1 = Ok b1' ->
    exists b2', foldM f l b2 = Ok b2' /\ R b1' b2'.
Proof.
  intros Hf. induction l as [|a l IH]; intros b1 b2 b1' HR; simpl.
  - inversion 1; subst. by exists b2.
  - intros (b & Hb & Hl)%bind_Ok_inv.
    destruct (Hf _ _ _ _ HR Hb) as (b2' & -> & HR'). simpl. by apply (IH b).
Qed.

(** A container that holds less accepts whatever the larger one accepts. *)
Lemma add_to_schema_simulation c1 c2 i dt o c1' :
  (forall k p, dict_get k c2 = Some p -> dict_get k c1 = Some p) ->
  add_to_schema c1 i dt o = Ok c1' ->
  exists c2', add_to_schema c2 i dt o = Ok c2'
    /\ forall k p, dict_get k c2' = Some p -> dict_get k c1' = Some p.
Proof.
  intros Hsub. unfold add_to_schema.
  destruct i as [| | |i| | | |]; try done.
  destruct (if is_None o then _ else _) as [| | |o'| | | |]; try done.
  assert (forall c1' c2', c1' = dict_set i (o', dt) c1 -> c2' = dict_set i (o', dt) c2 ->
            forall k p, dict_get k c2' = Some p -> dict_get k c1' = Some p) as Hset.
  { intros ? ? -> -> k p. destruct (decide (i = k)) as [->|Hne].
    - by rewrite !dict_get_set_eq.
    - rewrite !dict_get_set_ne by done. apply Hsub. }
  intros H1.
  assert (c1' = dict_set i (o', dt) c1) as ->.
  { destruct (dict_get i c1); [destruct (negb _); [done|]|]; by inversion H1. }
  destruct (dict_get i c2) as [ex|] eqn:E2.
  - rewrite (Hsub _ _ E2) in H1. destruct (negb _); [done|].
    eexists; split; [done|]. by apply Hset.
  - eexists; split; [done|]. by apply Hset.
Qed.

Lemma unify_entry_simulation c1 c2 x c1' :
  (forall k p, dict_get k c2 = Some p -> dict_get k c1 = Some p) ->
  unify_entry c1 x = Ok c1' ->
  exists c2', unify_entry c2 x = Ok c2'
    /\ forall k p, dict_get k c2' = Some p -> dict_get k c1' = Some p.
Proof.
  intros Hsub. unfold unify_entry.
  destruct (seq2 x) as [[a d]|].
  - destruct a; case_guards; try (by apply add_to_schema_simulation).
    + apply (foldM_simulation
               (fun b1 b2 => forall k p, dict_get k b2 = Some p -> dict_get k b1 = Some p));
        [|done].
      intros b1 b2 y b1' HR. by apply add_to_schema_simulation.
    + apply (foldM_simulation
               (fun b1 b2 => forall k p, dict_get k b2 = Some p -> dict_get k b1 = Some p));
        [|done].
      intros b1 b2 [i o] b1' HR. by apply add_to_schema_simulation.
  - destruct x; try done.
    apply (foldM_simulation
             (fun b1 b2 => forall k p, dict_get k b2 = Some p -> dict_get k b1 = Some p));
      [|done].
    intros b1 b2 [i info] b1' HR. unfold unify_dict_item.
    destruct (seq2 info) as [[o d]|]; case_guards; by apply add_to_schema_simulation.
Qed.

(** Going on from [c0], a run of the unifier keeps every column of [c0], with
    an equal (output column, type). *)
Lemma add_to_schema_grows c0 c i dt o c' :
  Forall (fun m : mapping => is_schema_dt (snd (snd m)) = true) c0 ->
  is_schema_dt dt = true ->
  (Forall (fun m : mapping => is_schema_dt (snd (snd m)) = true) c
   /\ forall k p, dict_get k c0 = Some p ->
        exists q, dict_get k c = Some q /\ entry_eq p q = true) ->
  add_to_schema c i dt o = Ok c' ->
  Forall (fun m : mapping => is_schema_dt (snd (snd m)) = true) c'
  /\ forall k p, dict_get k c0 = Some p ->
       exists q, dict_get k c' = Some q /\ entry_eq p q = true.
Proof.
  intros Hc0 Hdt [Hc Hg] Hadd. split; [by apply (add_to_schema_types c i dt o)|].
  intros k p Hk. destruct (Hg k p Hk) as (q & Hq & Hpq).
  revert Hadd. unfold add_to_schema.
  destruct i as [| | |i| | | |]; try done.
  destruct (if is_None o then _ else _) as [| | |o'| | | |]; try done.
  intros Hadd.
  assert (c' = dict_set i (o', dt) c
          /\ forall ex, dict_get i c = Some ex -> entry_eq ex (o', dt) = true) as [-> Hex].
  { destruct (dict_get i c) as [ex|].
    - destruct (entry_eq ex (o', dt)) eqn:Eq; simpl in Hadd; [|done].
      inversion Hadd. split; [done|]. by intros ? [= <-].
    - inversion Hadd. by split. }
  destruct (decide (i = k)) as [->|Hne].
  - exists (o', dt). rewrite dict_get_set_eq. split; [done|].
    assert (is_schema_dt (snd q) = true) as Hq'.
    { apply dict_get_elem_of in Hq. by apply (proj1 (Forall_forall _ _) Hc) in Hq. }
    assert (is_schema_dt (snd p) = true) as Hp'.
    { apply dict_get_elem_of in Hk. by apply (proj1 (Forall_forall _ _) Hc0) in Hk. }
    apply (entry_eq_trans p q); try done. by apply Hex.
  - exists q. by rewrite dict_get_set_ne.
Qed.


Lemma unify_entry_grows c0 c x c' :
  Forall (fun m : mapping => is_schema_dt (snd (snd m)) = true) c0 ->
  (Forall (fun m : mapping => is_schema_dt (snd (snd m)) = true) c
   /\ forall k p, dict_get k c0 = Some p ->
        exists q, dict_get k c = Some q /\ entry_eq p q = true) ->
  unify_entry c x = Ok c' ->
  Forall (fun m : mapping => is_schema_dt (snd (snd m)) = true) c'
  /\ forall k p, dict_get k c0 = Some p ->
       exists q, dict_get k c' = Some q /\ entry_eq p q = true.
Proof.
  intros Hc0.
  apply (unify_entry_preserves
    (fun c => Forall (fun m : mapping => is_schema_dt (snd (snd m)) = true) c
              /\ forall k p, dict_get k c0 = Some p ->
                   exists q, dict_get k c = Some q /\ entry_eq p q = true)).
  intros ? ? ? ? ? ?. by apply add_to_schema_grows.
Qed.

(** The unified schema of [l1 ++ l2] against those of [l1] and of [l2]: both
    exist, every column of the first is kept with an equal value, and every
    column of the second is kept as it is. *)
Lemma unify_entries_app l1 l2 e :
  foldM unify_entry (l1 ++ l2) [] = Ok e ->
  exists st en,
    foldM unify_entry l1 [] = Ok st /\ foldM unify_entry l2 [] = Ok en
    /\ (forall k p, dict_get k st = Some p ->
          exists q, dict_get k e = Some q /\ entry_eq p q = true)
    /\ (forall k p, dict_get k en = Some p -> dict_get k e = Some p).
Proof.
  rewrite foldM_app. intros (st & Hst & He)%bind_Ok_inv.
  assert (Forall (fun m : mapping => is_schema_dt (snd (snd m)) = true) st) as Hv.
  { apply (unify_schema_types (VList l1)). by rewrite <- Hst. }
  destruct (foldM_simulation
              (fun b1 b2 => forall k p, dict_get k b2 = Some p -> dict_get k b1 = Some p)
              unify_entry l2 (fun b1 b2 a b1' => unify_entry_simulation b1 b2 a b1')
              st [] e) as (en & Hen & Hsub); [done|done|].
  exists st, en. repeat split; try done.
  revert He. apply (foldM_invariant
    (fun c => Forall (fun m : mapping => is_schema_dt (snd (snd m)) = true) c
              /\ forall k p, dict_get k st = Some p ->
                   exists q, dict_get k c = Some q /\ entry_eq p q = true)).
  - intros b a b'. by apply unify_entry_grows.
  - split; [done|]. intros k p Hk. exists p. split; [done|].
    apply entry_eq_refl. apply dict_get_elem_of in Hk.
    by apply (proj1 (Forall_forall _ _) Hv) in Hk.
Qed.

Lemma elem_of_dict_get {V} k (v : V) (d : list (string * V)) :
  NoDup (dict_keys d) -> (k, v) ∈ d -> dict_get k d = Some v.
Proof.
  induction d as [|[k' v'] d IH]; simpl; [by intros _ ?%elem_of_nil|].
  intros [Hk' Hd]%NoDup_cons [[= -> ->]|Hin]%elem_of_cons.
  - by rewrite String.eqb_refl.
  - destruct (String.eqb_spec k k') as [->|]; [|by apply IH].
    exfalso. apply Hk'. unfold dict_keys. apply list_elem_of_fmap. by exists (k', v).
Qed.

Lemma dict_get_loaded k u :
  dict_get k (map (fun '(c, (_, dt)) => (c, dt)) u : list (string * pyval))
  = snd <$> dict_get k u.
Proof.
  induction u as [|[c [o dt]] u IH]; simpl; [done|].
  by destruct (String.eqb k c).
Qed.

(** The first pass over a schema loads each of its columns. *)
Lemma load_range_columns_fresh columns u :
  NoDup (dict_keys columns ++ dict_keys u) ->
  foldM load_range_column u columns
  = Ok (columns ++ map (fun '(c, (_, dt)) => (c, dt)) u)%list.
Proof.
  revert columns. induction u as [|[c [o dt]] u IH]; intros columns Hnd; simpl.
  - by rewrite app_nil_r.
  - assert (dict_get c columns = None) as Hc.
    { apply dict_get_None. apply NoDup_app in Hnd as (_ & Hd & _).
      intros Hin. apply (Hd _ Hin). left. }
    rewrite Hc; simpl. rewrite (dict_set_fresh _ _ _ Hc), IH.
    + by rewrite <- app_assoc.
    + unfold dict_keys in *. rewrite map_app; simpl. by rewrite <- app_assoc.
Qed.

(** A pass over a schema whose columns are all loaded with an equal type
    changes nothing. *)
Lemma load_range_columns_known columns u :
  (forall k o dt, (k, (o, dt)) ∈ u ->
     exists dt0, dict_get k columns = Some dt0 /\ py_eq dt dt0 = true) ->
  foldM load_range_column u columns = Ok columns.
Proof.
  induction u as [|[c [o dt]] u IH]; intros Hu; simpl; [done|].
  destruct (Hu c o dt) as (dt0 & -> & ->); [left|]. simpl.
  apply IH. intros k o' dt' Hin. apply (Hu k o' dt'). by right.
Qed.

Lemma load_range_schemas e st en :
  NoDup (dict_keys e) -> NoDup (dict_keys st) -> NoDup (dict_keys en) ->
  Forall (fun m : mapping => is_schema_dt (snd (snd m)) = true) en ->
  (forall k p, dict_get k st = Some p ->
     exists q, dict_get k e = Some q /\ entry_eq p q = true) ->
  (forall k p, dict_get k en = Some p -> dict_get k e = Some p) ->
  foldM (fun columns u => foldM load_range_column u columns) [e; st; en] []
  = Ok (map (fun '(c, (_, dt)) => (c, dt)) e).
Proof.
  intros He Hst Hen Hv Hgrow Hsub. simpl.
  rewrite (load_range_columns_fresh [] e) by done. simpl.
  rewrite load_range_columns_known; simpl.
  - rewrite load_range_columns_known; [done|].
    intros k o dt Hin. exists dt. rewrite dict_get_loaded.
    rewrite (Hsub k (o, dt)) by (by apply elem_of_dict_get). split; [done|].
    apply py_eq_schema_dt_refl. by apply (proj1 (Forall_forall _ _) Hv) in Hin.
  - intros k o dt Hin.
    destruct (Hgrow k (o, dt)) as ([o' dt'] & Hq & Hpq); [by apply elem_of_dict_get|].
    exists dt'. rewrite dict_get_loaded, Hq. split; [done|].
    by apply andb_prop in Hpq as [_ ?].
Qed.

End RangeLoadPlan.

Section RangeSources.
Implicit Types (kwargs s : InputDFSchema_fields) (e st en : schema_container).

Lemma wrap_schema_shape v : wrap_schema v = VNone \/ exists l, wrap_schema v = VList l.
Proof. destruct v; simpl; eauto. Qed.

(** The three unified schemas of a range source whose schemas are in the
    form [__post_init__] leaves them in: [None] or a list each, and all three
    the same when [data_schema] is set. *)
Lemma range_unified_schemas s e :
  type s = Some RANGE ->
  (start_data_schema s = VNone \/ exists l, start_data_schema s = VList l) ->
  (end_data_schema s = VNone \/ exists l, end_data_schema s = VList l) ->
  (data_schema s = VNone
   \/ (start_data_schema s = data_schema s /\ end_data_schema s = data_schema s)) ->
  unified_eq_schema s = Ok e ->
  exists st en,
    unified_start_schema s = Ok st /\ unified_end_schema s = Ok en
    /\ (forall k p, dict_get k st = Some p ->
          exists q, dict_get k e = Some q /\ entry_eq p q = true)
    /\ (forall k p, dict_get k en = Some p -> dict_get k e = Some p)
    /\ foldM (fun columns u => foldM load_range_column u columns) [e; st; en] []
       = Ok (map (fun '(c, (_, dt)) => (c, dt)) e).
Proof.
  intros Hty Hst Hen Hds. unfold unified_eq_schema, unified_start_schema, unified_end_schema.
  rewrite Hty. simpl.
  assert (forall ds u, unify_schema ds = Ok u ->
            foldM (fun columns u => foldM load_range_column u columns) [u; u; u] []
            = Ok (map (fun '(c, (_, dt)) => (c, dt)) u)) as Hsame.
  { intros ds u Hu. pose proof (unify_schema_NoDup _ _ Hu).
    pose proof (unify_schema_types _ _ Hu) as Hv.
    apply load_range_schemas; try done.
    intros k p Hk. exists p. split; [done|]. apply entry_eq_refl.
    apply dict_get_elem_of in Hk. by apply (proj1 (Forall_forall _ _) Hv) in Hk. }
  assert (forall u, NoDup (dict_keys u) ->
            Forall (fun m : mapping => is_schema_dt (snd (snd m)) = true) u ->
            forall k p, dict_get k u = Some p ->
              exists q, dict_get k u = Some q /\ entry_eq p q = true) as Hrefl.
  { intros u _ Hv k p Hk. exists p. split; [done|]. apply entry_eq_refl.
    apply dict_get_elem_of in Hk. by apply (proj1 (Forall_forall _ _) Hv) in Hk. }
  destruct Hst as [Hst|[l1 Hst]], Hen as [Hen|[l2 Hen]]; rewrite Hst, Hen in *; simpl.
  - intros He. exists e, e.
    pose proof (unify_schema_NoDup _ _ He). pose proof (unify_schema_types _ _ He).
    repeat split; try done; [by apply Hrefl|by apply (Hsame (data_schema s))].
  - assert (data_schema s = VNone) as -> by (by destruct Hds as [?|[<- _]]).
    intros He. exists [], e.
    pose proof (unify_schema_NoDup _ _ He). pose proof (unify_schema_types _ _ He).
    repeat split; try done.
    apply load_range_schemas; try done; try apply NoDup_nil_2.
  - assert (data_schema s = VNone) as -> by (by destruct Hds as [?|[_ <-]]).
    intros He. exists e, [].
    pose proof (unify_schema_NoDup _ _ He). pose proof (unify_schema_types _ _ He).
    repeat split; try done; [by apply Hrefl|].
    apply load_range_schemas; try done; try apply NoDup_nil_2; try (by constructor).
    by apply Hrefl.
  - unfold unify_schema at 1. simpl.
    intros He. pose proof (unify_schema_NoDup (VList (l1 ++ l2)) _ He) as Hnd.
    destruct (unify_entries_app _ _ _ He) as (st & en & Hs & Hn & Hgrow & Hsub).
    exists st, en. repeat split; try done.
    apply load_range_schemas; try done.
    + by apply (unify_schema_NoDup (VList l1)).
    + by apply (unify_schema_NoDup (VList l2)).
    + by apply (unify_schema_types (VList l2)).
Qed.

(** What [__post_init__] leaves in the schema fields of a range source. *)
Lemma range_schemas_normal kwargs (obj : InputDFSchema) :
  InputDFSchema_init kwargs = Ok obj -> type kwargs = Some RANGE ->
  type obj = Some RANGE
  /\ (start_data_schema obj = VNone \/ exists l, start_data_schema obj = VList l)
  /\ (end_data_schema obj = VNone \/ exists l, end_data_schema obj = VList l)
  /\ (data_schema obj = VNone
      \/ (start_data_schema obj = data_schema obj /\ end_data_schema obj = data_schema obj))
  /\ is_None (ts_col obj) = true.
Proof.
  intros (ty & filters & s & _ & Hty' & _ & Hs & _ & ->)%InputDFSchema_init_Ok Hty.
  rewrite Hty in Hty'. injection Hty' as <-. simpl.
  destruct (post_init_range_Ok _ _ Hs) as (et & s1 & _ & H1 & H2).
  assert (type s = Some RANGE /\ ts_col s = ts_col kwargs) as [Hts Htc].
  { unfold range_formats in H2. apply range_data_schemas_Ok in H1.
    destruct (is_None (data_schema _)); [|destruct H1 as (_ & _ & H1)]; subst s1;
      destruct (start_ts_format _); case_guards in H2; by inversion H2. }
  assert (is_None (ts_col s) = true) as Hnone.
  { unfold post_init_range in Hs. destruct (range_event_type _); [|done]. simpl in Hs.
    destruct (range_data_schemas _) as [s2|] eqn:E2; [|done]. simpl in Hs.
    assert (ts_col s2 = ts_col kwargs) as Hs2.
    { apply range_data_schemas_Ok in E2.
      destruct (is_None (data_schema _)); [|destruct E2 as (_ & _ & E2)]; by subst s2. }
    rewrite Hs2 in Hs. rewrite Htc. case_guards in Hs. }
  destruct (range_formats_fields _ _ H2) as (_ & -> & -> & ->).
  apply range_data_schemas_Ok in H1. simpl in H1.
  rewrite wrap_schema_None in H1.
  destruct (is_None (data_schema kwargs)) eqn:Hd.
  - subst s1. simpl. repeat split; try done; try apply wrap_schema_shape.
    left. by destruct (data_schema kwargs).
  - destruct H1 as (_ & _ & ->). simpl. repeat split; try done; try apply wrap_schema_shape.
    by right.
Qed.

End RangeSources.

(** X2. The load plan of a range source that was built successfully: its
    three unified schemas exist; every column of the start schema is in the
    start=end schema with an equal (output column, type) and every column of
    the end schema is there as it is; so the passes of [columns_to_load] over
    the start and the end schema add no column and never raise "Duplicate
    column with differing dts", and the columns to load are those of the
    start=end schema followed by the start and the end timestamp columns. *)
Theorem range_columns_to_load (kwargs : InputDFSchema_fields) (s : InputDFSchema) :
  type kwargs = Some RANGE ->
  InputDFSchema_init kwargs = Ok s ->
  exists e st en start_cols end_cols,
    unified_schema s = Ok (UnifiedRange e st en)
    /\ (forall k p, dict_get k st = Some p ->
          exists q, dict_get k e = Some q /\ entry_eq p q = true)
    /\ (forall k p, dict_get k en = Some p -> dict_get k e = Some p)
    /\ foldM (fun columns u => foldM load_range_column u columns) [e; st; en] []
       = Ok (map (fun '(c, (_, dt)) => (c, dt)) e)
    /\ timestamp_columns "start_ts_col" (start_ts_col s) (start_ts_format s) = Ok start_cols
    /\ timestamp_columns "end_ts_col" (end_ts_col s) (end_ts_format s) = Ok end_cols
    /\ columns_to_load s
       = Ok (map (fun '(c, (_, dt)) => (VStr c, dt)) e ++ start_cols ++ end_cols)%list.
Proof.
  intros Hty Hinit.
  destruct (range_schemas_normal _ _ Hinit Hty) as (Hty' & Hst & Hen & Hds & Hts).
  apply InputDFSchema_init_Ok in Hinit as (ty & filters & s' & _ & _ & _ & _ & Hc & ->).
  simpl in *. unfold columns_to_load, unified_schema in *. rewrite Hty' in *.
  destruct (unified_eq_schema s') as [e|] eqn:He; [|done].
  destruct (range_unified_schemas s' e Hty' Hst Hen Hds He)
    as (st & en & Hs & Hn & Hgrow & Hsub & Hload).
  rewrite Hs, Hn in *. cbn [bind] in *. rewrite Hload in *. cbn [bind] in *.
  destruct (timestamp_columns "start_ts_col" _ _) as [start_cols|]; [|done].
  destruct (timestamp_columns "end_ts_col" _ _) as [end_cols|]; [|done].
  destruct (ts_col s'); try done. cbn [bind timestamp_columns] in *.
  exists e, st, en, start_cols, end_cols. split; [done|].
  split; [exact Hgrow|]. split; [exact Hsub|]. split; [exact Hload|].
  do 2 (split; [done|]). rewrite app_nil_r, map_map. do 2 f_equal. apply map_ext. by intros [c [o dt]].
Qed.



Lemma range_columns_to_load_witness :
  let kwargs :=
    with_schemas (admissions (VStr "ADM") VNone) VNone
      (VTuple [VStr "ward"; VDataType CATEGORICAL])
      (VDict [(VStr "ward", VStr "categorical"); (VStr "dx", VDataType CATEGORICAL)]) in
  exists s e st en start_cols end_cols,
    InputDFSchema_init kwargs = Ok s
    /\ unified_schema s = Ok (UnifiedRange e st en)
    /\ (forall k p, dict_get k st = Some p ->
          exists q, dict_get k e = Some q /\ entry_eq p q = true)
    /\ (forall k p, dict_get k en = Some p -> dict_get k e = Some p)
    /\ foldM (fun columns u => foldM load_range_column u columns) [e; st; en] []
       = Ok (map (fun '(c, (_, dt)) => (c, dt)) e)
    /\ timestamp_columns "start_ts_col" (start_ts_col s) (start_ts_format s) = Ok start_cols
    /\ timestamp_columns "end_ts_col" (end_ts_col s) (end_ts_format s) = Ok end_cols
    /\ columns_to_load s
       = Ok (map (fun '(c, (_, dt)) => (VStr c, dt)) e ++ start_cols ++ end_cols)%list.
Proof.
  intros kwargs.
  let r := eval vm_compute in (InputDFSchema_init kwargs) in
  match r with
  | Ok ?s =>
      exists s;
      destruct (range_columns_to_load kwargs s eq_refl eq_refl)
        as (e & st & en & start_cols & end_cols & H);
      exists e, st, en, start_cols, end_cols; split; [reflexivity|exact H]
  end.
Defined.

(** ** What a built source guarantees *)

Section BuiltSources.
Implicit Types (kwargs s : InputDFSchema_fields) (et : pyval).

Lemma timestamp_columns_Ok param val fmt :
  is_ok (timestamp_columns param val fmt) = true ->
  val = VNone \/ is_str val = true \/ is_list val = true.
Proof. destruct val; simpl; auto. Qed.

Lemma columns_to_load_timestamps s :
  is_ok (columns_to_load s) = true ->
  is_ok (timestamp_columns "start_ts_col" (start_ts_col s) (start_ts_format s)) = true
  /\ is_ok (timestamp_columns "end_ts_col" (end_ts_col s) (end_ts_format s)) = true
  /\ is_ok (timestamp_columns "ts_col" (ts_col s) (ts_format s)) = true.
Proof.
  unfold columns_to_load. destruct (match type s with Some _ => _ | None => _ end); [|done].
  simpl. destruct (timestamp_columns "start_ts_col" _ _); [|done].
  destruct (timestamp_columns "end_ts_col" _ _); [|done].
  by destruct (timestamp_columns "ts_col" _ _).
Qed.

Lemma range_event_type_Ok et et' :
  range_event_type et = Ok et' -> is_three_strings et' = true.
Proof.
  unfold range_event_type. destruct (is_None et); [done|].
  destruct (is_three_strings et) eqn:E3; [by intros [= <-]|].
  destruct (is_str et) eqn:Es; [|done]. intros [= <-]. by apply is_three_strings_expand.
Qed.

End BuiltSources.

(** X3. What a source that was built successfully guarantees: each of its
    three data schemas is [None] or a list, each of its three timestamp
    columns is [None], a string or a list, and by type: a static source has a
    subject-id column and no event type and no timestamp column; an event
    source has no subject-id column, a string event type, a timestamp column
    and none of the start/end parameters; a range source has no subject-id
    column, a triple of strings as event type, start and end timestamp
    columns but no [ts_col] and no [ts_format], start and end formats that are
    both set or both [None], and either no shared [data_schema] or the shared
    schema in all three schema fields. *)
Theorem built_source_invariants (kwargs : InputDFSchema_fields) (s : InputDFSchema) :
  InputDFSchema_init kwargs = Ok s ->
  (forall v, v ∈ [data_schema s; start_data_schema s; end_data_schema s] ->
     v = VNone \/ is_list v = true)
  /\ (forall v, v ∈ [ts_col s; start_ts_col s; end_ts_col s] ->
        v = VNone \/ is_str v = true \/ is_list v = true)
  /\ match type s with
     | Some STATIC =>
         subject_id_col s <> None /\ event_type s = VNone
         /\ ts_col s = VNone /\ start_ts_col s = VNone /\ end_ts_col s = VNone
     | Some EVENT =>
         subject_id_col s = None /\ is_str (event_type s) = true
         /\ ts_col s <> VNone /\ start_ts_col s = VNone /\ end_ts_col s = VNone
         /\ start_ts_format s = None /\ end_ts_format s = None
         /\ start_data_schema s = VNone /\ end_data_schema s = VNone
     | Some RANGE =>
         subject_id_col s = None /\ is_three_strings (event_type s) = true
         /\ ts_col s = VNone /\ start_ts_col s <> VNone /\ end_ts_col s <> VNone
         /\ ts_format s = None /\ (start_ts_format s = None <-> end_ts_format s = None)
         /\ (data_schema s = VNone
             \/ (start_data_schema s = data_schema s /\ end_data_schema s = data_schema s))
     | None => False
     end.
Proof.
  intros Hinit.
  pose proof Hinit as (ty & filters & s' & _ & Hty & _ & Hs & Hc & ->)%InputDFSchema_init_Ok.
  destruct (columns_to_load_timestamps _ Hc) as (Hsc & Hec & Htc). simpl.
  split; [|split].
  - destruct ty.
    + apply post_init_static_fields in Hs as ->. simpl.
      intros v Hv. repeat (apply elem_of_cons in Hv as [->|Hv]);
        [| | |by apply elem_of_nil in Hv];
        match goal with |- wrap_schema ?x = _ \/ _ => by destruct x; auto end.
    + apply post_init_event_fields in Hs as ->. simpl.
      intros v Hv. repeat (apply elem_of_cons in Hv as [->|Hv]);
        [| | |by apply elem_of_nil in Hv];
        match goal with |- wrap_schema ?x = _ \/ _ => by destruct x; auto end.
    + destruct (range_schemas_normal _ _ Hinit Hty) as (_ & Hst & Hen & Hds & _).
      simpl in *.
      assert (forall v, v = VNone \/ (exists l, v = VList l) -> v = VNone \/ is_list v = true)
        as Hshape by (intros v [->|[l ->]]; auto).
      intros v Hv. repeat (apply elem_of_cons in Hv as [->|Hv]);
        [|by apply Hshape|by apply Hshape|by apply elem_of_nil in Hv].
      destruct Hds as [->|[<- _]]; [by left|by apply Hshape].
  - intros v Hv. repeat (apply elem_of_cons in Hv as [->|Hv]);
      [| | |by apply elem_of_nil in Hv]; by eapply timestamp_columns_Ok.
  - assert (type s' = Some ty) as ->.
    { destruct (InputDFSchema_init_preserves _ _ Hinit) as (Ht & _). simpl in Ht. congruence. }
    destruct ty.
    + apply post_init_static_fields in Hs as Hs'. subst s'.
      unfold post_init_static in Hs. case_guards in Hs. simpl in *.
      repeat split; try (by apply bool_decide_eq_true in Heqb);
        match goal with |- ?x = VNone => by destruct x end.
    + apply post_init_event_fields in Hs as Hs'. subst s'.
      unfold post_init_event in Hs. case_guards in Hs. simpl in *.
      repeat match goal with
             | H : bool_decide _ = true |- _ => apply bool_decide_eq_true in H
             end.
      repeat split; try done;
        try match goal with |- ?x = VNone => by destruct x end.
      all: try (intros Hn; by rewrite Hn in * ).
      all: try (by destruct (start_data_schema kwargs)).
      all: try (by destruct (end_data_schema kwargs)).
    + destruct (range_schemas_normal _ _ Hinit Hty) as (_ & _ & _ & Hds & Hts).
      simpl in *.
      destruct (post_init_range_Ok _ _ Hs) as (et & s1 & Het & H1 & H2).
      destruct (range_formats_fields _ _ H2) as (Hev & _).
      pose proof (range_event_type_Ok _ _ Het) as Het3.
      apply range_data_schemas_event_type in H1 as Hev1. simpl in Hev1.
      unfold post_init_range in Hs. rewrite Het in Hs. cbn [bind] in Hs.
      rewrite H1 in Hs. cbn [bind] in Hs. case_guards in Hs.
      apply bool_decide_eq_true in Heqb2.
      assert (start_ts_col s' = start_ts_col s1 /\ end_ts_col s' = end_ts_col s1
              /\ subject_id_col s' = subject_id_col s1
              /\ ts_format s' = None
              /\ (start_ts_format s' = None <-> end_ts_format s' = None))
        as (Hsc' & Hec' & Hsub & Htf & Hfmt).
      { unfold range_formats in H2. destruct (start_ts_format s1) eqn:Ef;
          case_guards in H2; injection H2 as <-; simpl;
          repeat match goal with
                 | H : bool_decide _ = true |- _ => apply bool_decide_eq_true in H
                 end; repeat split; try done; try congruence.
        all: try (intros Hn; congruence).
        all: try (by destruct (ts_format s1)). }
      repeat split; try done; try congruence.
      all: try (by destruct (ts_col s')).
      all: try (rewrite Hsc'; intros Hn; by rewrite Hn in * ).
      all: try (rewrite Hec'; intros Hn; by rewrite Hn in * ).
      all: try (by apply Hfmt).
Qed.

Lemma built_source_invariants_witness :
  let kwargs := admissions (VStr "ADM") (VTuple [VStr "ward"; VDataType CATEGORICAL]) in
  exists s,
    InputDFSchema_init kwargs = Ok s
    /\ subject_id_col s = None /\ is_three_strings (event_type s) = true.
Proof.
  intros kwargs.
  let r := eval vm_compute in (InputDFSchema_init kwargs) in
  match r with
  | Ok ?s =>
      exists s; split; [reflexivity|];
      pose proof (proj2 (proj2 (built_source_invariants kwargs s eq_refl))) as H;
      split; [exact (proj1 H)|exact (proj1 (proj2 H))]
  end.
Defined.

(** ** Round trips through [to_dict] and [from_dict] *)

Section SourceRoundTrip.
Implicit Types (kwargs s : InputDFSchema_fields) (et : pyval).

Lemma wrap_schema_idemp v : wrap_schema (wrap_schema v) = wrap_schema v.
Proof. by destruct v. Qed.

Lemma with_schemas_same s :
  with_schemas s (data_schema s) (start_data_schema s) (end_data_schema s) = s.
Proof. by destruct s. Qed.

Lemma with_event_type_same s : with_event_type s (event_type s) = s.
Proof. by destruct s. Qed.

Lemma range_event_type_idemp et et' :
  range_event_type et = Ok et' -> range_event_type et' = Ok et'.
Proof.
  unfold range_event_type. destruct (is_None et); [done|].
  destruct (is_three_strings et) eqn:E3.
  - intros [= <-]. rewrite E3. by destruct et.
  - destruct (is_str et) eqn:Es; [|done]. intros [= <-].
    by rewrite is_three_strings_expand.
Qed.

Lemma range_formats_idemp s s' : range_formats s = Ok s' -> range_formats s' = Ok s'.
Proof.
  unfold range_formats. intros H.
  destruct (start_ts_format s) as [f|] eqn:Ef.
  - destruct (bool_decide (end_ts_format s <> None)) eqn:E1; [|done].
    destruct (bool_decide (ts_format s = None)) eqn:E2; [|done].
    injection H as <-. by rewrite Ef, E1, E2.
  - destruct (bool_decide (end_ts_format s = None)) eqn:E1; [|done].
    injection H as <-. simpl. apply bool_decide_eq_true in E1.
    destruct (ts_format s) eqn:Et; simpl.
    + done.
    + done.
Qed.

Lemma range_formats_Ok s s' :
  range_formats s = Ok s' ->
  s' = s \/ s' = with_formats s None (ts_format s) (ts_format s).
Proof.
  unfold range_formats. destruct (start_ts_format s); case_guards; intros [= <-]; auto.
Qed.

(** The constructor on fields whose schemas are already [None] or lists. *)
Lemma InputDFSchema_init_wrapped s :
  with_schemas s (wrap_schema (data_schema s)) (wrap_schema (start_data_schema s))
    (wrap_schema (end_data_schema s)) = s ->
  InputDFSchema_init s =
    check negb (is_None (input_df s))
      else Exn ValueError "Missing mandatory parameter input_df!" [];
    match type s with
    | None => Raise (Exn ValueError "Missing mandatory parameter type!" [])
    | Some ty =>
        do filters <- foldM add_filter (must_have s) [];
        do s' <- match ty with
                 | STATIC => post_init_static s
                 | EVENT => post_init_event s
                 | RANGE => post_init_range s
                 end;
        do _ <- columns_to_load s';
        Ok (mkInputDFSchemaObject s' filters)
    end.
Proof. intros H. unfold InputDFSchema_init. cbv zeta. by rewrite H. Qed.

(** Building a source again from its own fields. *)
Lemma InputDFSchema_init_again kwargs (obj : InputDFSchema) :
  InputDFSchema_init kwargs = Ok obj ->
  InputDFSchema_init (fields obj) =
    if bool_decide (type kwargs = Some RANGE) && negb (is_None (data_schema kwargs))
    then Raise (simultaneously_set "start_data_schema" (wrap_schema (data_schema kwargs)))
    else Ok obj.
Proof.
  intros (ty & filters & s & Hin & Hty & Hf & Hs & Hc & ->)%InputDFSchema_init_Ok.
  cbv zeta in Hs. cbn [fields].
  set (s0 := with_schemas kwargs _ _ _) in Hs.
  assert (with_schemas s0 (wrap_schema (data_schema s0)) (wrap_schema (start_data_schema s0))
            (wrap_schema (end_data_schema s0)) = s0) as Hw0.
  { unfold s0. simpl. by rewrite !wrap_schema_idemp. }
  assert (input_df s0 = input_df kwargs /\ type s0 = type kwargs
          /\ must_have s0 = must_have kwargs) as (Hi0 & Ht0 & Hm0) by done.
  rewrite Hty.
  destruct ty.
  - apply post_init_static_fields in Hs as Hs'. subst s.
    rewrite bool_decide_eq_false_2 by done. simpl.
    rewrite (InputDFSchema_init_wrapped _ Hw0), Hi0, Ht0, Hm0, Hin, Hty, Hf. simpl.
    rewrite Hs. simpl. by destruct (columns_to_load _).
  - apply post_init_event_fields in Hs as Hs'. subst s.
    rewrite bool_decide_eq_false_2 by done. simpl.
    rewrite (InputDFSchema_init_wrapped _ Hw0), Hi0, Ht0, Hm0, Hin, Hty, Hf. simpl.
    rewrite Hs. simpl. by destruct (columns_to_load _).
  - rewrite bool_decide_eq_true_2 by done. simpl.
    destruct (post_init_range_Ok _ _ Hs) as (et & s1 & Het & H1 & H2).
    destruct (range_formats_fields _ _ H2) as (Hev & Hd & Hsd & Hed).
    apply range_data_schemas_Ok in H1 as H1'. simpl in H1'.
    rewrite wrap_schema_None in H1'.
    set (W := wrap_schema (data_schema kwargs)) in *.
    assert (range_event_type et = Ok et) as Het' by (by apply (range_event_type_idemp (event_type s0))).
    pose proof (range_formats_idemp _ _ H2) as H2'.
    unfold post_init_range in Hs. rewrite Het in Hs. cbn [bind] in Hs. rewrite H1 in Hs.
    cbn [bind] in Hs.
    assert (with_schemas s (wrap_schema (data_schema s)) (wrap_schema (start_data_schema s))
              (wrap_schema (end_data_schema s)) = s
            /\ input_df s = input_df kwargs /\ type s = Some RANGE
            /\ must_have s = must_have kwargs /\ event_type s = et
            /\ start_ts_col s = start_ts_col s1 /\ end_ts_col s = end_ts_col s1
            /\ ts_col s = ts_col s1 /\ subject_id_col s = subject_id_col s1
            /\ data_schema s = (if is_None (data_schema kwargs) then VNone else W)
            /\ start_data_schema s =
                 (if is_None (data_schema kwargs) then wrap_schema (start_data_schema kwargs)
                  else W))
      as (Hw & Hi & Ht & Hm & He & Hsc & Hec & Htc & Hsub & Hds & Hsds).
    { destruct (is_None (data_schema kwargs)) eqn:Hnone;
        [|destruct H1' as (_ & _ & H1')]; subst s1;
        destruct (range_formats_Ok _ _ H2) as [-> | ->]; simpl;
        rewrite ?wrap_schema_idemp; repeat split; try done;
        by destruct (data_schema kwargs). }
    rewrite (InputDFSchema_init_wrapped _ Hw), Hi, Hin, Ht, Hm, Hf. cbn [bind negb].
    unfold post_init_range. rewrite He, Het'. cbn [bind].
    rewrite <- He at 1. rewrite with_event_type_same.
    unfold range_data_schemas. rewrite Hds, Hsds.
    destruct (is_None (data_schema kwargs)) eqn:Hnone; cbn [negb is_None bind].
    + rewrite Hsc, Hec, Htc, Hsub. case_guards in Hs. rewrite H2'. cbn [bind].
      by destruct (columns_to_load s).
    + unfold W. rewrite wrap_schema_None, Hnone. done.
Qed.

End SourceRoundTrip.

(** X4. [from_dict(to_dict(s))] for a source [s] that was built from
    [kwargs]: it gives [s] back for every static and event source and for a
    range source built without a shared [data_schema]; for a range source
    built with one it raises the "can't be simultaneously set" error for
    [start_data_schema], since [__post_init__] copied the shared schema
    there. *)
Theorem source_round_trip (kwargs : InputDFSchema_fields) (s : InputDFSchema) :
  InputDFSchema_init kwargs = Ok s ->
  InputDFSchema_from_dict (InputDFSchema_to_dict s) =
    if bool_decide (type kwargs = Some RANGE) && negb (is_None (data_schema kwargs))
    then Raise (simultaneously_set "start_data_schema" (wrap_schema (data_schema kwargs)))
    else Ok s.
Proof. apply InputDFSchema_init_again. Qed.

Lemma source_round_trip_witness :
  let kwargs := with_schemas (admissions (VStr "ADM") VNone) VNone
                  (VTuple [VStr "ward"; VDataType CATEGORICAL]) VNone in
  exists s,
    InputDFSchema_init kwargs = Ok s
    /\ InputDFSchema_from_dict (InputDFSchema_to_dict s) = Ok s.
Proof.
  intros kwargs.
  let r := eval vm_compute in (InputDFSchema_init kwargs) in
  match r with
  | Ok ?s => exists s; split; [reflexivity|exact (source_round_trip kwargs s eq_refl)]
  end.
Defined.

(** X5. A dataset schema built from a plain static source and no dynamic
    source survives the round trip: [from_dict(to_dict(ds))] gives [ds] back
    and prints nothing. *)
Theorem dataset_schema_static_only_round_trip
    (kwargs : InputDFSchema_fields) (w : list warning) (ds : DatasetSchema) :
  DatasetSchema_init (Some (AsDict kwargs)) (Some []) = (w, Ok ds) ->
  DatasetSchema_from_dict (DatasetSchema_to_dict ds) = ([], Ok ds).
Proof.
  unfold DatasetSchema_init, DatasetSchema_from_dict, DatasetSchema_to_dict. simpl.
  destruct (InputDFSchema_init kwargs) as [st|] eqn:Hst; [|done]. simpl.
  destruct (is_static st) eqn:Hstatic; [|done].
  destruct (subject_id_col st) eqn:Hsub; [|done]. simpl.
  intros [= <- <-]. simpl. unfold InputDFSchema_to_dict.
  rewrite (InputDFSchema_init_again _ _ Hst).
  destruct (InputDFSchema_init_preserves _ _ Hst) as (Hty & _ & _).
  assert (type kwargs = Some STATIC) as -> by (rewrite <- Hty; by apply bool_decide_eq_true in Hstatic).
  cbn [bool_decide decide_rel andb bind]. rewrite bool_decide_eq_false_2 by done.
  cbn [andb bind]. by rewrite Hstatic, Hsub.
Qed.

Lemma dataset_schema_static_only_round_trip_witness :
  exists ds,
    DatasetSchema_init (Some (AsDict (subjects "subject_id"))) (Some []) = ([], Ok ds)
    /\ DatasetSchema_from_dict (DatasetSchema_to_dict ds) = ([], Ok ds).
Proof.
  let r := eval vm_compute in (DatasetSchema_init (Some (AsDict (subjects "subject_id"))) (Some [])) in
  match r with
  | (_, Ok ?ds) =>
      exists ds; split;
      [reflexivity
      |exact (dataset_schema_static_only_round_trip (subjects "subject_id") [] ds eq_refl)]
  end.
Defined.

(** ** Filters and groups: dictionaries keyed by strings *)

Section PyDictFacts.
Context {V : Type}.
Implicit Types (k : pyval) (v : V) (d : list (pyval * V)).

Lemma py_eq_str_sym k k' : is_str k = true -> is_str k' = true -> py_eq k k' = py_eq k' k.
Proof. intros H H'. rewrite !py_eq_strs by done. apply String.eqb_sym. Qed.

Lemma py_eq_str_trans k1 k2 k3 :
  is_str k1 = true -> is_str k2 = true -> is_str k3 = true ->
  py_eq k1 k2 = true -> py_eq k2 k3 = true -> py_eq k1 k3 = true.
Proof.
  intros H1 H2 H3. rewrite !py_eq_strs by done.
  intros ->%String.eqb_eq ->%String.eqb_eq. apply String.eqb_refl.
Qed.


Lemma pydict_get_set_ne k k' v d :
  is_str k = true -> is_str k' = true -> Forall (fun kv => is_str (fst kv) = true) d ->
  py_eq k k' = false ->
  pydict_get k' (pydict_set k v d) = pydict_get k' d.
Proof.
  intros Hk Hk' Hd Hne. induction Hd as [|[k0 v0] d Hk0 Hd IH]; simpl in *.
  - by rewrite py_eq_str_sym, Hne.
  - destruct (py_eq k k0) eqn:E; simpl; [|by rewrite IH].
    destruct (py_eq k' k0) eqn:E'; [|done].
    rewrite (py_eq_str_trans k k0 k') in Hne; try done. by rewrite py_eq_str_sym.
Qed.

Lemma pydict_set_keys k v d :
  is_str k = true -> Forall (fun kv => is_str (fst kv) = true) d ->
  Forall (fun kv => is_str (fst kv) = true) (pydict_set k v d).
Proof.
  intros Hk. induction 1 as [|[k0 v0] d Hk0 Hd IH]; simpl.
  - by constructor.
  - destruct (py_eq k k0); by constructor.
Qed.

End PyDictFacts.

Section FilterFacts.
Implicit Types (filters : list (pyval * pyval)) (f g : pyval).




End FilterFacts.



Section GroupFacts.
Implicit Types (k : pyval) (outs : list InputDFSchema)
  (by_df : list (pyval * list InputDFSchema)).

Lemma pydict_get_set_same {V} k k0 (x : V) (d : list (pyval * V)) :
  is_str k = true -> is_str k0 = true -> Forall (fun kv => is_str (fst kv) = true) d ->
  py_eq k k0 = true ->
  pydict_get k (pydict_set k0 x d) = Some x.
Proof.
  intros Hk Hk0 Hd Heq. induction Hd as [|[k1 v1] d Hk1 Hd IH]; simpl in *.
  - by rewrite Heq.
  - destruct (py_eq k0 k1) eqn:E; simpl.
    + by rewrite (py_eq_str_trans k k0 k1).
    + destruct (py_eq k k1) eqn:E'; [|done].
      rewrite (py_eq_str_trans k0 k k1) in E; try done. by rewrite py_eq_str_sym.
Qed.

Lemma pydict_get_equiv {V} k k0 (d : list (pyval * V)) :
  is_str k = true -> is_str k0 = true -> Forall (fun kv => is_str (fst kv) = true) d ->
  py_eq k k0 = true ->
  pydict_get k d = pydict_get k0 d.
Proof.
  intros Hk Hk0 Hd Heq. induction Hd as [|[k1 v1] d Hk1 Hd IH]; simpl in *; [done|].
  destruct (py_eq k k1) eqn:E, (py_eq k0 k1) eqn:E0; try done.
  - rewrite (py_eq_str_trans k0 k k1) in E0; try done. by rewrite py_eq_str_sym.
  - by rewrite (py_eq_str_trans k k0 k1) in E.
Qed.

Lemma group_by_df_lookup outs by_df by_df' k :
  is_str k = true ->
  Forall (fun kv => is_str (fst kv) = true) by_df ->
  Forall (fun v : InputDFSchema => is_str (input_df v) = true) outs ->
  foldM group_by_df outs by_df = Ok by_df' ->
  pydict_get k by_df' =
    match pydict_get k by_df, List.filter (fun u : InputDFSchema => py_eq k (input_df u)) outs with
    | None, [] => None
    | None, l => Some l
    | Some g, l => Some (g ++ l)%list
    end.
Proof.
  intros Hk Hkeys Houts. revert by_df Hkeys.
  induction Houts as [|v outs Hv Houts IH]; intros by_df Hkeys; simpl.
  - intros [= <-]. destruct (pydict_get k by_df); by rewrite ?app_nil_r.
  - unfold group_by_df at 1. destruct (py_hashable (input_df v)); [|done]. simpl.
    intros H. rewrite (IH _ (pydict_set_keys _ _ _ Hv Hkeys) H). clear IH H.
    destruct (py_eq k (input_df v)) eqn:E.
    + rewrite pydict_get_set_same by done.
      rewrite <- (pydict_get_equiv k (input_df v)) by done.
      destruct (pydict_get k by_df) as [g|]; [by rewrite <- app_assoc|done].
    + rewrite pydict_get_set_ne; try done. by rewrite py_eq_str_sym.
Qed.

Lemma DatasetSchema_init_by_df static_arg dynamic_arg w ds :
  DatasetSchema_init static_arg dynamic_arg = (w, Ok ds) ->
  foldM group_by_df (dynamic ds) [] = Ok (dynamic_by_df ds).
Proof.
  unfold DatasetSchema_init.
  destruct static_arg as [st|]; [|done].
  destruct (match st with AsDict _ => _ | AsObject _ => _ end) as [st'|]; [|done].
  destruct (subject_id_col st'); [|done].
  destruct dynamic_arg as [dyn|]; [|done].
  destruct (dynamic_sources _ dyn) as [w' [outs|]]; [|done].
  destruct (foldM group_by_df outs []) as [by_df|] eqn:E; [|done].
  simpl. by intros [= <- <-].
Qed.

End GroupFacts.

(** X7. [dynamic_by_df] groups the dynamic sources by input: when the
    inputs are strings, looking up a string [k] gives the dynamic sources
    whose [input_df] equals [k], in the order of [dynamic], and nothing when
    there is none. *)
Theorem dynamic_by_df_groups
    (static_arg : option schema_arg) (dynamic_arg : option (list schema_arg))
    (w : list warning) (ds : DatasetSchema) :
  DatasetSchema_init static_arg dynamic_arg = (w, Ok ds) ->
  Forall (fun v : InputDFSchema => is_str (input_df v) = true) (dynamic ds) ->
  forall k, is_str k = true ->
    pydict_get k (dynamic_by_df ds) =
      match List.filter (fun u : InputDFSchema => py_eq k (input_df u)) (dynamic ds) with
      | [] => None
      | l => Some l
      end.
Proof.
  intros Hinit Hstr k Hk.
  by rewrite (group_by_df_lookup _ [] _ k Hk (Forall_nil_2 _) Hstr
                (DatasetSchema_init_by_df _ _ _ _ Hinit)).
Qed.

Lemma dynamic_by_df_groups_witness :
  let dyn := [AsDict (labs (VStr "charttime") VNone None);
              AsDict (admissions (VStr "ADM") VNone);
              AsDict (labs (VStr "storetime") VNone None)] in
  exists ds a b c,
    DatasetSchema_init (Some (AsDict (subjects "subject_id"))) (Some dyn) = ([], Ok ds)
    /\ dynamic ds = [a; b; c]
    /\ pydict_get (VStr "labs") (dynamic_by_df ds) = Some [a; c].
Proof.
  intros dyn.
  let r := eval vm_compute in (DatasetSchema_init (Some (AsDict (subjects "subject_id"))) (Some dyn)) in
  match r with
  | (_, Ok ?ds) =>
      let l := eval vm_compute in (dynamic ds) in
      match l with
      | [?a; ?b; ?c] =>
          exists ds, a, b, c; split; [reflexivity|]; split; [reflexivity|];
          refine (eq_trans
                    (dynamic_by_df_groups (Some (AsDict (subjects "subject_id"))) (Some dyn) []
                       ds eq_refl _ (VStr "labs") eq_refl) _);
          [repeat constructor|reflexivity]
      end
  end.
Defined.

(** ** More on the measurement configuration *)

Section MeasurementFacts.
Context {Float Vocabulary F DataFrame Series : Type}.
Context `{!TimeDependentFunctor F} `{!MetadataStore DataFrame Series}.
Implicit Types (m : MeasurementConfig Float Vocabulary F DataFrame Series).

Lemma validate_temporality_Ok m m' :
  validate_temporality m = Ok m' ->
  validate_temporality m' = Ok m'
  /\ m' = set_modality m (modality m')
  /\ (modality m <> None -> m' = m)
  /\ is_set (functor m') = bool_decide (temporality m' = Some T_FUNCTIONAL_TIME_DEPENDENT)
  /\ (temporality m' = Some T_STATIC -> is_numeric m' = false)
  /\ (temporality m' = Some T_DYNAMIC -> modality m' <> Some SINGLE_LABEL_CLASSIFICATION)
  /\ (forall f, functor m' = Some f ->
        modality m' = Some DROPPED \/ modality m' = Some (OUTPUT_MODALITY f)).
Proof.
  unfold validate_temporality.
  destruct (temporality m) as [[| |]|] eqn:Ht; [| | |done].
  - destruct (negb (is_set (functor m))) eqn:Hf; [|done].
    destruct (negb (is_numeric m)) eqn:Hn; [|done].
    intros [= <-]. rewrite Ht, Hf, Hn. repeat split; try done.
    + by destruct m.
    + destruct (functor m); by simpl in *.
    + intros _. by destruct (is_numeric m).
    + intros f Hf'. by rewrite Hf' in Hf.
  - destruct (negb (is_set (functor m))) eqn:Hf; [|done].
    destruct (negb (bool_decide _)) eqn:Hn; [|done].
    intros [= <-]. rewrite Ht, Hf, Hn. repeat split; try done.
    + by destruct m.
    + destruct (functor m); by simpl in *.
    + intros _ Hs. by rewrite Hs in Hn.
    + intros f Hf'. by rewrite Hf' in Hf.
  - destruct (functor m) as [f|] eqn:Hf; [|done].
    destruct (modality m) as [md|] eqn:Hm.
    + destruct (bool_decide (md = DROPPED) || bool_decide (md = OUTPUT_MODALITY f)) eqn:Hmd;
        [|done].
      intros [= <-]. rewrite Ht, Hf, Hm, Hmd. repeat split; try done.
      * destruct m; simpl in *; by subst.
      * intros f' [= <-]. apply orb_prop in Hmd as [->%bool_decide_eq_true| ->%bool_decide_eq_true]; auto.
    + intros [= <-]. simpl. rewrite Ht, Hf.
      rewrite (bool_decide_eq_true_2 (OUTPUT_MODALITY f = OUTPUT_MODALITY f)) by done.
      rewrite orb_true_r. repeat split; try done.
      intros f' [= <-]. by right.
Qed.

Lemma validate_modality_Ok m m' :
  validate_modality m = Ok m' ->
  m' = m
  /\ (exists md, modality m = Some md)
  /\ (modality m = Some MULTIVARIATE_REGRESSION -> is_set (values_column m) = true)
  /\ (modality m <> Some MULTIVARIATE_REGRESSION -> modality m <> Some DROPPED ->
      values_column m = None)
  /\ (modality m = Some DROPPED -> vocabulary m = None)
  /\ (is_numeric m = false -> _measurement_metadata m = MD_None)
  /\ (modality m = Some MULTIVARIATE_REGRESSION ->
      measurement_metadata m = Ok MD_None
      \/ exists df, measurement_metadata m = Ok (MD_DataFrame df))
  /\ (modality m = Some UNIVARIATE_REGRESSION ->
      measurement_metadata m = Ok MD_None
      \/ exists s, measurement_metadata m = Ok (MD_Series s)).
Proof.
  unfold validate_modality. intros (errs & Herrs & Hm)%bind_Ok_inv.
  destruct errs; [|done]. injection Hm as <-. split; [done|].
  unfold is_numeric, values_column_must_be_None, metadata_must_be_None in *.
  destruct (modality m) as [[| | | |]|]; [| | | | |done].
  - destruct (is_set (vocabulary m)) eqn:Hv.
    { by apply bind_Ok_inv in Herrs as (? & _ & ?). }
    destruct (_measurement_metadata m) eqn:Hmm; simpl in *;
      try (by apply bind_Ok_inv in Herrs as (? & (? & _ & [= <-])%bind_Ok_inv & ?)).
    repeat split; eauto; try done. by destruct (vocabulary m).
  - destruct (is_set (values_column m)) eqn:Hv.
    { by apply bind_Ok_inv in Herrs as (? & _ & ?). }
    destruct (_measurement_metadata m) eqn:Hmm; simpl in *;
      try (by apply bind_Ok_inv in Herrs as (? & (? & _ & [= <-])%bind_Ok_inv & ?)).
    repeat split; eauto; try done. intros _ _. by destruct (values_column m).
  - destruct (is_set (values_column m)) eqn:Hv.
    { by apply bind_Ok_inv in Herrs as (? & _ & ?). }
    destruct (_measurement_metadata m) eqn:Hmm; simpl in *;
      try (by apply bind_Ok_inv in Herrs as (? & (? & _ & [= <-])%bind_Ok_inv & ?)).
    repeat split; eauto; try done. intros _ _. by destruct (values_column m).
  - destruct (is_set (values_column m)) eqn:Hv.
    2:{ by apply bind_Ok_inv in Herrs as (? & _ & ?). }
    destruct (measurement_metadata m) as [[| | | |]|] eqn:Hmm; try done;
      repeat split; eauto; try done.
  - destruct (is_set (values_column m)) eqn:Hv.
    { by apply bind_Ok_inv in Herrs as (? & _ & ?). }
    destruct (measurement_metadata m) as [[| | | |]|] eqn:Hmm; try done;
      repeat split; eauto; try done; intros _ _; by destruct (values_column m).
Qed.

(** Validation passes again on what it returned. *)
Lemma validate_again m m' :
  _validate m = Ok m' ->
  _validate m' = Ok m' /\ m' = set_modality m (modality m') /\ (modality m <> None -> m' = m).
Proof.
  unfold _validate. intros (m1 & H1 & H2)%bind_Ok_inv.
  destruct (validate_modality_Ok _ _ H2) as (-> & _).
  destruct (validate_temporality_Ok _ _ H1) as (H1' & Hset & Hsame & _).
  by rewrite H1'.
Qed.

End MeasurementFacts.

(** X8. [_validate] is idempotent: on what it returned it passes again and
    changes nothing. The first run changes at most the modality, and only
    when it was [None] (a time-dependent measurement takes the output modality
    of its functor). *)
Theorem validate_idempotent
    {Float Vocabulary F DataFrame Series : Type}
    `{!TimeDependentFunctor F} `{!MetadataStore DataFrame Series}
    (m m' : MeasurementConfig Float Vocabulary F DataFrame Series) :
  _validate m = Ok m' ->
  _validate m' = Ok m' /\ m' = set_modality m (modality m') /\ (modality m <> None -> m' = m).
Proof. apply validate_again. Qed.

Lemma validate_idempotent_witness :
  let m := {| name := Some "age"; temporality := Some T_FUNCTIONAL_TIME_DEPENDENT;
              modality := None; observation_frequency := None; functor := Some tt;
              vocabulary := None; values_column := None;
              _measurement_metadata := MD_None |}
           : MeasurementConfig unit unit unit unit unit in
  exists m',
    _validate m = Ok m' /\ modality m' = Some UNIVARIATE_REGRESSION /\ _validate m' = Ok m'.
Proof.
  intros m.
  let r := eval vm_compute in (_validate m) in
  match r with
  | Ok ?m' =>
      exists m'; split; [reflexivity|]; split; [reflexivity|];
      exact (proj1 (validate_idempotent m m' eq_refl))
  end.
Defined.

(** X9. Dropping keeps a measurement valid: if [_validate] accepts a
    configuration, it accepts the configuration after [drop()], before or
    after the validation filled in the modality, and leaves it as it is. *)
Theorem drop_keeps_valid
    {Float Vocabulary F DataFrame Series : Type}
    `{!TimeDependentFunctor F} `{!MetadataStore DataFrame Series}
    (m m' : MeasurementConfig Float Vocabulary F DataFrame Series) :
  _validate m = Ok m' ->
  _validate (drop m') = Ok (drop m') /\ _validate (drop m) = Ok (drop m).
Proof.
  unfold _validate. intros (m1 & H1 & H2)%bind_Ok_inv.
  destruct (validate_modality_Ok _ _ H2) as (-> & _).
  assert (forall m0 : MeasurementConfig Float Vocabulary F DataFrame Series,
            temporality m0 = temporality m -> functor m0 = functor m ->
            bind (validate_temporality (drop m0)) validate_modality = Ok (drop m0)) as Hdrop.
  { intros m0 Ht Hf. unfold validate_temporality, validate_modality, is_numeric,
      metadata_must_be_None in *. simpl. rewrite Ht, Hf.
    destruct (temporality m) as [[| |]|]; [| | |done].
    - by destruct (negb (is_set (functor m))).
    - by destruct (negb (is_set (functor m))).
    - by destruct (functor m). }
  split; apply Hdrop; try done.
  - destruct (validate_temporality_Ok _ _ H1) as (_ & -> & _). done.
  - destruct (validate_temporality_Ok _ _ H1) as (_ & -> & _). done.
Qed.

Lemma drop_keeps_valid_witness :
  let m := {| name := Some "lab"; temporality := Some T_DYNAMIC;
              modality := Some MULTIVARIATE_REGRESSION; observation_frequency := None;
              functor := None; vocabulary := Some tt; values_column := Some "value";
              _measurement_metadata := MD_DataFrame tt |}
           : MeasurementConfig unit unit unit unit unit in
  _validate m = Ok m /\ _validate (drop m) = Ok (drop m).
Proof.
  intros m. split; [reflexivity|].
  exact (proj2 (drop_keeps_valid m m eq_refl)).
Defined.

(** X10. What a validated measurement guarantees: its modality is set; it
    has a functor exactly when it is functional-time-dependent, and then its
    modality is [DROPPED] or the functor's output modality; a static one is
    not numeric and a dynamic one is not single-label; [values_column] is set
    for a multivariate regression and [None] for every other modality but
    [DROPPED]; a dropped one has no vocabulary; a measurement that is not
    numeric holds no metadata, and the metadata of a numeric one, if any, is
    a table for a multivariate and a series for a univariate regression. *)
Theorem validated_measurement_invariants
    {Float Vocabulary F DataFrame Series : Type}
    `{!TimeDependentFunctor F} `{!MetadataStore DataFrame Series}
    (m m' : MeasurementConfig Float Vocabulary F DataFrame Series) :
  _validate m = Ok m' ->
  (exists md, modality m' = Some md)
  /\ is_set (functor m') = bool_decide (temporality m' = Some T_FUNCTIONAL_TIME_DEPENDENT)
  /\ (forall f, functor m' = Some f ->
        modality m' = Some DROPPED \/ modality m' = Some (OUTPUT_MODALITY f))
  /\ (temporality m' = Some T_STATIC -> is_numeric m' = false)
  /\ (temporality m' = Some T_DYNAMIC -> modality m' <> Some SINGLE_LABEL_CLASSIFICATION)
  /\ (modality m' = Some MULTIVARIATE_REGRESSION -> is_set (values_column m') = true)
  /\ (modality m' <> Some MULTIVARIATE_REGRESSION -> modality m' <> Some DROPPED ->
      values_column m' = None)
  /\ (modality m' = Some DROPPED -> vocabulary m' = None)
  /\ (is_numeric m' = false -> _measurement_metadata m' = MD_None)
  /\ (modality m' = Some MULTIVARIATE_REGRESSION ->
      measurement_metadata m' = Ok MD_None
      \/ exists df, measurement_metadata m' = Ok (MD_DataFrame df))
  /\ (modality m' = Some UNIVARIATE_REGRESSION ->
      measurement_metadata m' = Ok MD_None
      \/ exists s, measurement_metadata m' = Ok (MD_Series s)).
Proof.
  unfold _validate. intros (m1 & H1 & H2)%bind_Ok_inv.
  destruct (validate_modality_Ok _ _ H2) as (-> & Hmd & Hvc & Hvc' & Hvoc & Hmm & Hdf & Hser).
  destruct (validate_temporality_Ok _ _ H1) as (_ & _ & _ & Hf & Hst & Hdy & Hout).
  repeat split; done.
Qed.

Lemma validated_measurement_invariants_witness :
  let m := {| name := Some "age"; temporality := Some T_FUNCTIONAL_TIME_DEPENDENT;
              modality := None; observation_frequency := None; functor := Some tt;
              vocabulary := None; values_column := None;
              _measurement_metadata := MD_None |}
           : MeasurementConfig unit unit unit unit unit in
  exists m',
    _validate m = Ok m' /\ exists md, modality m' = Some md.
Proof.
  intros m.
  let r := eval vm_compute in (_validate m) in
  match r with
  | Ok ?m' =>
      exists m'; split; [reflexivity|];
      exact (proj1 (validated_measurement_invariants m m' eq_refl))
  end.
Defined.

(** ** The metadata cache *)

(** X11. Metadata is cached once: after [cache_measurement_metadata(fp)]
    succeeded on a measurement that has metadata, the slot holds the path
    [fp]; nothing was asked of the file system exactly when the instance is
    left as it was (it was cached at [fp] already); and from then on caching
    at [fp] again does nothing and writes nothing, while caching at any other
    path raises "Caching is already enabled". *)
Theorem cache_measurement_metadata_once
    {Float Vocabulary F DataFrame Series : Type}
    (m m' : MeasurementConfig Float Vocabulary F DataFrame Series)
    (fp : string) (io : list (io_action DataFrame Series)) :
  cache_measurement_metadata m fp = Ok (m', io) ->
  _measurement_metadata m <> MD_None ->
  (_measurement_metadata m' = MD_str fp \/ _measurement_metadata m' = MD_Path fp)
  /\ (io = [] <-> m' = m)
  /\ forall fp',
       cache_measurement_metadata m' fp' =
         if String.eqb fp' fp then Ok (m', []) else Raise (already_cached fp fp').
Proof.
  unfold cache_measurement_metadata.
  destruct (_measurement_metadata m) as [|df|s|p|p] eqn:Hm; [done| | | |].
  - intros [= <- <-] _. simpl. split; [by left|]. split; [|done].
    split; [done|]. intros H. apply (f_equal _measurement_metadata) in H. simpl in H. congruence.
  - intros [= <- <-] _. simpl. split; [by left|]. split; [|done].
    split; [done|]. intros H. apply (f_equal _measurement_metadata) in H. simpl in H. congruence.
  - destruct (String.eqb_spec fp p) as [->|]; [|done].
    intros [= <- <-] _. rewrite Hm. split; [by left|]. split; [done|].
    intros fp'. by destruct (String.eqb fp' p).
  - destruct (String.eqb_spec fp p) as [->|]; [|done].
    intros [= <- <-] _. rewrite Hm. split; [by right|]. split; [done|].
    intros fp'. by destruct (String.eqb fp' p).
Qed.

Lemma cache_measurement_metadata_once_witness :
  let m := {| name := Some "lab"; temporality := Some T_DYNAMIC;
              modality := Some MULTIVARIATE_REGRESSION; observation_frequency := None;
              functor := None; vocabulary := None; values_column := Some "value";
              _measurement_metadata := MD_DataFrame 3%nat |}
           : MeasurementConfig unit unit unit nat nat in
  exists m',
    cache_measurement_metadata m "cache/lab.csv"
    = Ok (m', [Mkdir_parent "cache/lab.csv"; To_csv (MD_DataFrame 3%nat) "cache/lab.csv"])
    /\ cache_measurement_metadata m' "cache/lab.csv" = Ok (m', [])
    /\ cache_measurement_metadata m' "other/lab.csv"
       = Raise (already_cached "cache/lab.csv" "other/lab.csv").
Proof.
  intros m.
  let r := eval vm_compute in (cache_measurement_metadata m "cache/lab.csv") in
  match r with
  | Ok (?m', ?io) =>
      exists m'; split; [reflexivity|];
      pose proof (cache_measurement_metadata_once m m' "cache/lab.csv" io eq_refl
                    ltac:(discriminate)) as (_ & _ & H);
      split; [exact (H "cache/lab.csv")|exact (H "other/lab.csv")]
  end.
Defined.

(** X12. [uncache_measurement_metadata] is not idempotent: when it succeeds
    on a measurement that has metadata, the slot holds what the
    [measurement_metadata] property read from the cached file, a second call
    raises "Caching is not enabled, can't uncache!", and the measurement can
    be cached again at any path, which writes the in-memory metadata
    there. *)
Theorem uncache_measurement_metadata_once
    {Float Vocabulary F DataFrame Series : Type}
    `{!MetadataStore DataFrame Series}
    (m m' : MeasurementConfig Float Vocabulary F DataFrame Series) :
  uncache_measurement_metadata m = Ok m' ->
  _measurement_metadata m <> MD_None ->
  measurement_metadata m = Ok (_measurement_metadata m')
  /\ m' = set_metadata_slot m (_measurement_metadata m')
  /\ uncache_measurement_metadata m' = Raise caching_not_enabled
  /\ forall fp,
       cache_measurement_metadata m' fp
       = Ok (set_metadata_slot m' (MD_str fp),
             [Mkdir_parent fp; To_csv (_measurement_metadata m') fp]).
Proof.
  unfold uncache_measurement_metadata.
  assert (forall fp md, load_metadata m fp = Ok md ->
            (exists df, md = MD_DataFrame df) \/ (exists s, md = MD_Series s)) as Hload.
  { intros fp md. unfold load_metadata. intros (out & _ & H)%bind_Ok_inv. revert H.
    destruct (bool_decide (modality m = Some UNIVARIATE_REGRESSION)).
    - destruct (Nat.eqb _ _); [|done]. intros (s & _ & [= <-])%bind_Ok_inv. eauto.
    - destruct (negb _); [done|]. intros (df & _ & [= <-])%bind_Ok_inv. eauto. }
  destruct (_measurement_metadata m) as [|df|s|p|p] eqn:Hm; try done.
  - intros (md & Hmd & [= <-])%bind_Ok_inv _. simpl. rewrite Hmd.
    unfold measurement_metadata in Hmd. rewrite Hm in Hmd.
    unfold cache_measurement_metadata. simpl.
    destruct (Hload _ _ Hmd) as [[df ->]|[s ->]]; done.
  - intros (md & Hmd & [= <-])%bind_Ok_inv _. simpl. rewrite Hmd.
    unfold measurement_metadata in Hmd. rewrite Hm in Hmd.
    unfold cache_measurement_metadata. simpl.
    destruct (Hload _ _ Hmd) as [[df ->]|[s ->]]; done.
Qed.

Lemma uncache_measurement_metadata_once_witness :
  let m := {| name := Some "lab"; temporality := Some T_DYNAMIC;
              modality := Some MULTIVARIATE_REGRESSION; observation_frequency := None;
              functor := None; vocabulary := None; values_column := Some "value";
              _measurement_metadata := MD_str "cache/lab.csv" |}
           : MeasurementConfig unit unit unit nat nat in
  exists m',
    uncache_measurement_metadata m = Ok m'
    /\ _measurement_metadata m' = MD_DataFrame 3%nat
    /\ uncache_measurement_metadata m' = Raise caching_not_enabled.
Proof.
  intros m.
  let r := eval vm_compute in (uncache_measurement_metadata m) in
  match r with
  | Ok ?m' =>
      exists m'; split; [reflexivity|]; split; [reflexivity|];
      exact (proj1 (proj2 (proj2 (uncache_measurement_metadata_once m m' eq_refl
                                    ltac:(discriminate)))))
  end.
Defined.

(** ** The dataset configuration *)

Lemma mapM_Ok {E A B} (f : A -> result E B) l l' :
  mapM f l = Ok l' <-> Forall2 (fun x y => f x = Ok y) l l'.
Proof.
  revert l'. induction l as [|x l IH]; intros l'; simpl.
  - split; [intros [= <-]; constructor|by inversion 1].
  - split.
    + intros (y & Hy & (ys & Hys & [= <-])%bind_Ok_inv)%bind_Ok_inv.
      constructor; [done|by apply IH].
    + inversion 1 as [|? y ? ys Hy Hys]; subst. rewrite Hy. simpl.
      apply IH in Hys. by rewrite Hys.
Qed.

Section DatasetConfigFacts.
Context {Float Vocabulary F DataFrame Series : Type}.
Context `{!TimeDependentFunctor F} `{!MetadataStore DataFrame Series}.
Implicit Types (m : MeasurementConfig Float Vocabulary F DataFrame Series)
  (c : DatasetConfig Float Vocabulary F DataFrame Series)
  (mcs : list (string * MeasurementConfig Float Vocabulary F DataFrame Series)).

(** Validation does not read the name. *)
Lemma validate_set_name m n :
  _validate (set_name m n) = res_map (fun m' => set_name m' n) (_validate m).
Proof.
  unfold _validate, validate_temporality. simpl.
  assert (forall m0, validate_modality (set_name m0 n)
                     = res_map (fun m' => set_name m' n) (validate_modality m0)) as Hmod.
  { intros m0. unfold validate_modality, measurement_metadata, metadata_must_be_None,
      values_column_must_be_None, measurement_metadata, load_metadata. simpl.
    destruct (modality m0) as [[| | | |]|]; simpl; try done.
    all: repeat match goal with
           | |- context [match ?x with _ => _ end] => destruct x eqn:?; simpl; try done
           | |- context [bind ?x _] => destruct x eqn:?; simpl; try done
           end. }
  destruct (temporality m) as [[| |]|]; simpl; try done.
  - destruct (negb _); [|done]. unfold is_numeric; simpl.
    destruct (negb _); [|done]. simpl. apply Hmod.
  - destruct (negb _); [|done]. destruct (negb _); [|done]. simpl. apply Hmod.
  - destruct (functor m); [|done]. destruct (modality m) as [md|]; simpl.
    + destruct (_ || _); [|done]. simpl. apply Hmod.
    + apply (Hmod (set_modality m _)).
Qed.

Lemma DatasetConfig_init_Ok c c' :
  DatasetConfig_init c = Ok c' ->
  exists named,
    Forall2 (fun x y => name_measurement x = Ok y) (measurement_configs c) named
    /\ check_options c = Ok tt
    /\ Forall2 (fun x y => revalidate_measurement x = Ok y) named (measurement_configs c')
    /\ options c' = with_save_dir_as_Path c.
Proof.
  unfold DatasetConfig_init.
  intros (named & Hn%mapM_Ok & ([] & Ho & (validated & Hv%mapM_Ok & [= <-])%bind_Ok_inv)
            %bind_Ok_inv)%bind_Ok_inv.
  by exists named.
Qed.

Lemma check_options_save_dir (o : DatasetConfig_options) :
  check_options (with_save_dir_as_Path o) = check_options o.
Proof. done. Qed.

Lemma with_save_dir_as_Path_idemp (o : DatasetConfig_options) :
  with_save_dir_as_Path (with_save_dir_as_Path o) = with_save_dir_as_Path o.
Proof. unfold with_save_dir_as_Path. simpl. by destruct (save_dir o). Qed.

Lemma name_measurement_Ok (x y : string * MeasurementConfig Float Vocabulary F DataFrame Series) :
  name_measurement x = Ok y ->
  fst y = fst x /\ name (snd y) = Some (fst x) /\ snd y = set_name (snd x) (Some (fst x)).
Proof.
  destruct x as [k m]. unfold name_measurement.
  destruct (name m) as [n|] eqn:Hn.
  - destruct (String.eqb_spec n k) as [->|]; [|done]. intros [= <-]. simpl.
    split; [done|]. split; [done|]. destruct m; simpl in *. by rewrite Hn.
  - by intros [= <-].
Qed.

Lemma revalidate_measurement_Ok (x y : string * MeasurementConfig Float Vocabulary F DataFrame Series) :
  revalidate_measurement x = Ok y ->
  fst y = fst x /\ _validate (snd x) = Ok (snd y).
Proof.
  destruct x as [k m]. unfold revalidate_measurement.
  destruct (_validate m) as [m'|] eqn:E; [|done]. intros [= <-]. by simpl.
Qed.

End DatasetConfigFacts.

Lemma mapM_fixed {E A} (f : A -> result E A) l :
  Forall (fun x => f x = Ok x) l -> mapM f l = Ok l.
Proof. induction 1 as [|x l Hx Hl IH]; simpl; [done|]. by rewrite Hx, IH. Qed.

Section DatasetConfigInit.
Context {Float Vocabulary F DataFrame Series : Type}.
Context `{!TimeDependentFunctor F} `{!MetadataStore DataFrame Series}.
Implicit Types (m : MeasurementConfig Float Vocabulary F DataFrame Series)
  (c : DatasetConfig Float Vocabulary F DataFrame Series)
  (mcs : list (string * MeasurementConfig Float Vocabulary F DataFrame Series)).

Lemma DatasetConfig_init_measurements c c' :
  DatasetConfig_init c = Ok c' ->
  Forall2 (fun x z =>
             fst z = fst x /\ name (snd z) = Some (fst x)
             /\ _validate (set_name (snd x) (Some (fst x))) = Ok (snd z)
             /\ _validate (snd z) = Ok (snd z))
    (measurement_configs c) (measurement_configs c').
Proof.
  intros (named & Hn & _ & Hv & _)%DatasetConfig_init_Ok.
  revert Hv. generalize (measurement_configs c'). induction Hn as [|x y l l' Hxy Hn IH].
  - inversion 1. constructor.
  - inversion 1 as [|? z ? zs Hyz Hzs]; subst. constructor; [|by apply IH].
    destruct (name_measurement_Ok _ _ Hxy) as (Hk & Hname & Hy).
    destruct (revalidate_measurement_Ok _ _ Hyz) as (Hk' & Hval).
    destruct (validate_again _ _ Hval) as (Hagain & Hset & _).
    repeat split; try congruence.
    rewrite Hset. simpl. done.
Qed.

Lemma DatasetConfig_init_again c c' :
  DatasetConfig_init c = Ok c' -> DatasetConfig_init c' = Ok c'.
Proof.
  intros Hinit. pose proof (DatasetConfig_init_measurements _ _ Hinit) as Hm.
  apply DatasetConfig_init_Ok in Hinit as (named & _ & Ho & _ & Hopt).
  unfold DatasetConfig_init.
  assert (Forall (fun z => name (snd z) = Some (fst z) /\ _validate (snd z) = Ok (snd z))
            (measurement_configs c')) as Hz.
  { induction Hm as [|x z l l' (Hk & Hn & _ & Hv) _ IH]; constructor; [|done].
    split; [congruence|done]. }
  rewrite (mapM_fixed name_measurement).
  2:{ eapply Forall_impl; [exact Hz|]. intros [k z] [Hn _]. simpl in *.
      unfold name_measurement. by rewrite Hn, String.eqb_refl. }
  cbn [bind]. rewrite Hopt, check_options_save_dir, Ho. cbn [bind].
  rewrite (mapM_fixed revalidate_measurement).
  2:{ eapply Forall_impl; [exact Hz|]. intros [k z] [_ Hv]. simpl in *.
      unfold revalidate_measurement. by rewrite Hv. }
  cbn [bind]. rewrite with_save_dir_as_Path_idemp, <- Hopt. by destruct c'.
Qed.

End DatasetConfigInit.

(** X13. What [DatasetConfig.__post_init__] establishes: the measurement
    keys are unchanged, every measurement is named by its key and passes
    [_validate] unchanged, the checked options are valid, [save_dir] is no
    longer a [str]; hence running [__post_init__] again on the result
    succeeds and changes nothing. *)
Theorem DatasetConfig_init_idempotent
    {Float Vocabulary F DataFrame Series : Type}
    `{!TimeDependentFunctor F} `{!MetadataStore DataFrame Series}
    (c c' : DatasetConfig Float Vocabulary F DataFrame Series) :
  DatasetConfig_init c = Ok c' ->
  DatasetConfig_init c' = Ok c'
  /\ dict_keys (measurement_configs c') = dict_keys (measurement_configs c)
  /\ Forall (fun item => name (snd item) = Some (fst item)
                         /\ _validate (snd item) = Ok (snd item))
       (measurement_configs c')
  /\ check_options c' = Ok tt
  /\ forall s, save_dir c' <> Dir_str s.
Proof.
  intros Hinit. split; [by apply (DatasetConfig_init_again c)|].
  pose proof (DatasetConfig_init_measurements _ _ Hinit) as Hm.
  apply DatasetConfig_init_Ok in Hinit as (named & _ & Ho & _ & Hopt).
  split; [|split; [|split]].
  - unfold dict_keys. induction Hm as [|x z l l' (Hk & _) _ IH]; simpl; [done|].
    by rewrite Hk, IH.
  - induction Hm as [|x z l l' (Hk & Hn & _ & Hv) _ IH]; constructor; [|done].
    split; [congruence|done].
  - by rewrite Hopt, check_options_save_dir.
  - intros s. rewrite Hopt. simpl. by destruct (save_dir c).
Qed.

Lemma DatasetConfig_init_idempotent_witness :
  let c := mkDatasetConfig
             [("age", {| name := None; temporality := Some T_FUNCTIONAL_TIME_DEPENDENT;
                         modality := None; observation_frequency := None;
                         functor := Some tt; vocabulary := None; values_column := None;
                         _measurement_metadata := MD_None |}
                      : MeasurementConfig unit unit unit unit unit)]
             {| min_events_per_subject := VInt 3; agg_by_time_scale := VStr "1h";
                min_valid_column_observations := Py_float 0.25%float;
                min_valid_vocab_element_observations := Py_val (VInt 5);
                min_true_float_frequency := Py_val VNone;
                min_unique_numerical_observations := Py_val VNone;
                outlier_detector_config := VDict [(VStr "cls", VStr "stddev_cutoff")];
                normalizer_config := VNone;
                save_dir := Dir_str "out" |} in
  exists c', DatasetConfig_init c = Ok c' /\ DatasetConfig_init c' = Ok c'.
Proof.
  intros c.
  let r := eval vm_compute in (DatasetConfig_init c) in
  match r with
  | Ok ?c' =>
      assert (DatasetConfig_init c = Ok c') as H by (vm_compute; reflexivity);
      exists c'; split; [exact H|];
      exact (proj1 (DatasetConfig_init_idempotent c c' H))
  end.
Defined.

Section DatasetConfigErrors.
Context {Float Vocabulary F DataFrame Series : Type}.
Context `{!TimeDependentFunctor F} `{!MetadataStore DataFrame Series}.
Implicit Types (c : DatasetConfig Float Vocabulary F DataFrame Series).





End DatasetConfigErrors.

(** ** [DatasetConfig.__post_init__] on shared objects *)


Section DatasetConfigObjectFacts.
Context {Float Vocabulary F DataFrame Series : Type}.
Context `{!TimeDependentFunctor F} `{!MetadataStore DataFrame Series}.
Implicit Types (h : @heap Float Vocabulary F DataFrame Series)
  (refs : list (string * nat)) (o : DatasetConfig_options).

Lemma store_same h r m : store h r m r = m.
Proof. unfold store. by rewrite Nat.eqb_refl. Qed.

Lemma store_other h r m r' : r' <> r -> store h r m r' = h r'.
Proof. unfold store. intros Hne. by destruct (Nat.eqb_spec r' r). Qed.






End DatasetConfigObjectFacts.

(** A loop over the references that works on one object per round does,
    when no object is held twice, what the loop over the objects
    themselves does. *)
Section OwnObjects.
Context {Float Vocabulary F DataFrame Series : Type}.
Context `{!TimeDependentFunctor F} `{!MetadataStore DataFrame Series}.
Implicit Types (h : @heap Float Vocabulary F DataFrame Series)
  (refs : list (string * nat)).

Variable on_value :
  string * MeasurementConfig Float Vocabulary F DataFrame Series ->
  res (string * MeasurementConfig Float Vocabulary F DataFrame Series).
Variable on_object : @heap Float Vocabulary F DataFrame Series -> string * nat ->
  res (@heap Float Vocabulary F DataFrame Series).

Hypothesis on_object_spec : forall h k r,
  match on_value (k, h r) with
  | Ok item => fst item = k
      /\ exists h', on_object h (k, r) = Ok h' /\ h' r = snd item
           /\ forall r', r' <> r -> h' r' = h r'
  | Raise e => on_object h (k, r) = Raise e
  end.

Lemma on_objects_frame refs : forall h h' r,
  foldM on_object refs h = Ok h' -> r ∉ refs.*2 -> h' r = h r.
Proof.
  induction refs as [|[k r0] refs IH]; intros h h' r; simpl; [by intros [= <-]|].
  intros (h1 & H1 & Hrest)%bind_Ok_inv [Hne Hnin]%not_elem_of_cons.
  rewrite (IH _ _ _ Hrest Hnin).
  pose proof (on_object_spec h k r0) as Hs.
  destruct (on_value (k, h r0)) as [item|e]; [|by rewrite Hs in H1].
  destruct Hs as (_ & h1' & E & _ & Hframe). rewrite E in H1. injection H1 as <-.
  by apply Hframe.
Qed.

Lemma on_own_objects refs : forall h,
  NoDup refs.*2 ->
  mapM on_value (map (fun item => (fst item, h (snd item))) refs)
  = res_map (fun h' => map (fun item => (fst item, h' (snd item))) refs)
      (foldM on_object refs h).
Proof.
  induction refs as [|[k r] refs IH]; intros h; simpl; [done|].
  intros [Hnin Hnd]%NoDup_cons.
  pose proof (on_object_spec h k r) as Hs.
  destruct (on_value (k, h r)) as [[k' m']|e]; simpl in *; [|by rewrite Hs].
  destruct Hs as (-> & h1 & -> & Hr & Hframe). simpl.
  assert (map (fun item => (fst item, h (snd item))) refs
          = map (fun item : string * nat => (fst item, h1 (snd item))) refs) as ->.
  { apply map_ext_in. intros [k' r'] Hin%list_elem_of_In. simpl. f_equal. symmetry.
    apply Hframe. intros ->. apply Hnin. by apply (list_elem_of_fmap_2 snd _ (k', r)). }
  rewrite (IH h1 Hnd).
  destruct (foldM on_object refs h1) as [h'|e] eqn:Hf; simpl; [|done].
  by rewrite (on_objects_frame _ _ _ _ Hf Hnin), Hr.
Qed.

End OwnObjects.

Section DatasetConfigObjectErrors.
Context {Float Vocabulary F DataFrame Series : Type}.
Context `{!TimeDependentFunctor F} `{!MetadataStore DataFrame Series}.
Implicit Types (h : @heap Float Vocabulary F DataFrame Series)
  (refs : list (string * nat)) (o : DatasetConfig_options).

Lemma name_object_spec h k r :
  match name_measurement (k, h r) with
  | Ok item => fst item = k
      /\ exists h', name_object h (k, r) = Ok h' /\ h' r = snd item
           /\ forall r', r' <> r -> h' r' = h r'
  | Raise e => name_object h (k, r) = Raise e
  end.
Proof.
  unfold name_measurement, name_object. destruct (name (h r)) as [n|]; simpl.
  - destruct (String.eqb n k); simpl; [|done]. split; [done|]. by exists h.
  - split; [done|]. eexists; split; [done|]. split; [by rewrite store_same|].
    intros r' Hne. by rewrite store_other.
Qed.

Lemma revalidate_object_spec h k r :
  match revalidate_measurement (k, h r) with
  | Ok item => fst item = k
      /\ exists h', revalidate_object h (k, r) = Ok h' /\ h' r = snd item
           /\ forall r', r' <> r -> h' r' = h r'
  | Raise e => revalidate_object h (k, r) = Raise e
  end.
Proof.
  unfold revalidate_measurement, revalidate_object. destruct (_validate (h r)); simpl; [|done].
  split; [done|]. eexists; split; [done|]. split; [by rewrite store_same|].
  intros r' Hne. by rewrite store_other.
Qed.


(** When every key holds an object of its own, [__post_init__] is
    [DatasetConfig_init] on the objects. *)
Lemma DatasetConfig_init_own_objects h refs o :
  NoDup refs.*2 ->
  DatasetConfig_init (held h refs o)
  = res_map (fun p => held (fst p) refs (snd p)) (DatasetConfig_post_init h refs o).
Proof.
  intros Hnd. unfold DatasetConfig_init, DatasetConfig_post_init, held; simpl.
  rewrite (on_own_objects _ _ name_object_spec refs h Hnd).
  destruct (foldM name_object refs h) as [h1|]; simpl; [|done].
  destruct (check_options o) as [[]|]; simpl; [|done].
  rewrite (on_own_objects _ _ revalidate_object_spec refs h1 Hnd).
  by destruct (foldM revalidate_object refs h1).
Qed.

End DatasetConfigObjectErrors.



Example invalid_measurement_wrapped :
  let regression : MeasurementConfig unit unit unit unit unit :=
    {| name := None; temporality := Some T_STATIC; modality := Some UNIVARIATE_REGRESSION;
       observation_frequency := None; functor := None; vocabulary := None;
       values_column := None; _measurement_metadata := MD_None |} in
  _validate (set_name regression (Some "weight"))
  = Raise (Exn NotImplementedError
             "Numeric data modalities like {self.modality} not yet supported on static measures."
             [])
  /\ DatasetConfig_post_init (fun _ => regression) [("weight", 0%nat)] default_options
     = Raise (measurement_invalid "weight").
Proof. split; reflexivity. Qed.

(** ** [DatasetConfig.from_simple_args] *)

Section SimpleArgsFacts.
Context {Float Vocabulary F DataFrame Series : Type}.
Context `{!TimeDependentFunctor F} `{!MetadataStore DataFrame Series}.
Implicit Types (m : MeasurementConfig Float Vocabulary F DataFrame Series)
  (c : string)
  (mcs : list (string * MeasurementConfig Float Vocabulary F DataFrame Series)).

(** The kinds of configuration that [from_simple_args] builds. *)
Lemma new_univariate_measurement :
  new_MeasurementConfig T_DYNAMIC (Some UNIVARIATE_REGRESSION) None None
  = Ok (plain_measurement None T_DYNAMIC UNIVARIATE_REGRESSION None None
        : MeasurementConfig Float Vocabulary F DataFrame Series).
Proof. reflexivity. Qed.

Lemma new_multivariate_measurement v :
  new_MeasurementConfig T_DYNAMIC (Some MULTIVARIATE_REGRESSION) None (Some v)
  = Ok (plain_measurement None T_DYNAMIC MULTIVARIATE_REGRESSION None (Some v)
        : MeasurementConfig Float Vocabulary F DataFrame Series).
Proof. reflexivity. Qed.

Lemma new_multi_label_measurement :
  new_MeasurementConfig T_DYNAMIC (Some MULTI_LABEL_CLASSIFICATION) None None
  = Ok (plain_measurement None T_DYNAMIC MULTI_LABEL_CLASSIFICATION None None
        : MeasurementConfig Float Vocabulary F DataFrame Series).
Proof. reflexivity. Qed.

Lemma new_static_measurement :
  new_MeasurementConfig T_STATIC (Some SINGLE_LABEL_CLASSIFICATION) None None
  = Ok (plain_measurement None T_STATIC SINGLE_LABEL_CLASSIFICATION None None
        : MeasurementConfig Float Vocabulary F DataFrame Series).
Proof. reflexivity. Qed.

Lemma new_time_dependent_measurement (f : F) :
  new_MeasurementConfig T_FUNCTIONAL_TIME_DEPENDENT None (Some f) None
  = if bool_decide (OUTPUT_MODALITY f = MULTIVARIATE_REGRESSION)
    then Raise (Exn ValueError
                  "values_column must be set on a {self.modality} MeasurementConfig" [])
    else Ok (plain_measurement None T_FUNCTIONAL_TIME_DEPENDENT (OUTPUT_MODALITY f)
               (Some f) None
             : MeasurementConfig Float Vocabulary F DataFrame Series).
Proof.
  unfold new_MeasurementConfig, MeasurementConfig_init, _validate, validate_temporality,
    validate_modality, plain_measurement. simpl.
  by destruct (OUTPUT_MODALITY f).
Qed.

End SimpleArgsFacts.

Section SimpleArgs.
Context {Float Vocabulary F DataFrame Series : Type}.
Context `{!TimeDependentFunctor F} `{!MetadataStore DataFrame Series}.
Implicit Types (m : MeasurementConfig Float Vocabulary F DataFrame Series)
  (c : string)
  (mcs : list (string * MeasurementConfig Float Vocabulary F DataFrame Series)).

Lemma is_simple_measurement_valid n m : is_simple_measurement n m -> _validate m = Ok m.
Proof.
  intros [->|[[v ->]|[->|[->|(f & -> & Hf)]]]]; try reflexivity.
  unfold _validate, validate_temporality, validate_modality, plain_measurement. simpl.
  rewrite (bool_decide_eq_true_2 (OUTPUT_MODALITY f = OUTPUT_MODALITY f)) by done.
  rewrite orb_true_r. simpl. by destruct (OUTPUT_MODALITY f).
Qed.

Lemma is_simple_measurement_named n k m :
  is_simple_measurement n m -> is_simple_measurement (Some k) (set_name m (Some k)).
Proof.
  unfold is_simple_measurement.
  intros [->|[[v ->]|[->|[->|(f & -> & Hf)]]]]; eauto 10.
Qed.

Lemma add_dynamic_measurement_simple mcs x mcs' :
  Forall (fun item => is_simple_measurement None (snd item)) mcs ->
  add_dynamic_measurement mcs x = Ok mcs' ->
  Forall (fun item => is_simple_measurement None (snd item)) mcs'.
Proof.
  intros Hm. unfold add_dynamic_measurement.
  destruct (seq2 x) as [[a b]|]; case_guards; intros [= <-];
    apply dict_set_Forall; try done; unfold is_simple_measurement; simpl; eauto 10.
Qed.

Lemma add_static_measurement_simple mcs c mcs' :
  Forall (fun item => is_simple_measurement None (snd item)) mcs ->
  add_static_measurement mcs c = Ok mcs' ->
  Forall (fun item => is_simple_measurement None (snd item)) mcs'.
Proof.
  intros Hm [= <-]. apply dict_set_Forall; [|done]. unfold is_simple_measurement. simpl. eauto 10.
Qed.

Lemma add_time_dependent_measurement_Ok mcs c (f : F) mcs' :
  add_time_dependent_measurement mcs (c, f) = Ok mcs' ->
  OUTPUT_MODALITY f <> MULTIVARIATE_REGRESSION
  /\ mcs' = dict_set c (plain_measurement None T_FUNCTIONAL_TIME_DEPENDENT (OUTPUT_MODALITY f)
                          (Some f) None) mcs.
Proof.
  unfold add_time_dependent_measurement. rewrite new_time_dependent_measurement.
  destruct (bool_decide _) eqn:E; [done|]. intros [= <-].
  by apply bool_decide_eq_false in E.
Qed.

Lemma add_time_dependent_measurement_simple mcs (item : string * F) mcs' :
  Forall (fun item => is_simple_measurement None (snd item)) mcs ->
  add_time_dependent_measurement mcs item = Ok mcs' ->
  Forall (fun item => is_simple_measurement None (snd item)) mcs'.
Proof.
  destruct item as [c f]. intros Hm [Hf ->]%add_time_dependent_measurement_Ok.
  apply dict_set_Forall; [|done]. unfold is_simple_measurement. simpl. eauto 10.
Qed.

(** Lookups after the loops over the static and the time-dependent columns. *)
Lemma add_static_measurements_lookup l mcs mcs' c :
  foldM add_static_measurement l mcs = Ok mcs' ->
  c ∈ l \/ dict_get c mcs
           = Some (plain_measurement None T_STATIC SINGLE_LABEL_CLASSIFICATION None None) ->
  dict_get c mcs' = Some (plain_measurement None T_STATIC SINGLE_LABEL_CLASSIFICATION None None).
Proof.
  revert mcs. induction l as [|c' l IH]; intros mcs; simpl.
  - intros [= <-] [?%elem_of_nil|?]; done.
  - intros H Hc. apply (IH _ H). destruct (decide (c' = c)) as [->|Hne].
    + right. apply dict_get_set_eq.
    + destruct Hc as [[?|?]%elem_of_cons|Hc]; [done|by left|].
      right. by rewrite dict_get_set_ne.
Qed.

Lemma add_time_dependent_measurements_other (l : list (string * F)) mcs mcs' c :
  foldM add_time_dependent_measurement l mcs = Ok mcs' ->
  c ∉ l.*1 -> dict_get c mcs' = dict_get c mcs.
Proof.
  revert mcs. induction l as [|[c' f] l IH]; intros mcs; simpl.
  - by intros [= <-].
  - intros (mcs1 & [_ ->]%add_time_dependent_measurement_Ok & H)%bind_Ok_inv
      [Hne Hl]%not_elem_of_cons.
    rewrite (IH _ H Hl). by apply dict_get_set_ne.
Qed.

Lemma add_time_dependent_measurements_last (l1 l2 : list (string * F)) c f mcs mcs' :
  foldM add_time_dependent_measurement (l1 ++ (c, f) :: l2) mcs = Ok mcs' ->
  c ∉ l2.*1 ->
  OUTPUT_MODALITY f <> MULTIVARIATE_REGRESSION
  /\ dict_get c mcs'
     = Some (plain_measurement None T_FUNCTIONAL_TIME_DEPENDENT (OUTPUT_MODALITY f) (Some f) None).
Proof.
  rewrite foldM_app. intros (mcs1 & _ & H)%bind_Ok_inv Hl2. simpl in H.
  apply bind_Ok_inv in H as (mcs2 & [Hf ->]%add_time_dependent_measurement_Ok & H).
  split; [done|]. rewrite (add_time_dependent_measurements_other _ _ _ _ H Hl2).
  apply dict_get_set_eq.
Qed.

(** [__post_init__] on configurations that have no name yet and are valid:
    each takes its key as name and nothing else changes. *)
Lemma DatasetConfig_init_unnamed mcs (o : DatasetConfig_options)
    (cfg : DatasetConfig Float Vocabulary F DataFrame Series) :
  Forall (fun item => is_simple_measurement None (snd item)) mcs ->
  DatasetConfig_init (mkDatasetConfig mcs o) = Ok cfg ->
  measurement_configs cfg = map (fun item => (fst item, set_name (snd item) (Some (fst item)))) mcs.
Proof.
  intros Hs Hinit. pose proof (DatasetConfig_init_measurements _ _ Hinit) as Hm. simpl in Hm.
  clear Hinit. revert Hs. induction Hm as [|[k m] [k' m'] l l' (Hk & _ & Hv & _) _ IH];
    [done|]. intros [Hs Hl]%Forall_cons. simpl in *. rewrite IH by done. subst k'.
  rewrite validate_set_name, (is_simple_measurement_valid _ _ Hs) in Hv. simpl in Hv.
  by injection Hv as <-.
Qed.

Lemma dict_get_map_named mcs c :
  dict_get c (map (fun item => (fst item, set_name (snd item) (Some (fst item)))) mcs)
  = (fun m => set_name m (Some c)) <$> dict_get c mcs.
Proof.
  induction mcs as [|[k m] mcs IH]; simpl; [done|].
  by destruct (String.eqb_spec c k) as [->|].
Qed.

End SimpleArgs.

(** X15. What [from_simple_args] builds when it succeeds: every measurement
    is named by its key, valid, and one of five kinds (a dynamic univariate or
    multivariate regression or multi-label classification, a static
    single-label classification, or a functional-time-dependent measurement
    whose modality is the output modality of its functor, which is then not a
    multivariate regression); a time-dependent column holds the configuration
    of its last functor; a static column that is not also time-dependent is a
    static single-label classification, whatever the dynamic columns say; and
    the other options are the keyword arguments, [save_dir] turned into a
    [Path]. *)
Theorem from_simple_args_measurements
    {Float Vocabulary F DataFrame Series : Type}
    `{!TimeDependentFunctor F} `{!MetadataStore DataFrame Series}
    (dynamic_measurement_columns : option (list pyval))
    (static_measurement_columns : option (list string))
    (time_dependent_measurement_columns : option (list (string * F)))
    (kwargs : DatasetConfig_options)
    (cfg : DatasetConfig Float Vocabulary F DataFrame Series) :
  from_simple_args dynamic_measurement_columns static_measurement_columns
    time_dependent_measurement_columns kwargs = Ok cfg ->
  Forall (fun item => is_simple_measurement (Some (fst item)) (snd item)
                      /\ _validate (snd item) = Ok (snd item))
    (measurement_configs cfg)
  /\ (forall l1 c f l2,
        time_dependent_measurement_columns = Some (l1 ++ (c, f) :: l2)%list ->
        c ∉ l2.*1 ->
        OUTPUT_MODALITY f <> MULTIVARIATE_REGRESSION
        /\ dict_get c (measurement_configs cfg)
           = Some (plain_measurement (Some c) T_FUNCTIONAL_TIME_DEPENDENT (OUTPUT_MODALITY f)
                     (Some f) None))
  /\ (forall l c,
        static_measurement_columns = Some l -> c ∈ l ->
        (forall l', time_dependent_measurement_columns = Some l' -> c ∉ l'.*1) ->
        dict_get c (measurement_configs cfg)
        = Some (plain_measurement (Some c) T_STATIC SINGLE_LABEL_CLASSIFICATION None None))
  /\ options cfg = with_save_dir_as_Path kwargs.
Proof.
  unfold from_simple_args.
  intros (mcs1 & H1 & (mcs2 & H2 & (mcs3 & H3 & Hinit)%bind_Ok_inv)%bind_Ok_inv)%bind_Ok_inv.
  assert (Forall (fun item => is_simple_measurement None (snd item)) mcs1) as Hs1.
  { destruct dynamic_measurement_columns as [l|]; [|injection H1 as <-; constructor].
    revert H1. apply (foldM_invariant
      (fun mcs => Forall (fun item => is_simple_measurement None (snd item)) mcs));
      [|constructor].
    intros b x b'. apply add_dynamic_measurement_simple. }
  assert (Forall (fun item => is_simple_measurement None (snd item)) mcs2) as Hs2.
  { destruct static_measurement_columns as [l|]; [|by injection H2 as <-].
    revert H2. apply (foldM_invariant
      (fun mcs => Forall (fun item => is_simple_measurement None (snd item)) mcs));
      [|done].
    intros b x b'. apply add_static_measurement_simple. }
  assert (Forall (fun item => is_simple_measurement None (snd item)) mcs3) as Hs3.
  { destruct time_dependent_measurement_columns as [l|]; [|by injection H3 as <-].
    revert H3. apply (foldM_invariant
      (fun mcs => Forall (fun item => is_simple_measurement None (snd item)) mcs));
      [|done].
    intros b x b'. apply add_time_dependent_measurement_simple. }
  pose proof (DatasetConfig_init_unnamed _ _ _ Hs3 Hinit) as Hcfg.
  split; [|split; [|split]].
  - rewrite Hcfg. apply Forall_fmap. eapply Forall_impl; [exact Hs3|].
    intros [k m] Hm. simpl in *.
    pose proof (is_simple_measurement_named _ k _ Hm) as Hn.
    split; [done|]. by apply (is_simple_measurement_valid (Some k)).
  - intros l1 c f l2 -> Hl2.
    destruct (add_time_dependent_measurements_last _ _ _ _ _ _ H3 Hl2) as [Hf Hget].
    split; [done|]. by rewrite Hcfg, dict_get_map_named, Hget.
  - intros l c -> Hc Htd.
    rewrite Hcfg, dict_get_map_named.
    assert (dict_get c mcs2
            = Some (plain_measurement None T_STATIC SINGLE_LABEL_CLASSIFICATION None None))
      as Hget by (apply (add_static_measurements_lookup l mcs1); [done|by left]).
    destruct time_dependent_measurement_columns as [l'|].
    + rewrite (add_time_dependent_measurements_other _ _ _ _ H3 (Htd l' eq_refl)).
      by rewrite Hget.
    + injection H3 as <-. by rewrite Hget.
  - by apply DatasetConfig_init_Ok in Hinit as (_ & _ & _ & _ & ->).
Qed.

Lemma from_simple_args_measurements_witness :
  exists cfg : DatasetConfig unit unit unit unit unit,
    from_simple_args
      (Some [VStr "diagnosis"; VTuple [VStr "lab"; VStr "value"]; VTuple [VNone; VStr "hr"]])
      (Some ["sex"; "age"]) (Some [("age", tt)]) default_options = Ok cfg
    /\ dict_get "age" (measurement_configs cfg)
       = Some (plain_measurement (Some "age") T_FUNCTIONAL_TIME_DEPENDENT UNIVARIATE_REGRESSION
                 (Some tt) None)
    /\ dict_get "sex" (measurement_configs cfg)
       = Some (plain_measurement (Some "sex") T_STATIC SINGLE_LABEL_CLASSIFICATION None None).
Proof.
  let r := eval vm_compute in
    (from_simple_args (Float:=unit) (Vocabulary:=unit) (F:=unit)
       (DataFrame:=unit) (Series:=unit)
       (Some [VStr "diagnosis"; VTuple [VStr "lab"; VStr "value"]; VTuple [VNone; VStr "hr"]])
       (Some ["sex"; "age"]) (Some [("age", tt)]) default_options) in
  match r with
  | Ok ?cfg =>
      assert (from_simple_args
                (Some [VStr "diagnosis"; VTuple [VStr "lab"; VStr "value"];
                       VTuple [VNone; VStr "hr"]])
                (Some ["sex"; "age"]) (Some [("age", tt)]) default_options = Ok cfg) as H
        by (vm_compute; reflexivity);
      exists cfg; split; [exact H|];
      destruct (from_simple_args_measurements _ _ _ _ _ H) as (_ & Htd & Hst & _);
      split;
      [exact (proj2 (Htd [] "age" tt [] eq_refl ltac:(apply not_elem_of_nil)))
      |apply (Hst ["sex"; "age"] "sex" eq_refl);
       [apply elem_of_cons; by left
       |intros l' [= <-]; simpl; intros [?|?%elem_of_nil]%elem_of_cons; done]]
  end.
Defined.

(** ** The utilities *)

Lemma num_initial_spaces_from_spec (s : string) (out : Z) :
  exists k : nat,
    num_initial_spaces_from out s = out + Z.of_nat k
    /\ (k <= String.length s)%nat
    /\ (forall i, (i < k)%nat -> String.get i s = Some Ascii.Space)
    /\ String.get k s <> Some Ascii.Space.
Proof.
  revert out. induction s as [|c s IH]; intros out; simpl.
  - exists 0%nat. repeat split; [lia|lia|intros; lia|done].
  - destruct (Ascii.eqb_spec c Ascii.Space) as [->|Hc].
    + destruct (IH (out + 1)) as (k & -> & Hk & Hsp & Hend).
      exists (S k). repeat split; [lia|lia| |done].
      intros [|i] Hi; simpl; [done|]. apply Hsp. lia.
    + exists 0%nat. repeat split; [lia|lia|intros; lia|]. simpl. congruence.
Qed.

(** X16. [num_initial_spaces s] is the length of the longest prefix of
    spaces of [s]: it is between 0 and the length of [s], every character
    before that position is a space, and the character at that position, if
    there is one, is not. *)
Theorem num_initial_spaces_spec (s : string) :
  0 <= num_initial_spaces s <= Z.of_nat (String.length s)
  /\ (forall i, (i < Z.to_nat (num_initial_spaces s))%nat -> String.get i s = Some Ascii.Space)
  /\ String.get (Z.to_nat (num_initial_spaces s)) s <> Some Ascii.Space.
Proof.
  unfold num_initial_spaces.
  destruct (num_initial_spaces_from_spec s 0) as (k & -> & Hk & Hsp & Hend).
  rewrite Z.add_0_l, Nat2Z.id. repeat split; [lia|lia|done|done].
Qed.

Section FlattenFacts.
Context {V : Type}.
Implicit Types (k : pyval) (v : V) (out : list (pyval * V)) (keys : list pyval).

Lemma flatten_keys keys v out :
  Forall (fun k => is_str k = true) keys ->
  Forall (fun kv => is_str (fst kv) = true) out ->
  exists out',
    foldM (fun out k =>
             check py_hashable k else Exn TypeError "unhashable type" [k];
             Ok (pydict_set k v out)) keys out = Ok out'
    /\ Forall (fun kv => is_str (fst kv) = true) out'
    /\ forall k, is_str k = true ->
         pydict_get k out' = if existsb (py_eq k) keys then Some v else pydict_get k out.
Proof.
  intros Hkeys. revert out. induction Hkeys as [|k0 keys Hk0 Hkeys IH]; intros out Hout; simpl.
  - by exists out.
  - assert (py_hashable k0 = true) as -> by (by destruct k0).
    simpl. destruct (IH (pydict_set k0 v out)) as (out' & -> & Hout' & Hget);
      [by apply pydict_set_keys|].
    exists out'. repeat split; [done|]. intros k Hk. rewrite (Hget k Hk).
    destruct (existsb (py_eq k) keys); [by rewrite orb_true_r|]. rewrite orb_false_r.
    destruct (py_eq k k0) eqn:E.
    + by apply pydict_get_set_same.
    + apply pydict_get_set_ne; try done. by rewrite py_eq_str_sym.
Qed.

Lemma flatten_items (exp_dict : list (pyval * V)) out :
  Forall (fun item => exists l, py_iter (fst item) = Ok l
                                /\ Forall (fun k => is_str k = true) l) exp_dict ->
  Forall (fun kv => is_str (fst kv) = true) out ->
  exists out',
    foldM flatten_item exp_dict out = Ok out'
    /\ forall k, is_str k = true ->
         pydict_get k out' =
           match last (map snd (List.filter
                                  (fun item => match py_iter (fst item) with
                                               | Ok l => existsb (py_eq k) l
                                               | Raise _ => false
                                               end) exp_dict)) with
           | Some v => Some v
           | None => pydict_get k out
           end.
Proof.
  intros Hd. revert out. induction Hd as [|[ks v] d (l & Hl & Hstr) Hd IH]; intros out Hout.
  - by exists out.
  - simpl in *. rewrite Hl. simpl.
    destruct (flatten_keys l v out Hstr Hout) as (out1 & -> & Hout1 & Hget1). simpl.
    destruct (IH out1 Hout1) as (out' & -> & Hget). exists out'. split; [done|].
    intros k Hk. rewrite (Hget k Hk), (Hget1 k Hk).
    destruct (existsb (py_eq k) l) eqn:E; simpl.
    + rewrite last_cons. by destruct (last _).
    + done.
Qed.

End FlattenFacts.

(** X17. [flatten_dict] maps each element of each key to the value of the
    last item whose key holds it: for a dictionary whose keys iterate over
    strings (tuples of strings, or strings, which are iterated character by
    character), it returns, and looking up a string [k] in the result gives
    the value of the last item whose key holds [k], and nothing when no key
    holds [k]. *)
Theorem flatten_dict_lookup {V} (exp_dict : list (pyval * V)) :
  Forall (fun item => exists l, py_iter (fst item) = Ok l
                                /\ Forall (fun k => is_str k = true) l) exp_dict ->
  exists out,
    flatten_dict exp_dict = Ok out
    /\ forall k, is_str k = true ->
         pydict_get k out =
           last (map snd (List.filter
                            (fun item => match py_iter (fst item) with
                                         | Ok l => existsb (py_eq k) l
                                         | Raise _ => false
                                         end) exp_dict)).
Proof.
  intros Hd. destruct (flatten_items exp_dict [] Hd (Forall_nil_2 _)) as (out & Hout & Hget).
  exists out. split; [done|]. intros k Hk. rewrite (Hget k Hk). by destruct (last _).
Qed.

Lemma flatten_dict_lookup_witness :
  exists out,
    flatten_dict [(VTuple [VStr "a"; VStr "b"], 1); (VTuple [VStr "b"; VStr "c"], 2);
                  (VStr "de", 3)] = Ok out
    /\ pydict_get (VStr "b") out = Some 2 /\ pydict_get (VStr "e") out = Some 3
    /\ pydict_get (VStr "de") out = None.
Proof.
  destruct (flatten_dict_lookup
              [(VTuple [VStr "a"; VStr "b"], 1); (VTuple [VStr "b"; VStr "c"], 2);
               (VStr "de", 3)]) as (out & Hout & Hget).
  - repeat constructor; simpl; eexists; (split; [reflexivity|]); repeat constructor.
  - exists out. split; [exact Hout|].
    split; [exact (Hget (VStr "b") eq_refl)|].
    split; [exact (Hget (VStr "e") eq_refl)|exact (Hget (VStr "de") eq_refl)].
Defined.

(** ** Sources written to JSON and read back *)

Section JsonFacts.
Implicit Types (v e col : pyval) (l : list pyval) (s : InputDFSchema_fields).

Lemma json_value_sequence l :
  json_value (VList l) = (do l' <- mapM json_value l; Ok (VList l'))
  /\ json_value (VTuple l) = (do l' <- mapM json_value l; Ok (VList l')).
Proof.
  assert ((fix elements (l : list pyval) : res (list pyval) :=
             match l with
             | [] => Ok []
             | x :: l' => do y <- json_value x; do ys <- elements l'; Ok (y :: ys)
             end) l = mapM json_value l) as H.
  { induction l as [|x l IH]; simpl; [done|]. by rewrite IH. }
  simpl. by rewrite H.
Qed.

Lemma mapM_elem_of {E A B} (f : A -> result E B) (xs : list A) ys x :
  mapM f xs = Ok ys -> x ∈ xs -> exists y, f x = Ok y /\ y ∈ ys.
Proof.
  intros Hm%mapM_Ok Hx. induction Hm as [|x' y' xs ys Hxy Hm IH]; [by apply elem_of_nil in Hx|].
  apply elem_of_cons in Hx as [->|Hx].
  - exists y'. split; [done|left].
  - destruct (IH Hx) as (y & Hy & Hin). exists y. split; [done|by right].
Qed.

(** A pair of column(s) and an [InputDataType] member comes back as a list
    that ends in a plain string. *)
Lemma json_value_typed_pair e col t e' :
  seq2 e = Some (col, VDataType t) -> json_value e = Ok e' ->
  exists col', e' = VList [col'; VStr (InputDataType_value t)].
Proof.
  intros Hseq. unfold seq2 in Hseq.
  destruct e as [| | | | |l|l|]; try done; simpl in Hseq;
    destruct l as [|a [|b [|? ?]]]; try done; injection Hseq as -> ->;
    [rewrite (proj1 (json_value_sequence _))|rewrite (proj2 (json_value_sequence _))];
    simpl; destruct (json_value col) as [col'|]; try done; simpl;
    intros [= <-]; by exists col'.
Qed.

(** Such a list is not a shape the unifier knows. *)
Lemma unify_entry_plain_string_type container col' str :
  is_ok (unify_entry container (VList [col'; VStr str])) = false.
Proof. unfold unify_entry. simpl. by destruct col'. Qed.

Lemma foldM_raises {E A B} (f : B -> A -> result E B) (xs : list A) x b :
  x ∈ xs -> (forall b, is_ok (f b x) = false) -> is_ok (foldM f xs b) = false.
Proof.
  intros Hx Hf. revert b. induction xs as [|x' xs IH]; intros b; [by apply elem_of_nil in Hx|].
  simpl. apply elem_of_cons in Hx as [->|Hx].
  - specialize (Hf b). by destruct (f b x').
  - destruct (f b x'); [by apply IH|done].
Qed.

Lemma InputDFSchema_init_data_schema (kwargs : InputDFSchema_fields) (obj : InputDFSchema) :
  InputDFSchema_init kwargs = Ok obj ->
  data_schema obj = wrap_schema (data_schema kwargs).
Proof.
  intros (ty & filters & s & _ & Hty & _ & Hs & _ & ->)%InputDFSchema_init_Ok. simpl.
  destruct ty.
  - by apply post_init_static_fields in Hs as ->.
  - by apply post_init_event_fields in Hs as ->.
  - destruct (post_init_range_Ok _ _ Hs) as (et & s1 & _ & H1 & H2).
    destruct (range_formats_fields _ _ H2) as (_ & -> & _).
    apply range_data_schemas_Ok in H1. simpl in H1.
    destruct (is_None (wrap_schema (data_schema kwargs))); [by subst s1|].
    by destruct H1 as (_ & _ & ->).
Qed.

(** A source cannot be built with an entry in its [data_schema] that the
    unifier rejects. *)
Lemma InputDFSchema_init_rejects (kwargs : InputDFSchema_fields) l x :
  wrap_schema (data_schema kwargs) = VList l -> x ∈ l ->
  (forall container, is_ok (unify_entry container x) = false) ->
  is_ok (InputDFSchema_init kwargs) = false.
Proof.
  intros Hl Hx Hrej. destruct (InputDFSchema_init kwargs) as [obj|] eqn:Hinit; [|done].
  exfalso. pose proof (InputDFSchema_init_data_schema _ _ Hinit) as Hds. rewrite Hl in Hds.
  destruct (InputDFSchema_init_preserves _ _ Hinit) as (Hty & _ & _).
  pose proof Hinit as (ty & filters & s & _ & Hty' & _ & _ & Hc & ->)%InputDFSchema_init_Ok.
  simpl in *. rewrite Hty' in Hty.
  assert (is_ok (unify_schema (VList l)) = false) as Hu
    by (unfold unify_schema; simpl; by apply (foldM_raises _ _ x)).
  unfold columns_to_load in Hc. rewrite Hty in Hc. destruct ty.
  - unfold unified_event_schema in Hc. rewrite Hds in Hc.
    by destruct (unify_schema (VList l)).
  - unfold unified_event_schema in Hc. rewrite Hds in Hc.
    by destruct (unify_schema (VList l)).
  - destruct (range_schemas_normal _ _ Hinit Hty') as (_ & _ & _ & Hnorm & _). simpl in Hnorm.
    destruct Hnorm as [Hnone|[Hst Hen]]; [congruence|].
    unfold unified_eq_schema in Hc. rewrite Hty, Hst, Hen, Hds in Hc. simpl in Hc.
    assert (is_ok (unify_schema (VList (l ++ l))) = false) as Hu'.
    { unfold unify_schema; simpl. apply (foldM_raises _ _ x); [|done].
      apply elem_of_app. by left. }
    by destruct (unify_schema (VList (l ++ l))).
Qed.

End JsonFacts.

(** A schema given as a dictionary of strings is read back as it was. *)
Example json_round_trip_of_dictionary_schema :
  let kwargs := labs (VStr "charttime") (VDict [(VStr "hr", VStr "float")]) None in
  match InputDFSchema_init kwargs with
  | Ok s => InputDFSchema_json_round_trip s = Ok s
  | Raise _ => False
  end.
Proof. reflexivity. Qed.

(** X18. A (column(s), [InputDataType]) pair does not survive JSON: for a
    source whose [data_schema] holds an entry that is a pair ending in an
    [InputDataType] member, reading back what [to_json_file] wrote raises,
    because the member comes back as a plain string, which the pair shapes of
    [_unify_schema] do not accept. *)
Theorem typed_pair_lost_through_json
    (s : InputDFSchema) (l : list pyval) (e col : pyval) (t : InputDataType) :
  data_schema s = VList l -> e ∈ l -> seq2 e = Some (col, VDataType t) ->
  is_ok (InputDFSchema_json_round_trip s) = false.
Proof.
  intros Hds He Hseq. unfold InputDFSchema_json_round_trip, InputDFSchema_to_dict.
  destruct (InputDFSchema_json s) as [d|] eqn:Hd; [|done]. simpl.
  unfold InputDFSchema_json in Hd. rewrite Hds, (proj1 (json_value_sequence l)) in Hd.
  repeat (apply bind_Ok_inv in Hd as (? & ? & Hd)).
  match goal with
  | H : bind (mapM json_value l) _ = Ok _ |- _ =>
      apply bind_Ok_inv in H as (l' & Hl' & [= <-])
  end.
  injection Hd as <-.
  destruct (mapM_elem_of _ _ _ _ Hl' He) as (e' & He' & Hin).
  destruct (json_value_typed_pair _ _ _ _ Hseq He') as (col' & ->).
  apply (InputDFSchema_init_rejects _ l' (VList [col'; VStr (InputDataType_value t)]));
    [done|done|].
  intros container. apply unify_entry_plain_string_type.
Qed.

Lemma typed_pair_lost_through_json_witness :
  let kwargs := labs (VStr "charttime") (VTuple [VStr "hr"; VDataType FLOAT]) None in
  exists s,
    InputDFSchema_init kwargs = Ok s
    /\ is_ok (InputDFSchema_json_round_trip s) = false.
Proof.
  intros kwargs.
  let r := eval vm_compute in (InputDFSchema_init kwargs) in
  match r with
  | Ok ?s =>
      exists s; split; [reflexivity|];
      apply (typed_pair_lost_through_json s [VTuple [VStr "hr"; VDataType FLOAT]]
               (VTuple [VStr "hr"; VDataType FLOAT]) (VStr "hr") FLOAT);
      [reflexivity|left|reflexivity]
  end.
Defined.
